(** * Vetting API: custodial wallet derivation, vetting status resolver and
    the HTTP dispatch shell, embedded from the JavaScript sources.

    Layout:
    - [Js]      JavaScript values as the handlers see them (JSON bodies, RPC
                responses), completions (normal / thrown), property access;
    - [Bytes]   byte buffers, hex and base64 renderings ([Buffer.toString]);
    - [Sha256]  SHA-256 and HMAC-SHA256 ([crypto.createHmac('sha256', k)]);
    - [Sdk]     what the scripts use of @mysten/sui, as an interface;
    - [Effects] the world around a request and the monad of its effects;
    - [Wallet]  createCustodialWallet.js;
    - [Vetting] lib/statusOfVetting.js, statusOfVetting.js, lib/approveVetting.js;
    - [Mint]    reading a transaction response, mintRestrictedNFT.js;
    - [Server]  apiServer.js (validators, mintNFT, the POST routes);
    - [Demo]    a stand-in SDK and worlds for closed examples;
    - [Footprint] what a computation may leave behind (remote calls, answers);
    - [Hex]     the key conversion script (hexToBytes, bytesToHex);
    - [Submit]  lib/submitForVetting.js;
    - [Display] createDisplay and initializeVettingTable;
    - [Supply]  fetchWithRetry and createSupply;
    - [Examples] further stand-ins for closed examples.

    Numbers are modelled as integers ([Z]): every number the modelled paths
    inspect is a byte of a BCS encoding, an array length or a supply limit.
    Strings are byte strings; they agree with JavaScript's on ASCII text.
    Thrown values are [Error] instances, as Node and the SDK throw them. *)

From Stdlib Require Import ZArith List String Ascii Lia Bool.
From stdpp Require Import base option list strings gmap pretty.

Set Warnings "-register-all".
Local Open Scope string_scope.
Local Open Scope list_scope.
Local Open Scope Z_scope.

(* ===================================================================== *)
(** ** JavaScript values and completions *)
(* ===================================================================== *)

Module Js.

Inductive jsval : Type :=
| JUndefined
| JNull
| JBool (b : bool)
| JNum (n : Z)
| JStr (s : string)
| JArr (items : list jsval)
| JObj (fields : list (string * jsval)).

(** A thrown value: an [Error] instance with its constructor name and its
    [message] (what the [catch] blocks of the sources read). *)
Record error : Type := Error { error_name : string; message : string }.

Inductive completion (A : Type) : Type :=
| Normal (a : A)
| Throw (e : error).
Arguments Normal {A} a.
Arguments Throw {A} e.

Definition cbind {A B} (c : completion A) (k : A -> completion B) : completion B :=
  match c with
  | Normal a => k a
  | Throw e => Throw e
  end.

Definition throw_error {A} (msg : string) : completion A :=
  Throw (Error "Error" msg).

Definition type_error {A} (msg : string) : completion A :=
  Throw (Error "TypeError" msg).

Definition reference_error {A} (ident : string) : completion A :=
  Throw (Error "ReferenceError" (ident +:+ " is not defined")).

(** [!v] is [negb (truthy v)]. *)
Definition truthy (v : jsval) : bool :=
  match v with
  | JUndefined | JNull => false
  | JBool b => b
  | JNum n => negb (n =? 0)
  | JStr s => negb (String.eqb s "")
  | JArr _ | JObj _ => true
  end.

Definition nullish (v : jsval) : bool :=
  match v with
  | JUndefined | JNull => true
  | _ => false
  end.

Definition typeof (v : jsval) : string :=
  match v with
  | JUndefined => "undefined"
  | JNull => "object"
  | JBool _ => "boolean"
  | JNum _ => "number"
  | JStr _ => "string"
  | JArr _ | JObj _ => "object"
  end.

(** [a || b] and [a ?? b] on values (both operands already evaluated). *)
Definition js_or (a b : jsval) : jsval := if truthy a then a else b.
Definition js_coalesce (a b : jsval) : jsval := if nullish a then b else a.

(** [v === 'lit'] and [v === n] against a literal. *)
Definition is_str (v : jsval) (lit : string) : bool :=
  match v with
  | JStr s => String.eqb s lit
  | _ => false
  end.

Definition is_num (v : jsval) (lit : Z) : bool :=
  match v with
  | JNum n => n =? lit
  | _ => false
  end.

Fixpoint assoc (k : string) (fs : list (string * jsval)) : option jsval :=
  match fs with
  | [] => None
  | (k', v) :: rest => if String.eqb k k' then Some v else assoc k rest
  end.

Definition nth_char (s : string) (i : nat) : jsval :=
  match String.get i s with
  | Some c => JStr (String c EmptyString)
  | None => JUndefined
  end.

Definition describe (v : jsval) : string :=
  match v with JNull => "null" | _ => "undefined" end.

(** [v.k] for a named property [k]. Reading a property of [undefined] or
    [null] throws a TypeError; primitives have no own named properties
    besides [length] on strings. *)
Definition get (v : jsval) (k : string) : completion jsval :=
  match v with
  | JUndefined | JNull =>
      type_error ("Cannot read properties of " +:+ describe v
                  +:+ " (reading '" +:+ k +:+ "')")
  | JObj fs => Normal (default JUndefined (assoc k fs))
  | JArr l =>
      if String.eqb k "length" then Normal (JNum (Z.of_nat (length l)))
      else Normal JUndefined
  | JStr s =>
      if String.eqb k "length" then Normal (JNum (Z.of_nat (String.length s)))
      else Normal JUndefined
  | JBool _ | JNum _ => Normal JUndefined
  end.

(** [v[i]] for an index literal [i]. *)
Definition get_index (v : jsval) (i : nat) : completion jsval :=
  match v with
  | JUndefined | JNull =>
      type_error ("Cannot read properties of " +:+ describe v
                  +:+ " (reading '" +:+ pretty i +:+ "')")
  | JObj fs => Normal (default JUndefined (assoc (pretty i) fs))
  | JArr l => Normal (default JUndefined (l !! i))
  | JStr s => Normal (nth_char s i)
  | JBool _ | JNum _ => Normal JUndefined
  end.

(** [const { k } = source]: destructuring reads the property like [v.k],
    with its own message when [v] is nullish. *)
Definition destructure (v : jsval) (source k : string) : completion jsval :=
  if nullish v
  then type_error ("Cannot destructure property '" +:+ k +:+ "' of '" +:+ source
                   +:+ "' as it is " +:+ describe v +:+ ".")
  else get v k.

(** [v?.k] and [v?.[i]]. *)
Definition get_opt (v : jsval) (k : string) : completion jsval :=
  if nullish v then Normal JUndefined else get v k.

Definition get_index_opt (v : jsval) (i : nat) : completion jsval :=
  if nullish v then Normal JUndefined else get_index v i.

Definition is_array (v : jsval) : bool :=
  match v with JArr _ => true | _ => false end.

Fixpoint join (sep : string) (parts : list string) : string :=
  match parts with
  | [] => ""
  | [p] => p
  | p :: rest => p +:+ sep +:+ join sep rest
  end.

(** ToString, as a template literal applies it. It is exact for integers
    below 10^21 (from there on the engine writes an exponent) and for
    objects without a [toString] entry of their own (with one, the engine
    finds nothing to call and throws a TypeError). *)
Fixpoint to_string (v : jsval) : string :=
  match v with
  | JUndefined => "undefined"
  | JNull => "null"
  | JBool true => "true"
  | JBool false => "false"
  | JNum n => pretty n
  | JStr s => s
  | JArr l =>
      join "," (map (fun x => if nullish x then "" else to_string x) l)
  | JObj _ => "[object Object]"
  end.

(** [hay.includes(needle)] on strings. *)
Fixpoint includes (needle hay : string) : bool :=
  String.prefix needle hay
  || match hay with
     | EmptyString => false
     | String _ rest => includes needle rest
     end.

(** Object literal construction and the spread [{...base, ...src}]: a key
    already present keeps its place and takes the new value (the engine's
    reordering of integer-like keys is not modelled; nothing reads it). *)
Fixpoint set_field (k : string) (v : jsval) (fs : list (string * jsval))
  : list (string * jsval) :=
  match fs with
  | [] => [(k, v)]
  | (k', v') :: rest =>
      if String.eqb k k' then (k, v) :: rest else (k', v') :: set_field k v rest
  end.

Definition spread (base src : list (string * jsval)) : list (string * jsval) :=
  fold_left (fun acc kv => set_field kv.1 kv.2 acc) src base.

(** Own enumerable properties copied by a spread of [v]. *)
Definition own_fields (v : jsval) : list (string * jsval) :=
  match v with
  | JObj fs => fs
  | JArr l => imap (fun i x => (pretty i, x)) l
  | JStr s => imap (fun i c => (pretty i, JStr (String c EmptyString)))
                   (list_ascii_of_string s)
  | _ => []
  end.

End Js.
Export Js.

Notation "x <~ c ;; k" := (cbind c (fun x => k))
  (at level 100, c at next level, right associativity).

(* ===================================================================== *)
(** ** Byte buffers and their renderings *)
(* ===================================================================== *)

Module Bytes.

(** A [Buffer] / [Uint8Array]: its bytes, each in [0, 256). *)
Abbreviation buffer := (list Z).

Definition is_byte (b : Z) : Prop := 0 <= b < 256.

(** UTF-8 bytes of a string (strings are kept as their bytes). *)
Definition utf8 (s : string) : buffer :=
  map (fun c => Z.of_N (N_of_ascii c)) (list_ascii_of_string s).

(** [buf.slice(a, b)] for [0 <= a <= b]. *)
Definition slice (a b : nat) (buf : buffer) : buffer :=
  take (b - a) (drop a buf).

Definition hex_digit (d : Z) : ascii :=
  default "0"%char (String.get (Z.to_nat d) "0123456789abcdef").

(** [Buffer.from(buf).toString('hex')] *)
Fixpoint to_hex (buf : buffer) : string :=
  match buf with
  | [] => ""
  | b :: rest =>
      String (hex_digit (b / 16)) (String (hex_digit (b mod 16)) (to_hex rest))
  end.

Definition b64_char (d : Z) : ascii :=
  default "A"%char
    (String.get (Z.to_nat d)
       "ABCDEFGHIJKLMNOPQRSTUVWXYZabcdefghijklmnopqrstuvwxyz0123456789+/").

(** [Buffer.from(buf).toString('base64')] (padded, standard alphabet). *)
Fixpoint to_base64 (buf : buffer) : string :=
  match buf with
  | [] => ""
  | [a] =>
      String (b64_char (a / 4))
        (String (b64_char ((a mod 4) * 16)) "==")
  | [a; b] =>
      String (b64_char (a / 4))
        (String (b64_char ((a mod 4) * 16 + b / 16))
           (String (b64_char ((b mod 16) * 4)) "="))
  | a :: b :: c :: rest =>
      String (b64_char (a / 4))
        (String (b64_char ((a mod 4) * 16 + b / 16))
           (String (b64_char ((b mod 16) * 4 + c / 64))
              (String (b64_char (c mod 64)) (to_base64 rest))))
  end.

End Bytes.
Export Bytes.

(* ===================================================================== *)
(** ** SHA-256 and HMAC-SHA256 (FIPS 180-4, RFC 2104) *)
(* ===================================================================== *)

Module Sha256.

Definition wrap32 (x : Z) : Z := x mod 2 ^ 32.
Definition add32 (x y : Z) : Z := wrap32 (x + y).
Definition rotr (n x : Z) : Z :=
  wrap32 (Z.lor (Z.shiftr x n) (Z.shiftl x (32 - n))).
Definition not32 (x : Z) : Z := 2 ^ 32 - 1 - x.

Definition ch (x y z : Z) : Z := Z.lxor (Z.land x y) (Z.land (not32 x) z).
Definition maj (x y z : Z) : Z :=
  Z.lxor (Z.lxor (Z.land x y) (Z.land x z)) (Z.land y z).
Definition bsig0 (x : Z) : Z := Z.lxor (Z.lxor (rotr 2 x) (rotr 13 x)) (rotr 22 x).
Definition bsig1 (x : Z) : Z := Z.lxor (Z.lxor (rotr 6 x) (rotr 11 x)) (rotr 25 x).
Definition ssig0 (x : Z) : Z := Z.lxor (Z.lxor (rotr 7 x) (rotr 18 x)) (Z.shiftr x 3).
Definition ssig1 (x : Z) : Z := Z.lxor (Z.lxor (rotr 17 x) (rotr 19 x)) (Z.shiftr x 10).

Definition hex_value (c : ascii) : Z :=
  let n := Z.of_N (N_of_ascii c) in
  if (48 <=? n) && (n <=? 57) then n - 48
  else if (97 <=? n) && (n <=? 102) then n - 87
  else 0.

(** Words written as groups of hexadecimal digits separated by blanks. *)
Fixpoint hex_words_go (s : string) (cur : Z) (open : bool) : list Z :=
  match s with
  | EmptyString => if open then [cur] else []
  | String c rest =>
      if Ascii.eqb c " "%char
      then (if open then cur :: hex_words_go rest 0 false
            else hex_words_go rest 0 false)
      else hex_words_go rest (cur * 16 + hex_value c) true
  end.
Definition hex_words (s : string) : list Z := hex_words_go s 0 false.

Definition round_constants : list Z := hex_words
  ("428a2f98 71374491 b5c0fbcf e9b5dba5 3956c25b 59f111f1 923f82a4 ab1c5ed5 " +:+
   "d807aa98 12835b01 243185be 550c7dc3 72be5d74 80deb1fe 9bdc06a7 c19bf174 " +:+
   "e49b69c1 efbe4786 0fc19dc6 240ca1cc 2de92c6f 4a7484aa 5cb0a9dc 76f988da " +:+
   "983e5152 a831c66d b00327c8 bf597fc7 c6e00bf3 d5a79147 06ca6351 14292967 " +:+
   "27b70a85 2e1b2138 4d2c6dfc 53380d13 650a7354 766a0abb 81c2c92e 92722c85 " +:+
   "a2bfe8a1 a81a664b c24b8b70 c76c51a3 d192e819 d6990624 f40e3585 106aa070 " +:+
   "19a4c116 1e376c08 2748774c 34b0bcb5 391c0cb3 4ed8aa4a 5b9cca4f 682e6ff3 " +:+
   "748f82ee 78a5636f 84c87814 8cc70208 90befffa a4506ceb bef9a3f7 c67178f2").

(** The eight working words. *)
Record hstate : Type := HState {
  ha : Z; hb : Z; hc : Z; hd : Z; he : Z; hf : Z; hg : Z; hh : Z
}.

Definition initial_hash : hstate :=
  match hex_words "6a09e667 bb67ae85 3c6ef372 a54ff53a 510e527f 9b05688c 1f83d9ab 5be0cd19" with
  | [a; b; c; d; e; f; g; h] => HState a b c d e f g h
  | _ => HState 0 0 0 0 0 0 0 0
  end.

Definition be32 (x : Z) : buffer :=
  [ (x / 2 ^ 24) mod 256; (x / 2 ^ 16) mod 256; (x / 2 ^ 8) mod 256; x mod 256 ].

Definition be64 (x : Z) : buffer := be32 (x / 2 ^ 32) ++ be32 (x mod 2 ^ 32).

Fixpoint words_of (fuel : nat) (bs : buffer) : list Z :=
  match fuel, bs with
  | S fuel', a :: b :: c :: d :: rest =>
      (((a * 256 + b) * 256 + c) * 256 + d) :: words_of fuel' rest
  | _, _ => []
  end.

(** Padding: a 1 bit, zeros up to 56 mod 64, then the bit length on 64 bits. *)
Definition pad (msg : buffer) : buffer :=
  let n := Z.of_nat (length msg) in
  let zeros := Z.to_nat ((55 - n) mod 64) in
  msg ++ [128] ++ repeat 0 zeros ++ be64 (8 * n).

Fixpoint blocks (fuel : nat) (bs : buffer) : list buffer :=
  match fuel with
  | O => []
  | S fuel' =>
      match bs with
      | [] => []
      | _ => take 64 bs :: blocks fuel' (drop 64 bs)
      end
  end.

Definition word_at (ws : list Z) (i : nat) : Z := default 0 (ws !! i).

(** Message schedule: extend 16 words to 64. *)
Fixpoint extend (n : nat) (ws : list Z) : list Z :=
  match n with
  | O => ws
  | S n' =>
      let t := length ws in
      let w := add32 (add32 (ssig1 (word_at ws (t - 2))) (word_at ws (t - 7)))
                     (add32 (ssig0 (word_at ws (t - 15))) (word_at ws (t - 16))) in
      extend n' (ws ++ [w])
  end.

Definition schedule (block : buffer) : list Z := extend 48 (words_of 16 block).

Definition round (s : hstate) (kw : Z * Z) : hstate :=
  let t1 := add32 (add32 (add32 (hh s) (bsig1 (he s))) (ch (he s) (hf s) (hg s)))
                  (add32 kw.1 kw.2) in
  let t2 := add32 (bsig0 (ha s)) (maj (ha s) (hb s) (hc s)) in
  HState (add32 t1 t2) (ha s) (hb s) (hc s) (add32 (hd s) t1) (he s) (hf s) (hg s).

Definition compress (s : hstate) (block : buffer) : hstate :=
  let r := fold_left round (combine round_constants (schedule block)) s in
  HState (add32 (ha s) (ha r)) (add32 (hb s) (hb r)) (add32 (hc s) (hc r))
         (add32 (hd s) (hd r)) (add32 (he s) (he r)) (add32 (hf s) (hf r))
         (add32 (hg s) (hg r)) (add32 (hh s) (hh r)).

Definition digest_bytes (s : hstate) : buffer :=
  be32 (ha s) ++ be32 (hb s) ++ be32 (hc s) ++ be32 (hd s) ++
  be32 (he s) ++ be32 (hf s) ++ be32 (hg s) ++ be32 (hh s).

Definition sha256 (msg : buffer) : buffer :=
  let padded := pad msg in
  digest_bytes (fold_left compress (blocks (length padded) padded) initial_hash).

Definition block_size : nat := 64.

Definition xor_pad (p : Z) (key : buffer) : buffer := map (Z.lxor p) key.

(** [crypto.createHmac('sha256', key).update(msg).digest()] *)
Definition hmac_sha256 (key msg : buffer) : buffer :=
  let k0 := if (block_size <? length key)%nat then sha256 key else key in
  let k := k0 ++ repeat 0 (block_size - length k0) in
  sha256 (xor_pad 92 k ++ sha256 (xor_pad 54 k ++ msg)).

End Sha256.
Export Sha256.

(* ===================================================================== *)
(** ** The SDK boundary (@mysten/sui) and the effects of a request *)
(* ===================================================================== *)

Module Sdk.

(** Arguments of a Move call as the sources build them. *)
Inductive txarg : Type :=
| ArgObject (id : jsval)          (* tx.object(id) *)
| ArgPureAddress (a : jsval)      (* tx.pure.address(a) *)
| ArgPureString (s : jsval).      (* tx.pure.string(s) *)

Record transaction : Type := Transaction {
  target : string;
  arguments : list txarg;
  typeArguments : list string;
  gasBudget : option Z
}.

(** Calls on a [SuiClient]: the only operations that reach the network. *)
Inductive rpc : Type :=
| DevInspectTransactionBlock (tx : transaction) (sender : jsval)
| SignAndExecuteTransaction (tx : transaction) (signer : string) (options : list string)
| OtherCall (method : string) (params : jsval).

(** What the scripts use of the SDK. Key derivation, address encoding and
    input checks are the library's; the model takes them as given functions. *)
Record sui_sdk : Type := SuiSdk {
  keypair : Type;
  public_key : Type;
  fromSecretKey : buffer -> completion keypair;
  deriveKeypair : jsval -> completion keypair;
  generateKeypair : buffer -> keypair;
  getSecretKey : keypair -> string;
  getPublicKey : keypair -> public_key;
  toSuiAddress : public_key -> string;
  toBase64 : public_key -> string;
  isValidSuiAddress : jsval -> bool;
  check_object : jsval -> completion unit;
  check_pure_address : jsval -> completion unit;
  check_pure_string : jsval -> completion unit
}.

Definition tx_object (sdk : sui_sdk) (v : jsval) : completion txarg :=
  _ <~ check_object sdk v ;; Normal (ArgObject v).
Definition tx_pure_address (sdk : sui_sdk) (v : jsval) : completion txarg :=
  _ <~ check_pure_address sdk v ;; Normal (ArgPureAddress v).
Definition tx_pure_string (sdk : sui_sdk) (v : jsval) : completion txarg :=
  _ <~ check_pure_string sdk v ;; Normal (ArgPureString v).

End Sdk.
Export Sdk.

Module Effects.

(** What a request can observe of its surroundings: [process.env], the
    remote node behind the client (its answer may depend on the calls made
    so far), the clock and the operating system's randomness. *)
Record world : Type := World {
  env : gmap string string;
  client : list rpc -> rpc -> completion jsval;
  clock : nat -> string;
  os_random : nat -> nat -> buffer
}.

Inductive level : Type := LogLevel | ErrorLevel.

(** What a request leaves behind: remote calls issued, console lines
    (level and argument list), random draws and clock reads consumed. *)
Record state : Type := State {
  calls : list rpc;
  console : list (level * list jsval);
  draws : nat;
  ticks : nat
}.

Definition start : state := State [] [] 0 0.

Definition M (A : Type) : Type := state -> completion A * state.

Definition ret {A} (a : A) : M A := fun st => (Normal a, st).
Definition throw {A} (e : error) : M A := fun st => (Throw e, st).
Definition lift {A} (c : completion A) : M A := fun st => (c, st).

Definition bind {A B} (m : M A) (k : A -> M B) : M B :=
  fun st =>
    match m st with
    | (Normal a, st') => k a st'
    | (Throw e, st') => (Throw e, st')
    end.

(** [try { body } catch (error) { handler }] *)
Definition try_catch {A} (body : M A) (handler : error -> M A) : M A :=
  fun st =>
    match body st with
    | (Normal a, st') => (Normal a, st')
    | (Throw e, st') => handler e st'
    end.

Definition log (lv : level) (args : list jsval) : M unit :=
  fun st => (Normal tt, State (calls st) (console st ++ [(lv, args)]) (draws st) (ticks st)).

(** [await client.method(...)] *)
Definition remote (w : world) (r : rpc) : M jsval :=
  fun st => (client w (calls st) r,
             State (calls st ++ [r]) (console st) (draws st) (ticks st)).

(** [crypto.randomBytes(n)] and the entropy behind [new Ed25519Keypair()]. *)
Definition random_bytes (w : world) (n : nat) : M buffer :=
  fun st => (Normal (take n (os_random w (draws st) n)),
             State (calls st) (console st) (S (draws st)) (ticks st)).

(** [new Date().toISOString()] *)
Definition now_iso (w : world) : M jsval :=
  fun st => (Normal (JStr (clock w (ticks st))),
             State (calls st) (console st) (draws st) (S (ticks st))).

(** [process.env.NAME] *)
Definition getenv (w : world) (name : string) : jsval :=
  match env w !! name with
  | Some s => JStr s
  | None => JUndefined
  end.

(** An [Error] as a console argument or a JSON field source. *)
Definition error_value (e : error) : jsval :=
  JObj [("name", JStr (error_name e)); ("message", JStr (message e))].

End Effects.
Export Effects.

Notation "x <- m ;; k" := (bind m (fun x => k))
  (at level 100, m at next level, right associativity).
Notation "m ;;; k" := (bind m (fun _ => k))
  (at level 100, right associativity).

(* ===================================================================== *)
(** ** createCustodialWallet.js *)
(* ===================================================================== *)

Module Wallet.

(** The word list of [generateMnemonicFromSeed]. *)
Definition words : list string := [
  "abandon"; "ability"; "able"; "about"; "above"; "absent"; "absorb"; "abstract";
  "absurd"; "abuse"; "access"; "accident"; "account"; "accuse"; "achieve"; "acid";
  "acoustic"; "acquire"; "across"; "act"; "action"; "actor"; "actress"; "actual";
  "adapt"; "add"; "addict"; "address"; "adjust"; "admit"; "adult"; "advance";
  "advice"; "aerobic"; "affair"; "afford"; "afraid"; "again"; "against"; "agent";
  "agree"; "ahead"; "aim"; "air"; "airport"; "aisle"; "alarm"; "album";
  "alcohol"; "alert"; "alien"; "all"; "alley"; "allow"; "almost"; "alone";
  "alpha"; "already"; "also"; "alter"; "always"; "amateur"; "amazing"; "among";
  "amount"; "amused"; "analyst"; "anchor"; "ancient"; "anger"; "angle"; "angry";
  "animal"; "ankle"; "announce"; "annual"; "another"; "answer"; "antenna"; "antique";
  "anxiety"; "any"; "apart"; "apology"; "appear"; "apple"; "approve"; "april";
  "arcade"; "arch"; "arctic"; "area"; "arena"; "argue"; "arm"; "armed";
  "armor"; "army"; "around"; "arrange"; "arrest"; "arrive"; "arrow"; "art";
  "article"; "artist"; "artwork"; "ask"; "aspect"; "assault"; "asset"; "assist";
  "assume"; "asthma"; "athlete"; "atom"; "attack"; "attend"; "attitude"; "attract";
  "auction"; "audit"; "august"; "aunt"; "author"; "auto"; "autumn"; "average";
  "avocado"; "avoid"; "awake"; "aware"; "away"; "awesome"; "awful"; "awkward"
].

(** One turn of the loop: [words[seed[i * 2] % words.length]]. An index past
    the end of [seed] or of [words] reads [undefined] ([None]). *)
Definition mnemonic_word (seed : buffer) (i : nat) : option string :=
  b ← seed !! (i * 2)%nat;
  words !! Z.to_nat (b mod Z.of_nat (length words)).

Definition mnemonic_words (seed : buffer) : list (option string) :=
  map (mnemonic_word seed) (seq 0 12).

(** [Array.prototype.join]: [undefined] elements render as empty strings. *)
Definition join_words (sep : string) (ws : list (option string)) : string :=
  join sep (map (default "") ws).

Definition generateMnemonicFromSeed (seed : buffer) : string :=
  join_words " " (mnemonic_words seed).

Definition default_wallet_secret : string := "default_secret_change_in_production".

Section WithSdk.
Variable sdk : sui_sdk.
Variable w : world.

(** [process.env.WALLET_SECRET || 'default_secret_change_in_production'] *)
Definition walletSecret : string :=
  to_string (js_or (getenv w "WALLET_SECRET") (JStr default_wallet_secret)).

(** Lines 8-19: the HMAC digest of the joined identity fields. *)
Definition deterministicSeed (userDetails : jsval) : completion buffer :=
  userID <~ get userDetails "id" ;;
  createdAt <~ get userDetails "created_at" ;;
  userSecret <~ get userDetails "secret_key" ;;
  let seedData :=
    to_string userID +:+ ":" +:+ to_string createdAt +:+ ":" +:+ to_string userSecret in
  Normal (hmac_sha256 (utf8 walletSecret) (utf8 seedData)).

(** Line 22: [seed.slice(0, 32)], the bytes given to the key constructor. *)
Definition privateKeyBytes (userDetails : jsval) : completion buffer :=
  seed <~ deterministicSeed userDetails ;;
  Normal (slice 0 32 seed).

(** The body of the [try] block of [createCustodialWallet]. *)
Definition derive_wallet (userDetails : jsval) : completion jsval :=
  seed <~ deterministicSeed userDetails ;;
  let privateKeyBytes := slice 0 32 seed in
  keypair <~ fromSecretKey sdk privateKeyBytes ;;
  let secretKeyArray := getSecretKey sdk keypair in
  let privateKeyHex := to_hex privateKeyBytes in
  let privateKeyBase64 := to_base64 privateKeyBytes in
  let publicKey := getPublicKey sdk keypair in
  let address := toSuiAddress sdk publicKey in
  let mnemonic := generateMnemonicFromSeed privateKeyBytes in
  Normal (JObj [
    ("address", JStr address);
    ("publicKey", JStr (toBase64 sdk publicKey));
    ("privateKey", JStr privateKeyHex);
    ("privateKeyBase64", JStr privateKeyBase64);
    ("mnemonic", JStr mnemonic);
    ("seedHex", JStr (to_hex (slice 0 32 seed)))
  ]).

Definition log_and_rethrow {A} (label : string) (err : error) : M A :=
  log ErrorLevel [JStr label; error_value err] ;;; throw err.

Definition createCustodialWallet (userDetails : jsval) : M jsval :=
  try_catch (lift (derive_wallet userDetails))
            (log_and_rethrow "Wallet creation error:").

(** [crypto.createHash('sha256').update(data)]: [data] must be a string (or
    a buffer, which no caller passes). *)
Definition hash_input (data : jsval) : completion buffer :=
  match data with
  | JStr s => Normal (utf8 s)
  | _ => type_error "The 'data' argument must be of type string or an instance of Buffer, TypedArray, or DataView."
  end.

(** [createCustodialWalletWithStandardMnemonic]: line 94 reads the identifier
    [privateKeyBytes], which nothing in that function or module binds. *)
Definition createCustodialWalletWithStandardMnemonic (userDetails : jsval) : M jsval :=
  try_catch
    (entropy <- random_bytes w 32 ;;
     let keypair := generateKeypair sdk entropy in
     let secretKeyArray := getSecretKey sdk keypair in
     privateKeyBytes <- lift (reference_error "privateKeyBytes") ;;
     let privateKeyHex := to_hex privateKeyBytes in
     let privateKeyBase64 := to_base64 privateKeyBytes in
     let publicKey := getPublicKey sdk keypair in
     let address := toSuiAddress sdk publicKey in
     userID <- lift (get userDetails "id") ;;
     createdAt <- lift (get userDetails "created_at") ;;
     userSecret <- lift (get userDetails "secret_key") ;;
     let seedData :=
       to_string userID +:+ ":" +:+ to_string createdAt +:+ ":" +:+ to_string userSecret in
     let deterministicSeed := hmac_sha256 (utf8 walletSecret) (utf8 seedData) in
     let mnemonic := generateMnemonicFromSeed deterministicSeed in
     secretBytes <- lift (hash_input userSecret) ;;
     ret (JObj [
       ("address", JStr address);
       ("publicKey", JStr (toBase64 sdk publicKey));
       ("privateKey", JStr privateKeyHex);
       ("privateKeyBase64", JStr privateKeyBase64);
       ("mnemonic", JStr mnemonic);
       ("userMapping", JObj [
          ("userId", userID);
          ("createdAt", createdAt);
          ("secretHash", JStr (to_hex (sha256 secretBytes)))])
     ]))
    (log_and_rethrow "Wallet creation error:").

End WithSdk.

End Wallet.
Export Wallet.

(* ===================================================================== *)
(** ** lib/statusOfVetting.js, statusOfVetting.js, lib/approveVetting.js *)
(* ===================================================================== *)

Module Vetting.

Section WithWorld.
Variable sdk : sui_sdk.
Variable w : world.

Definition PACKAGE_ID : jsval := js_or (getenv w "PACKAGE_ID") (JStr "YOUR_PACKAGE_ID").
Definition VETTING_TABLE_ID : jsval :=
  js_or (getenv w "VETTING_TABLE_ID") (JStr "YOUR_VETTING_TABLE_ID").
Definition ADMIN_CAP_ID : jsval := js_or (getenv w "ADMIN_CAP") (JStr "YOUR_ADMIN_CAP_ID").

(** The result objects of the resolver. *)
Definition not_applied (applicantAddress : jsval) (msg : string) : jsval :=
  JObj [("applicantAddress", applicantAddress);
        ("hasApplied", JBool false);
        ("isApproved", JNull);
        ("message", JStr msg)].

Definition decided (applicantAddress : jsval) (isApproved : bool) : jsval :=
  JObj [("applicantAddress", applicantAddress);
        ("hasApplied", JBool true);
        ("isApproved", JBool isApproved);
        ("message", JStr ("Approval status: " +:+ to_string (JBool isApproved)))].

Definition query_failed (applicantAddress : jsval) (err : error) : jsval :=
  JObj [("applicantAddress", applicantAddress);
        ("hasApplied", JBool false);
        ("isApproved", JNull);
        ("message", JStr "This address has not applied");
        ("error", JStr (message err))].

(** [a.length === n && a[0] === v] with its short circuit. *)
Definition length_and_head (optionValue : jsval) (n v : Z) : completion bool :=
  len <~ get optionValue "length" ;;
  if is_num len n
  then (head <~ get_index optionValue 0 ;; Normal (is_num head v))
  else Normal false.

(** Lines 53-76: the decoding of [returnValues[0][0]]. *)
Definition decode_option_value (applicantAddress optionValue : jsval) : completion jsval :=
  empty <~ length_and_head optionValue 1 0 ;;
  if empty then Normal (not_applied applicantAddress "This address has not applied")
  else
    populated <~ length_and_head optionValue 2 1 ;;
    if populated then
      inner <~ get_index optionValue 1 ;;
      let isApproved := is_num inner 1 in
      Normal (decided applicantAddress isApproved)
    else Normal (not_applied applicantAddress "Unexpected return value").

(** Lines 33-76: what the [try] block does with the query's answer. *)
Definition interpret_result (applicantAddress result : jsval) : completion jsval :=
  effects <~ get result "effects" ;;
  status <~ get effects "status" ;;
  status' <~ get status "status" ;;
  if negb (is_str status' "success")
  then Normal (not_applied applicantAddress "This address has not applied")
  else
    results <~ get result "results" ;;
    first <~ get_index_opt results 0 ;;
    returnValues <~ get_opt first "returnValues" ;;
    if negb (truthy returnValues)
    then Normal (not_applied applicantAddress "This address has not applied")
    else
      rv0 <~ get_index returnValues 0 ;;
      if negb (truthy rv0)
      then Normal (not_applied applicantAddress "This address has not applied")
      else
        optionValue <~ get_index rv0 0 ;;
        decode_option_value applicantAddress optionValue.

Definition status_query (applicantAddress : jsval) : completion transaction :=
  table <~ tx_object sdk VETTING_TABLE_ID ;;
  applicant <~ tx_pure_address sdk applicantAddress ;;
  Normal (Transaction (to_string PACKAGE_ID +:+ "::vetting::status_of_vetting")
                      [table; applicant] [] None).

(** lib/statusOfVetting.js *)
Definition statusOfVetting (applicantAddress : jsval) : M jsval :=
  if is_str PACKAGE_ID "YOUR_PACKAGE_ID" || is_str VETTING_TABLE_ID "YOUR_VETTING_TABLE_ID"
  then throw (Error "Error" "PACKAGE_ID or VETTING_TABLE_ID not set in .env file")
  else
    tx <- lift (status_query applicantAddress) ;;
    try_catch
      (result <- remote w (DevInspectTransactionBlock tx applicantAddress) ;;
       lift (interpret_result applicantAddress result))
      (fun err =>
         log ErrorLevel [JStr "Error querying status:"; JStr (message err)] ;;;
         ret (query_failed applicantAddress err)).

(** statusOfVetting.js, the command-line variant: it answers [null] or the
    boolean, and says the rest on the console. *)
Definition say_not_applied (applicantAddress : jsval) : M jsval :=
  log LogLevel [JStr ("This address has not applied: " +:+ to_string applicantAddress)] ;;;
  ret JNull.

Definition script_decode_option_value (applicantAddress optionValue : jsval) : M jsval :=
  empty <- lift (length_and_head optionValue 1 0) ;;
  if empty then say_not_applied applicantAddress
  else
    populated <- lift (length_and_head optionValue 2 1) ;;
    if populated then
      inner <- lift (get_index optionValue 1) ;;
      let isApproved := is_num inner 1 in
      log LogLevel [JStr ("Approval status for " +:+ to_string applicantAddress +:+ ": "
                          +:+ to_string (JBool isApproved))] ;;;
      ret (JBool isApproved)
    else
      log LogLevel [JStr ("Unexpected return value for " +:+ to_string applicantAddress)] ;;;
      ret JNull.

Definition script_interpret_result (applicantAddress result : jsval) : M jsval :=
  effects <- lift (get result "effects") ;;
  status <- lift (get effects "status") ;;
  status' <- lift (get status "status") ;;
  if negb (is_str status' "success") then say_not_applied applicantAddress
  else
    results <- lift (get result "results") ;;
    first <- lift (get_index_opt results 0) ;;
    returnValues <- lift (get_opt first "returnValues") ;;
    if negb (truthy returnValues) then say_not_applied applicantAddress
    else
      rv0 <- lift (get_index returnValues 0) ;;
      if negb (truthy rv0) then say_not_applied applicantAddress
      else
        optionValue <- lift (get_index rv0 0) ;;
        script_decode_option_value applicantAddress optionValue.

Definition statusOfVetting_script (applicantAddress : jsval) : M jsval :=
  if is_str PACKAGE_ID "YOUR_PACKAGE_ID" || is_str VETTING_TABLE_ID "YOUR_VETTING_TABLE_ID"
  then
    log ErrorLevel [JStr "Error: PACKAGE_ID or VETTING_TABLE_ID not set in .env file"] ;;;
    ret JNull
  else
    tx <- lift (status_query applicantAddress) ;;
    try_catch
      (result <- remote w (DevInspectTransactionBlock tx applicantAddress) ;;
       script_interpret_result applicantAddress result)
      (fun err =>
         log ErrorLevel [JStr "Error querying status:"; JStr (message err)] ;;;
         say_not_applied applicantAddress).

(** lib/approveVetting.js *)
Definition approve_call (applicantAddress : jsval) : completion transaction :=
  cap <~ tx_object sdk ADMIN_CAP_ID ;;
  table <~ tx_object sdk VETTING_TABLE_ID ;;
  applicant <~ tx_pure_address sdk applicantAddress ;;
  Normal (Transaction (to_string PACKAGE_ID +:+ "::vetting::approve_vetting")
                      [cap; table; applicant] [] None).

Definition approveVetting (applicantAddress : jsval) : M jsval :=
  if is_str PACKAGE_ID "YOUR_PACKAGE_ID"
     || is_str VETTING_TABLE_ID "YOUR_VETTING_TABLE_ID"
     || is_str ADMIN_CAP_ID "YOUR_ADMIN_CAP_ID"
  then throw (Error "Error"
    "Required environment variables not set: PACKAGE_ID, VETTING_TABLE_ID, or ADMIN_CAP")
  else
    let mnemonic := getenv w "MNEMONIC" in
    if negb (truthy mnemonic)
    then throw (Error "Error" "MNEMONIC is not set in the .env file")
    else
      keypair <- lift (deriveKeypair sdk mnemonic) ;;
      tx <- lift (approve_call applicantAddress) ;;
      try_catch
        (result <- remote w (SignAndExecuteTransaction tx
                               (toSuiAddress sdk (getPublicKey sdk keypair))
                               ["showEffects"]) ;;
         digest <- lift (get result "digest") ;;
         ret (JObj [("success", JBool true);
                    ("transactionDigest", digest);
                    ("applicantAddress", applicantAddress);
                    ("message", JStr "Vetting approved successfully")]))
        (fun err =>
           log ErrorLevel [JStr "Error executing transaction:"; error_value err] ;;;
           throw err).

End WithWorld.

End Vetting.
Export Vetting.

(* ===================================================================== *)
(** ** Reading a transaction response; mintRestrictedNFT.js *)
(* ===================================================================== *)

Module Mint.

(** [result.effects?.status.FIELD]: the chain stops at a nullish [effects]. *)
Definition effects_status (result : jsval) (field : string) : completion jsval :=
  effects <~ get result "effects" ;;
  if nullish effects then Normal JUndefined
  else (status <~ get effects "status" ;; get status field).

(** [change.objectType.includes(marker)] *)
Definition call_includes (objectType : jsval) (marker : string) : completion bool :=
  match objectType with
  | JStr s => Normal (includes marker s)
  | JArr l => Normal (existsb (fun x => is_str x marker) l)
  | JUndefined | JNull =>
      type_error ("Cannot read properties of " +:+ describe objectType
                  +:+ " (reading 'includes')")
  | _ => type_error "change.objectType.includes is not a function"
  end.

(** [change.type === 'created' && change.objectType.includes(marker)] *)
Definition is_created (marker : string) (change : jsval) : completion bool :=
  ty <~ get change "type" ;;
  if is_str ty "created"
  then (objectType <~ get change "objectType" ;; call_includes objectType marker)
  else Normal false.

Fixpoint find_first (p : jsval -> completion bool) (l : list jsval) : completion jsval :=
  match l with
  | [] => Normal JUndefined
  | x :: rest =>
      hit <~ p x ;;
      if hit then Normal x else find_first p rest
  end.

(** [result.objectChanges?.find(change => ...)] *)
Definition find_created (marker : string) (result : jsval) : completion jsval :=
  objectChanges <~ get result "objectChanges" ;;
  match objectChanges with
  | JUndefined | JNull => Normal JUndefined
  | JArr l => find_first (is_created marker) l
  | _ => type_error "result.objectChanges?.find is not a function"
  end.

Section WithWorld.
Variable sdk : sui_sdk.
Variable w : world.
(** [JSON.stringify(value, null, 2)], the engine's. *)
Variable stringify : jsval -> string.

Definition GAS_BUDGET : Z := 10000000.

Definition require (v : jsval) (msg : string) : completion unit :=
  if negb (truthy v) then throw_error msg else Normal tt.

(** Lines 10-56: argument checks, the parameter listing and the transaction. *)
Definition prepare_restricted_mint
  (mnemonic packageId suiNetwork supplyCapId creatorCapId lineageId counterId
   recipientAddress nftName coinId braavVersion : jsval)
  : M (keypair sdk * transaction) :=
  lift (require mnemonic "MNEMONIC not set") ;;;
  lift (require packageId "PACKAGE_ID not set") ;;;
  lift (require suiNetwork "SUI_NETWORK not set") ;;;
  lift (require supplyCapId "SUPPLY_CAP_ID not set") ;;;
  lift (require creatorCapId "CREATOR_CAP_ID not set") ;;;
  lift (require lineageId "LINEAGE_ID not set") ;;;
  lift (require counterId "COUNTER_ID not set") ;;;
  lift (require recipientAddress "RECIPIENT_ADDRESS not set") ;;;
  lift (if negb (isValidSuiAddress sdk recipientAddress)
        then throw_error ("Invalid recipient address: " +:+ to_string recipientAddress)
        else Normal tt) ;;;
  lift (require nftName "nftName is required") ;;;
  lift (require coinId "coinId is required") ;;;
  lift (require braavVersion "braavVersion is required") ;;;
  keypair <- lift (deriveKeypair sdk mnemonic) ;;
  let nftType := to_string packageId +:+ "::xoa::" +:+ to_string braavVersion in
  log LogLevel [JStr "🔍 Minting Restricted NFT Parameters:"] ;;;
  log LogLevel [JStr "  Package ID:"; packageId] ;;;
  log LogLevel [JStr "  Supply Cap ID:"; supplyCapId] ;;;
  log LogLevel [JStr "  Creator Cap ID:"; creatorCapId] ;;;
  log LogLevel [JStr "  Lineage ID:"; lineageId] ;;;
  log LogLevel [JStr "  Counter ID:"; counterId] ;;;
  log LogLevel [JStr "  NFT Type:"; JStr nftType] ;;;
  log LogLevel [JStr "  NFT Name:"; nftName] ;;;
  log LogLevel [JStr "  Coin ID:"; coinId] ;;;
  log LogLevel [JStr "  Recipient:"; recipientAddress] ;;;
  tx <- lift (a1 <~ tx_object sdk creatorCapId ;;
              a2 <~ tx_object sdk supplyCapId ;;
              a3 <~ tx_object sdk lineageId ;;
              a4 <~ tx_object sdk counterId ;;
              a5 <~ tx_pure_address sdk recipientAddress ;;
              a6 <~ tx_pure_string sdk nftName ;;
              a7 <~ tx_pure_string sdk coinId ;;
              a8 <~ tx_object sdk (JStr "0x6") ;;
              Normal (Transaction
                        (to_string packageId +:+ "::braav_public::mint_restricted")
                        [a1; a2; a3; a4; a5; a6; a7; a8] [nftType]
                        (Some GAS_BUDGET))) ;;
  ret (keypair, tx).

(** Lines 69-97: what is made of the node's answer. *)
Definition conclude_restricted_mint
  (recipientAddress nftName coinId braavVersion result : jsval) : M jsval :=
  status <- lift (effects_status result "status") ;;
  (if negb (is_str status "success")
   then
     reason <- lift (effects_status result "error") ;;
     throw (Error "Error" ("Transaction failed: "
              +:+ to_string (js_or reason (JStr (stringify result)))))
   else ret tt) ;;;
  createdRestrictedNFT <- lift (find_created "::braav_public::RestrictedNFT" result) ;;
  restrictedNftObjectId <- lift (get_opt createdRestrictedNFT "objectId") ;;
  (if negb (truthy restrictedNftObjectId)
   then throw (Error "Error" "Failed to retrieve RestrictedNFT object ID")
   else ret tt) ;;;
  log LogLevel [JStr ("✅ Minted non-transferable RestrictedNFT for "
                      +:+ to_string recipientAddress)] ;;;
  log LogLevel [JStr ("🆔 RestrictedNFT Object ID: " +:+ to_string restrictedNftObjectId)] ;;;
  log LogLevel [JStr "ℹ️  Note: Only admins can transfer this NFT using restricted_transfer."] ;;;
  digest <- lift (get result "digest") ;;
  gasUsed <- lift (effects <~ get result "effects" ;; get_opt effects "gasUsed") ;;
  ret (JObj [("success", JBool true);
             ("transactionDigest", digest);
             ("restrictedNftObjectId", restrictedNftObjectId);
             ("recipientAddress", recipientAddress);
             ("nftName", nftName);
             ("coinId", coinId);
             ("braavVersion", braavVersion);
             ("gasUsed", gasUsed)]).

Definition restricted_mint_options : list string :=
  ["showObjectChanges"; "showEffects"; "showEvents"; "showInput"].

Definition mintRestrictedNFT
  (mnemonic packageId suiNetwork supplyCapId creatorCapId lineageId counterId
   recipientAddress nftName coinId braavVersion : jsval) : M jsval :=
  try_catch
    (prepared <- prepare_restricted_mint mnemonic packageId suiNetwork supplyCapId
                   creatorCapId lineageId counterId recipientAddress nftName coinId
                   braavVersion ;;
     result <- remote w (SignAndExecuteTransaction prepared.2
                           (toSuiAddress sdk (getPublicKey sdk prepared.1))
                           restricted_mint_options) ;;
     conclude_restricted_mint recipientAddress nftName coinId braavVersion result)
    (fun err =>
       log ErrorLevel [JStr "❌ Error minting RestrictedNFT:"; JStr (message err)] ;;;
       throw err).

End WithWorld.

End Mint.
Export Mint.

(* ===================================================================== *)
(** ** apiServer.js: validators, mintNFT and the POST routes *)
(* ===================================================================== *)

Module Server.

Record response : Type := Response { status : Z; body : jsval }.

(** [res.status(code).json(payload)] and [res.json(payload)]. *)
Definition reply (code : Z) (payload : jsval) : M response := ret (Response code payload).
Definition reply_ok (payload : jsval) : M response := ret (Response 200 payload).

Definition mint_required_fields : list string :=
  ["packageId"; "supplyCapId"; "lineageId"; "counterId"; "recipientAddress";
   "nftName"; "badgeCoinId"].

Definition restricted_mint_required_fields : list string :=
  ["packageId"; "supplyCapId"; "creatorCapId"; "lineageId"; "counterId";
   "recipientAddress"; "nftName"; "coinId"; "braavVersion"].

(** [requiredFields.filter(field => !req.body[field])] *)
Fixpoint missing_fields (reqBody : jsval) (fields : list string) : completion (list string) :=
  match fields with
  | [] => Normal []
  | f :: rest =>
      v <~ get reqBody f ;;
      more <~ missing_fields reqBody rest ;;
      Normal (if negb (truthy v) then f :: more else more)
  end.

Definition strings (l : list string) : jsval := JArr (map JStr l).

Section WithWorld.
Variable sdk : sui_sdk.
Variable w : world.
Variable stringify : jsval -> string.

(** Operations of other modules that the routes call once a request has
    passed validation: lib/submitForVetting.js, lib/initializeVettingTable.js,
    createSupply.js, display.js and restrictedDisplay.js. *)
Variable submitForVetting : jsval -> M jsval.
Variable initializeVettingTable : M jsval.
Variable createSupply : jsval -> jsval -> M jsval.
Variable createDisplay : jsval -> jsval -> jsval -> jsval -> jsval -> jsval -> jsval -> M jsval.
Variable createRestrictedDisplay :
  jsval -> jsval -> jsval -> jsval -> jsval -> jsval -> jsval -> M jsval.

(** A validation middleware answers the request itself ([Some]) or calls
    [next()] ([None]). An exception it throws reaches the error-handling
    middleware at the end of the file. *)
Definition validate_with (fields : list string) (reqBody : jsval)
  : completion (option response) :=
  missingFields <~ missing_fields reqBody fields ;;
  if (0 <? Z.of_nat (length missingFields))
  then Normal (Some (Response 400 (JObj [
         ("success", JBool false);
         ("error", JStr "Missing required fields");
         ("missingFields", strings missingFields);
         ("requiredFields", strings fields)])))
  else
    recipientAddress <~ get reqBody "recipientAddress" ;;
    if negb (isValidSuiAddress sdk recipientAddress)
    then Normal (Some (Response 400 (JObj [
           ("success", JBool false);
           ("error", JStr "Invalid recipient address format");
           ("recipientAddress", recipientAddress)])))
    else Normal None.

Definition validateMintRequest : jsval -> completion (option response) :=
  validate_with mint_required_fields.
Definition validateRestrictedMintRequest : jsval -> completion (option response) :=
  validate_with restricted_mint_required_fields.

(** [app.use((err, req, res, next) => ...)] *)
Definition error_middleware (err : error) : M response :=
  log ErrorLevel [JStr "Unhandled error:"; error_value err] ;;;
  reply 500 (JObj [("error", JStr "Internal server error");
                   ("message", JStr (message err))]).

Definition with_middleware (v : jsval -> completion (option response))
  (handler : jsval -> M response) (reqBody : jsval) : M response :=
  match v reqBody with
  | Throw err => error_middleware err
  | Normal (Some answer) => ret answer
  | Normal None => handler reqBody
  end.

(** [const { name = fallback } = params] *)
Definition with_default (v fallback : jsval) : jsval :=
  match v with JUndefined => fallback | _ => v end.

(** Lines 88-118 of [mintNFT]: key, parameter listing and the transaction. *)
Definition prepare_mint
  (mnemonic packageId supplyCapId lineageId counterId recipientAddress nftName
   badgeCoinId nftVersion clockObjectId : jsval) : M (keypair sdk * transaction) :=
  keypair <- lift (deriveKeypair sdk mnemonic) ;;
  let nftType := to_string packageId +:+ "::xoa::" +:+ to_string nftVersion in
  log LogLevel [JStr "🔍 Minting Parameters:"] ;;;
  log LogLevel [JStr "  Package ID:"; packageId] ;;;
  log LogLevel [JStr "  Supply Cap ID:"; supplyCapId] ;;;
  log LogLevel [JStr "  Lineage ID:"; lineageId] ;;;
  log LogLevel [JStr "  Counter ID:"; counterId] ;;;
  log LogLevel [JStr "  Badge Coin ID:"; badgeCoinId] ;;;
  log LogLevel [JStr "  NFT Type:"; JStr nftType] ;;;
  log LogLevel [JStr "  NFT Name:"; nftName] ;;;
  log LogLevel [JStr "  Recipient:"; recipientAddress] ;;;
  tx <- lift (a1 <~ tx_pure_string sdk nftName ;;
              a2 <~ tx_pure_string sdk badgeCoinId ;;
              a3 <~ tx_object sdk supplyCapId ;;
              a4 <~ tx_object sdk lineageId ;;
              a5 <~ tx_object sdk counterId ;;
              a6 <~ tx_pure_address sdk recipientAddress ;;
              a7 <~ tx_object sdk clockObjectId ;;
              Normal (Transaction
                        (to_string packageId +:+ "::braav_public::mint_and_transfer")
                        [a1; a2; a3; a4; a5; a6; a7] [nftType] (Some 10000000))) ;;
  ret (keypair, tx).

(** Lines 133-156 of [mintNFT]: what is made of the node's answer. *)
Definition conclude_mint (recipientAddress nftName badgeCoinId result : jsval) : M jsval :=
  status <- lift (effects_status result "status") ;;
  (if negb (is_str status "success")
   then
     reason <- lift (effects_status result "error") ;;
     throw (Error "Error" ("Transaction failed: "
              +:+ to_string (js_or reason (JStr "Unknown error"))))
   else ret tt) ;;;
  createdNFT <- lift (find_created "::braav_public::NFT" result) ;;
  objectId <- lift (get_opt createdNFT "objectId") ;;
  let nftObjectId := js_coalesce objectId (JStr "Not found") in
  digest <- lift (get result "digest") ;;
  gasUsed <- lift (effects <~ get result "effects" ;; get_opt effects "gasUsed") ;;
  ret (JObj [("success", JBool true);
             ("transactionDigest", digest);
             ("nftObjectId", nftObjectId);
             ("recipientAddress", recipientAddress);
             ("nftName", nftName);
             ("badgeCoinId", badgeCoinId);
             ("gasUsed", gasUsed);
             ("fullResult", result)]).

Definition mint_options : list string :=
  ["showObjectChanges"; "showEffects"; "showEvents"; "showBalanceChanges"; "showInput"].

Definition mintNFT (params : jsval) : M jsval :=
  packageId <- lift (destructure params "params" "packageId") ;;
  supplyCapId <- lift (destructure params "params" "supplyCapId") ;;
  lineageId <- lift (destructure params "params" "lineageId") ;;
  counterId <- lift (destructure params "params" "counterId") ;;
  recipientAddress <- lift (destructure params "params" "recipientAddress") ;;
  nftName <- lift (destructure params "params" "nftName") ;;
  badgeCoinId <- lift (destructure params "params" "badgeCoinId") ;;
  nftVersion0 <- lift (destructure params "params" "nftVersion") ;;
  let nftVersion := with_default nftVersion0 (JStr "BRAAV16") in
  let mnemonic := getenv w "MNEMONIC" in
  let suiNetwork := getenv w "SUI_NETWORK" in
  let clockObjectId := js_or (getenv w "CLOCK_OBJECT_ID") (JStr "0x6") in
  if negb (truthy mnemonic)
  then throw (Error "Error" "MNEMONIC not set in environment variables")
  else if negb (truthy suiNetwork)
  then throw (Error "Error" "SUI_NETWORK not set in environment variables")
  else
    try_catch
      (prepared <- prepare_mint mnemonic packageId supplyCapId lineageId counterId
                     recipientAddress nftName badgeCoinId nftVersion clockObjectId ;;
       result <- remote w (SignAndExecuteTransaction prepared.2
                             (toSuiAddress sdk (getPublicKey sdk prepared.1))
                             mint_options) ;;
       conclude_mint recipientAddress nftName badgeCoinId result)
      (fun err =>
         log ErrorLevel [JStr "❌ Error minting NFT:"; JStr (message err)] ;;;
         throw err).

(** The [catch] block shared by the plain routes. *)
Definition route_failed (label endpoint : string) (err : error) : M response :=
  log ErrorLevel [JStr label; error_value err] ;;;
  reply 500 (JObj [("error", JStr (message err)); ("endpoint", JStr endpoint)]).

Definition required_message (text : string) : jsval := JObj [("error", JStr text)].

(** POST /api/approve-vetting *)
Definition post_approve_vetting (reqBody : jsval) : M response :=
  try_catch
    (applicantAddress <- lift (destructure reqBody "req.body" "applicantAddress") ;;
     if negb (truthy applicantAddress)
     then reply 400 (required_message "applicantAddress is required in request body")
     else
       result <- approveVetting sdk w applicantAddress ;;
       reply_ok result)
    (route_failed "Approve vetting error:" "/api/approve-vetting").

(** POST /api/status-of-vetting *)
Definition post_status_of_vetting (reqBody : jsval) : M response :=
  try_catch
    (applicantAddress <- lift (destructure reqBody "req.body" "applicantAddress") ;;
     if negb (truthy applicantAddress)
     then reply 400 (required_message "applicantAddress is required in request body")
     else
       result <- statusOfVetting sdk w applicantAddress ;;
       reply_ok result)
    (route_failed "Status check error:" "/api/status-of-vetting").

(** POST /api/submit-for-vetting *)
Definition post_submit_for_vetting (reqBody : jsval) : M response :=
  try_catch
    (walletCredentials <- lift (destructure reqBody "req.body" "walletCredentials") ;;
     result <- submitForVetting walletCredentials ;;
     reply_ok result)
    (route_failed "Submit for vetting error:" "/api/submit-for-vetting").

(** POST /api/initialize-vetting-table *)
Definition post_initialize_vetting_table (reqBody : jsval) : M response :=
  try_catch
    (result <- initializeVettingTable ;;
     reply_ok result)
    (route_failed "Initialize vetting table error:" "/api/initialize-vetting-table").

(** [a || <effect>]: the right operand runs only when [a] is falsy. *)
Definition or_else (a : jsval) (fallback : M jsval) : M jsval :=
  if truthy a then ret a else fallback.

(** POST /api/create-wallet *)
Definition post_create_wallet (reqBody : jsval) : M response :=
  try_catch
    (userDetails <- lift (destructure reqBody "req.body" "userDetails") ;;
     useStandardMnemonic <- lift (destructure reqBody "req.body" "useStandardMnemonic") ;;
     id <- lift (if truthy userDetails then get userDetails "id" else Normal JUndefined) ;;
     if negb (truthy userDetails) || negb (truthy id)
     then reply 400 (required_message "userDetails with id is required in request body")
     else
       id' <- lift (get userDetails "id") ;;
       given_created_at <- lift (get userDetails "created_at") ;;
       created_at <- or_else given_created_at (now_iso w) ;;
       given_secret_key <- lift (get userDetails "secret_key") ;;
       secret_key <- or_else given_secret_key
                       (bytes <- random_bytes w 32 ;; ret (JStr (to_hex bytes))) ;;
       let completeUserDetails :=
         JObj (spread [("id", id'); ("created_at", created_at); ("secret_key", secret_key)]
                      (own_fields userDetails)) in
       result <- (if truthy useStandardMnemonic
                  then createCustodialWalletWithStandardMnemonic sdk w completeUserDetails
                  else createCustodialWallet sdk w completeUserDetails) ;;
       reply_ok (JObj [("success", JBool true);
                       ("wallet", result);
                       ("message", JStr "Custodial wallet created successfully")]))
    (route_failed "Create wallet error:" "/api/create-wallet").

(** [supplyLimit <= 0] for a value already known to be a number. *)
Definition non_positive (v : jsval) : bool :=
  match v with JNum n => n <=? 0 | _ => false end.

(** POST /api/create-supply *)
Definition post_create_supply (reqBody : jsval) : M response :=
  try_catch
    (supplyLimit <- lift (destructure reqBody "req.body" "supplyLimit") ;;
     tokenTypeName <- lift (destructure reqBody "req.body" "tokenTypeName") ;;
     if String.eqb (typeof supplyLimit) "undefined" || negb (truthy tokenTypeName)
     then reply 400 (required_message
            "supplyLimit (number) and tokenTypeName (string) are required in request body")
     else if negb (String.eqb (typeof supplyLimit) "number") || non_positive supplyLimit
     then reply 400 (required_message "supplyLimit must be a positive number")
     else
       result <- createSupply supplyLimit tokenTypeName ;;
       reply_ok (JObj [("success", JBool true);
                       ("message", JStr "Supply created successfully");
                       ("result", result)]))
    (route_failed "Create supply error:" "/api/create-supply").

(** The field checks shared by the two display routes. *)
Definition display_fields_problem (displayKeys displayValues braavVersion : jsval)
  : completion (option string) :=
  if negb (truthy displayKeys) || negb (is_array displayKeys)
  then Normal (Some "displayKeys is required and must be an array")
  else if negb (truthy displayValues) || negb (is_array displayValues)
  then Normal (Some "displayValues is required and must be an array")
  else
    nk <~ get displayKeys "length" ;;
    nv <~ get displayValues "length" ;;
    if negb (match nk, nv with JNum a, JNum b => a =? b | _, _ => false end)
    then Normal (Some "displayKeys and displayValues must have the same length")
    else if negb (truthy braavVersion) || negb (String.eqb (typeof braavVersion) "string")
    then Normal (Some "braavVersion is required and must be a string")
    else Normal None.

(** The first environment variable of the list that is not configured. *)
Fixpoint unconfigured (names : list string) : option string :=
  match names with
  | [] => None
  | n :: rest => if negb (truthy (getenv w n)) then Some n else unconfigured rest
  end.

Definition not_configured (name : string) : jsval :=
  JObj [("error", JStr (name +:+ " not configured in environment variables"))].

Definition display_route
  (create : jsval -> jsval -> jsval -> jsval -> jsval -> jsval -> jsval -> M jsval)
  (announce done idField okMessage failLabel failMessage endpoint : string)
  (reqBody : jsval) : M response :=
  try_catch
    (displayKeys <- lift (destructure reqBody "req.body" "displayKeys") ;;
     displayValues <- lift (destructure reqBody "req.body" "displayValues") ;;
     braavVersion <- lift (destructure reqBody "req.body" "braavVersion") ;;
     problem <- lift (display_fields_problem displayKeys displayValues braavVersion) ;;
     match problem with
     | Some text => reply 400 (required_message text)
     | None =>
         match unconfigured ["MNEMONIC"; "PUBLISHER_ID"; "PACKAGE_ID"; "SUI_NETWORK"] with
         | Some name => reply 500 (not_configured name)
         | None =>
             stamp <- now_iso w ;;
             log LogLevel [JStr announce;
                           JObj [("braavVersion", braavVersion);
                                 ("displayKeys", displayKeys);
                                 ("timestamp", stamp)]] ;;;
             result <- create (getenv w "MNEMONIC") (getenv w "PUBLISHER_ID")
                              (getenv w "PACKAGE_ID") (getenv w "SUI_NETWORK")
                              displayKeys displayValues braavVersion ;;
             id <- lift (get result idField) ;;
             log LogLevel [JStr done; JObj [(idField, id)]] ;;;
             id' <- lift (get result idField) ;;
             stamp' <- now_iso w ;;
             reply_ok (JObj [("success", JBool true);
                             ("message", JStr okMessage);
                             ("data", JObj [(idField, id');
                                            ("braavVersion", braavVersion);
                                            ("displayKeys", displayKeys);
                                            ("displayValues", displayValues)]);
                             ("timestamp", stamp')])
         end
     end)
    (fun err =>
       log ErrorLevel [JStr failLabel; JStr (message err)] ;;;
       stamp <- now_iso w ;;
       reply 500 (JObj [("success", JBool false);
                        ("message", JStr failMessage);
                        ("error", JStr (message err));
                        ("endpoint", JStr endpoint);
                        ("timestamp", stamp)])).

(** POST /api/create-display *)
Definition post_create_display : jsval -> M response :=
  display_route createDisplay
    "🎨 Creating display for:" "✅ Display created successfully:" "nftDisplayId"
    "Display created successfully" "❌ Create Display Error:"
    "Failed to create display" "/api/create-display".

(** POST /api/create-restricted-display *)
Definition post_create_restricted_display : jsval -> M response :=
  display_route createRestrictedDisplay
    "🎨 Creating restricted display for:" "✅ Restricted display created successfully:"
    "restrictedNftDisplayId"
    "Restricted display created successfully" "❌ Create Restricted Display Error:"
    "Failed to create restricted display" "/api/create-restricted-display".

Definition mint_failed (label failMessage : string) (err : error) : M response :=
  log ErrorLevel [JStr label; JStr (message err)] ;;;
  stamp <- now_iso w ;;
  reply 500 (JObj [("success", JBool false);
                   ("message", JStr failMessage);
                   ("error", JStr (message err));
                   ("timestamp", stamp)]).

(** POST /api/mint-nft, after [validateMintRequest]. *)
Definition mint_nft_handler (reqBody : jsval) : M response :=
  try_catch
    (nftName <- lift (get reqBody "nftName") ;;
     badgeCoinId <- lift (get reqBody "badgeCoinId") ;;
     recipientAddress <- lift (get reqBody "recipientAddress") ;;
     stamp <- now_iso w ;;
     log LogLevel [JStr "🚀 Received minting request:";
                   JObj [("nftName", nftName);
                         ("badgeCoinId", badgeCoinId);
                         ("recipientAddress", recipientAddress);
                         ("timestamp", stamp)]] ;;;
     result <- mintNFT reqBody ;;
     digest <- lift (get result "transactionDigest") ;;
     nftObjectId <- lift (get result "nftObjectId") ;;
     log LogLevel [JStr "✅ NFT minted successfully:";
                   JObj [("transactionDigest", digest); ("nftObjectId", nftObjectId)]] ;;;
     recipient <- lift (get result "recipientAddress") ;;
     name <- lift (get result "nftName") ;;
     coin <- lift (get result "badgeCoinId") ;;
     gasUsed <- lift (get result "gasUsed") ;;
     stamp' <- now_iso w ;;
     reply_ok (JObj [("success", JBool true);
                     ("message", JStr "NFT minted and transferred successfully");
                     ("data", JObj [("transactionDigest", digest);
                                    ("nftObjectId", nftObjectId);
                                    ("recipientAddress", recipient);
                                    ("nftName", name);
                                    ("badgeCoinId", coin);
                                    ("gasUsed", gasUsed)]);
                     ("timestamp", stamp')]))
    (mint_failed "❌ API Error:" "Failed to mint NFT").

Definition post_mint_nft : jsval -> M response :=
  with_middleware validateMintRequest mint_nft_handler.

(** POST /api/mint-restricted-nft, after [validateRestrictedMintRequest]. *)
Definition mint_restricted_nft_handler (reqBody : jsval) : M response :=
  try_catch
    (nftName <- lift (get reqBody "nftName") ;;
     coinId <- lift (get reqBody "coinId") ;;
     recipientAddress <- lift (get reqBody "recipientAddress") ;;
     braavVersion <- lift (get reqBody "braavVersion") ;;
     stamp <- now_iso w ;;
     log LogLevel [JStr "🚀 Received restricted NFT minting request:";
                   JObj [("nftName", nftName);
                         ("coinId", coinId);
                         ("recipientAddress", recipientAddress);
                         ("braavVersion", braavVersion);
                         ("timestamp", stamp)]] ;;;
     match unconfigured ["MNEMONIC"; "SUI_NETWORK"] with
     | Some name => reply 500 (not_configured name)
     | None =>
         packageId <- lift (get reqBody "packageId") ;;
         supplyCapId <- lift (get reqBody "supplyCapId") ;;
         creatorCapId <- lift (get reqBody "creatorCapId") ;;
         lineageId <- lift (get reqBody "lineageId") ;;
         counterId <- lift (get reqBody "counterId") ;;
         result <- mintRestrictedNFT sdk w stringify
                     (getenv w "MNEMONIC") packageId (getenv w "SUI_NETWORK")
                     supplyCapId creatorCapId lineageId counterId
                     recipientAddress nftName coinId braavVersion ;;
         digest <- lift (get result "transactionDigest") ;;
         objectId <- lift (get result "restrictedNftObjectId") ;;
         log LogLevel [JStr "✅ Restricted NFT minted successfully:";
                       JObj [("transactionDigest", digest);
                             ("restrictedNftObjectId", objectId)]] ;;;
         recipient <- lift (get result "recipientAddress") ;;
         name <- lift (get result "nftName") ;;
         coin <- lift (get result "coinId") ;;
         version <- lift (get result "braavVersion") ;;
         gasUsed <- lift (get result "gasUsed") ;;
         stamp' <- now_iso w ;;
         reply_ok (JObj [("success", JBool true);
                         ("message", JStr "Restricted NFT minted successfully");
                         ("data", JObj [("transactionDigest", digest);
                                        ("restrictedNftObjectId", objectId);
                                        ("recipientAddress", recipient);
                                        ("nftName", name);
                                        ("coinId", coin);
                                        ("braavVersion", version);
                                        ("gasUsed", gasUsed)]);
                         ("timestamp", stamp')])
     end)
    (mint_failed "❌ Restricted NFT Minting Error:" "Failed to mint restricted NFT").

Definition post_mint_restricted_nft : jsval -> M response :=
  with_middleware validateRestrictedMintRequest mint_restricted_nft_handler.

(** The POST routes of the interface table. *)
Inductive endpoint : Type :=
| ApproveVetting
| StatusOfVetting
| SubmitForVetting
| InitializeVettingTable
| CreateWallet
| CreateSupply
| CreateDisplay
| CreateRestrictedDisplay
| MintNft
| MintRestrictedNft.

Definition path (e : endpoint) : string :=
  match e with
  | ApproveVetting => "/api/approve-vetting"
  | StatusOfVetting => "/api/status-of-vetting"
  | SubmitForVetting => "/api/submit-for-vetting"
  | InitializeVettingTable => "/api/initialize-vetting-table"
  | CreateWallet => "/api/create-wallet"
  | CreateSupply => "/api/create-supply"
  | CreateDisplay => "/api/create-display"
  | CreateRestrictedDisplay => "/api/create-restricted-display"
  | MintNft => "/api/mint-nft"
  | MintRestrictedNft => "/api/mint-restricted-nft"
  end.

Definition post (e : endpoint) : jsval -> M response :=
  match e with
  | ApproveVetting => post_approve_vetting
  | StatusOfVetting => post_status_of_vetting
  | SubmitForVetting => post_submit_for_vetting
  | InitializeVettingTable => post_initialize_vetting_table
  | CreateWallet => post_create_wallet
  | CreateSupply => post_create_supply
  | CreateDisplay => post_create_display
  | CreateRestrictedDisplay => post_create_restricted_display
  | MintNft => post_mint_nft
  | MintRestrictedNft => post_mint_restricted_nft
  end.

End WithWorld.

(** The fields each route checks before it does anything else, as paths
    into the request body: [requiredFields] of the two validators and the
    tests at the head of the other handlers. *)
Definition required_fields (e : endpoint) : list (list string) :=
  match e with
  | ApproveVetting | StatusOfVetting => [["applicantAddress"]]
  | SubmitForVetting | InitializeVettingTable => []
  | CreateWallet => [["userDetails"]; ["userDetails"; "id"]]
  | CreateSupply => [["supplyLimit"]; ["tokenTypeName"]]
  | CreateDisplay | CreateRestrictedDisplay =>
      [["displayKeys"]; ["displayValues"]; ["braavVersion"]]
  | MintNft => map (fun f => [f]) mint_required_fields
  | MintRestrictedNft => map (fun f => [f]) restricted_mint_required_fields
  end.

(** [body.a.b] read leniently: a missing link yields [undefined]. *)
Fixpoint lookup (v : jsval) (p : list string) : jsval :=
  match p with
  | [] => v
  | k :: rest =>
      match get_opt v k with
      | Normal v' => lookup v' rest
      | Throw _ => JUndefined
      end
  end.

(** The body fields the table of external interfaces lists for each route
    without marking them optional. This definition follows the rows of the
    table, not the code; the row of mint-restricted-nft reads "superset of
    mint-nft + creatorCapId, coinId, braavVersion". *)
Definition interface_table_fields (e : endpoint) : list (list string) :=
  match e with
  | CreateWallet => [["userDetails"]; ["userDetails"; "id"]]
  | SubmitForVetting => []
  | ApproveVetting => [["applicantAddress"]]
  | StatusOfVetting => [["applicantAddress"]]
  | InitializeVettingTable => []
  | CreateSupply => [["supplyLimit"]; ["tokenTypeName"]]
  | MintNft =>
      [["packageId"]; ["supplyCapId"]; ["lineageId"]; ["counterId"];
       ["recipientAddress"]; ["nftName"]; ["badgeCoinId"]]
  | MintRestrictedNft =>
      [["packageId"]; ["supplyCapId"]; ["lineageId"]; ["counterId"];
       ["recipientAddress"]; ["nftName"]; ["badgeCoinId"];
       ["creatorCapId"]; ["coinId"]; ["braavVersion"]]
  | CreateDisplay | CreateRestrictedDisplay =>
      [["displayKeys"]; ["displayValues"]; ["braavVersion"]]
  end.

End Server.
Export Server.

(* ===================================================================== *)
(** ** A stand-in SDK and world for closed examples *)
(* ===================================================================== *)

Module Demo.

Definition is_hex_digit (c : ascii) : bool :=
  let n := Z.of_N (N_of_ascii c) in
  ((48 <=? n) && (n <=? 57)) || ((97 <=? n) && (n <=? 102)) || ((65 <=? n) && (n <=? 70)).

Definition strip_0x (s : string) : string :=
  match s with
  | String "0" (String "x" rest) => rest
  | String "0" (String "X" rest) => rest
  | _ => s
  end.

(** 32 bytes of hexadecimal digits, with or without the 0x prefix. *)
Definition valid_address (v : jsval) : bool :=
  match v with
  | JStr s =>
      let digits := list_ascii_of_string (strip_0x s) in
      forallb is_hex_digit digits && (length digits =? 64)%nat
  | _ => false
  end.

(** Keys and addresses here are placeholders built from SHA-256; only the
    interface's shape matters to the examples that use them. *)
Definition sdk : sui_sdk := {|
  keypair := buffer;
  public_key := buffer;
  fromSecretKey := fun secret =>
    if (length secret =? 32)%nat then Normal secret
    else throw_error ("Wrong secretKey size. Expected 32 bytes, got "
                      +:+ pretty (length secret) +:+ ".");
  deriveKeypair := fun mnemonic =>
    match mnemonic with
    | JStr s => Normal (sha256 (utf8 s))
    | _ => type_error "Invalid mnemonic"
    end;
  generateKeypair := fun entropy => entropy;
  getSecretKey := fun k => "suiprivkey" +:+ to_hex k;
  getPublicKey := fun k => sha256 k;
  toSuiAddress := fun pk => "0x" +:+ to_hex (sha256 (0 :: pk));
  toBase64 := to_base64;
  isValidSuiAddress := valid_address;
  check_object := fun _ => Normal tt;
  check_pure_address := fun v =>
    if valid_address v then Normal tt
    else throw_error ("Invalid Sui address " +:+ to_string v);
  check_pure_string := fun v =>
    match v with
    | JStr _ => Normal tt
    | _ => type_error "Invalid string value"
    end
|}.

Definition configured : gmap string string :=
  list_to_map [
    ("PACKAGE_ID", "0xabc");
    ("VETTING_TABLE_ID", "0x7ab1e");
    ("ADMIN_CAP", "0xcafe");
    ("MNEMONIC", "abandon ability able about above absent absorb abstract absurd abuse access accident");
    ("SUI_NETWORK", "https://fullnode.testnet.sui.io");
    ("WALLET_SECRET", "test")
  ].

Definition world_with (e : gmap string string) (answer : completion jsval) : world := {|
  env := e;
  client := fun _ _ => answer;
  clock := fun _ => "2024-01-15T10:30:00.000Z";
  os_random := fun _ n => repeat 7 n
|}.

Definition applicant : jsval :=
  JStr "0x125141673adbafe3f54afafe03eed2c0a1c246fb079408ced0454d8767e67c84".

Definition user : jsval :=
  JObj [("id", JStr "user123");
        ("created_at", JStr "2024-01-15T10:30:00Z");
        ("secret_key", JStr "abc")].

(** A dev-inspect answer carrying one BCS-encoded [Option<Option<bool>>]. *)
Definition inspected (bytes : list Z) : jsval :=
  JObj [("effects", JObj [("status", JObj [("status", JStr "success")])]);
        ("results", JArr [JObj [("returnValues",
            JArr [JArr [JArr (map JNum bytes); JStr "0x1::option::Option<bool>"]])]])].

(** Answers to an executed transaction. *)
Definition executed (status : string) (changes : list jsval) : jsval :=
  JObj [("digest", JStr "9WzSXdwbky8tNbH7juvyaui4QzMUYEjdCEKMrMgLhXHT");
        ("effects", JObj [("status", JObj [("status", JStr status);
                                           ("error", JStr "MoveAbort")]);
                          ("gasUsed", JObj [("computationCost", JStr "1000000")])]);
        ("objectChanges", JArr changes)].

Definition mint_body : jsval :=
  JObj [("packageId", JStr "0xabc");
        ("supplyCapId", JStr "0x51");
        ("creatorCapId", JStr "0xc4");
        ("lineageId", JStr "0x11");
        ("counterId", JStr "0xc0");
        ("recipientAddress", applicant);
        ("nftName", JStr "Gold Coin");
        ("badgeCoinId", JStr "coin_123");
        ("coinId", JStr "coin_123");
        ("braavVersion", JStr "BRAAV16")].

(** A request for a restricted NFT with the fields GET /api/endpoints lists
    for it, and the creation the node reports for it. *)
Definition restricted_mint_body : jsval :=
  JObj [("packageId", JStr "0xabc");
        ("supplyCapId", JStr "0x51");
        ("creatorCapId", JStr "0xc4");
        ("lineageId", JStr "0x11");
        ("counterId", JStr "0xc0");
        ("recipientAddress", applicant);
        ("nftName", JStr "Gold Coin");
        ("coinId", JStr "coin_123");
        ("braavVersion", JStr "BRAAV16")].

(** A request to mint in which badgeCoinId is missing. *)
Definition mint_body_without_coin : jsval :=
  JObj [("packageId", JStr "0xabc");
        ("supplyCapId", JStr "0x51");
        ("lineageId", JStr "0x11");
        ("counterId", JStr "0xc0");
        ("recipientAddress", applicant);
        ("nftName", JStr "Gold Coin")].

Definition created_restricted_nft : jsval :=
  JObj [("type", JStr "created");
        ("objectType", JStr "0xabc::braav_public::RestrictedNFT<0xabc::xoa::BRAAV16>");
        ("objectId", JStr "0x9f2")].

Definition no_op1 : jsval -> M jsval := fun _ => ret JUndefined.
Definition no_op2 : jsval -> jsval -> M jsval := fun _ _ => ret JUndefined.
Definition no_op7 : jsval -> jsval -> jsval -> jsval -> jsval -> jsval -> jsval -> M jsval :=
  fun _ _ _ _ _ _ _ => ret JUndefined.

(** A second world: same wallet secret, everything else different. *)
Definition elsewhere : world := {|
  env := list_to_map [("WALLET_SECRET", "test"); ("PORT", "8080")];
  client := fun _ _ => throw_error "fetch failed";
  clock := fun n => "2031-07-01T00:00:0" +:+ pretty n +:+ ".000Z";
  os_random := fun k n => repeat (Z.of_nat k) n
|}.

(** The same identity, written by another caller. *)
Definition user_again : jsval :=
  JObj [("secret_key", JStr "abc");
        ("display_name", JStr "U. Ser");
        ("id", JStr "user123");
        ("created_at", JStr "2024-01-15T10:30:00Z")].

Definition busy : state :=
  State [OtherCall "getBalance" JNull] [(LogLevel, [JStr "hello"])] 3 5.

Definition user_wallet : jsval :=
  match derive_wallet sdk (world_with configured (Normal JNull)) user with
  | Normal wallet => wallet
  | Throw _ => JUndefined
  end.

Definition serve (wd : world) : endpoint -> jsval -> M response :=
  post sdk wd (fun v => to_string v) no_op1 (ret JUndefined) no_op2 no_op7 no_op7.

End Demo.

(* ===================================================================== *)
(** ** What a computation may leave behind *)
(* ===================================================================== *)

Module Footprint.

(** [m] adds at most [n] remote calls to the ones already made, and keeps
    those as they were. *)
Definition issues_at_most {A} (n : nat) (m : M A) : Prop :=
  forall st, exists extra,
    calls (m st).2 = calls st ++ extra /\ (length extra <= n)%nat.

(** [m] adds exactly the remote calls [l], in that order. *)
Definition sends {A} (l : list rpc) (m : M A) : Prop :=
  forall st, calls (m st).2 = calls st ++ l.

(** [m] returns normally without a remote call, with a value satisfying [P]. *)
Definition settles {A} (P : A -> Prop) (m : M A) : Prop :=
  forall st, exists a st', m st = (Normal a, st') /\ calls st' = calls st /\ P a.

(** [m] adds no remote call, or exactly one, and then one satisfying [R]. *)
Definition may_send {A} (R : rpc -> Prop) (m : M A) : Prop :=
  forall st, calls (m st).2 = calls st
             \/ exists r, R r /\ calls (m st).2 = calls st ++ [r].

(** Whatever [m] returns normally satisfies [P]. *)
Definition returns {A} (P : A -> Prop) (m : M A) : Prop :=
  forall st a st', m st = (Normal a, st') -> P a.

(** [m] always returns normally, with a value satisfying [P]. *)
Definition answers {A} (P : A -> Prop) (m : M A) : Prop :=
  forall st, exists a st', m st = (Normal a, st') /\ P a.

(** The status codes the handlers of apiServer.js send. *)
Definition sent_status (r : response) : Prop :=
  status r = 200 \/ status r = 400 \/ status r = 500.

End Footprint.
Export Footprint.

(** A body a validation middleware has nothing to say against: an object
    with every required field truthy and an address the SDK accepts. *)
Definition complete_request (sdk : sui_sdk) (fields : list string) (reqBody : jsval) : Prop :=
  nullish reqBody = false
  /\ List.Forall (fun f => truthy (lookup reqBody [f]) = true) fields
  /\ isValidSuiAddress sdk (lookup reqBody ["recipientAddress"]) = true.

(** [typeof v === 'number' && v > 0] *)
Definition positive_number (v : jsval) : bool :=
  match v with JNum n => 0 <? n | _ => false end.

(** An effectful computation that completes like the pure [c] and issues no
    remote call (it may print). *)
Definition mirrors {A} (m : M A) (c : completion A) : Prop :=
  forall st, (m st).1 = c /\ calls (m st).2 = calls st.

(** The arguments mintRestrictedNFT tests before it does anything else. *)
Definition restricted_mint_arguments_ok (sdk : sui_sdk)
    (mnemonic packageId suiNetwork supplyCapId creatorCapId lineageId counterId
     recipientAddress nftName coinId braavVersion : jsval) : bool :=
  forallb truthy [mnemonic; packageId; suiNetwork; supplyCapId; creatorCapId; lineageId;
                  counterId; recipientAddress; nftName; coinId; braavVersion]
  && isValidSuiAddress sdk recipientAddress.

Definition restricted_mint_argument_messages (recipientAddress : jsval) : list string :=
  ["MNEMONIC not set"; "PACKAGE_ID not set"; "SUI_NETWORK not set";
   "SUPPLY_CAP_ID not set"; "CREATOR_CAP_ID not set"; "LINEAGE_ID not set";
   "COUNTER_ID not set"; "RECIPIENT_ADDRESS not set";
   "Invalid recipient address: " +:+ to_string recipientAddress;
   "nftName is required"; "coinId is required"; "braavVersion is required"].

(** The one transaction POST /api/mint-restricted-nft submits for a body:
    [mint_restricted] of the body's package, on behalf of the key [kp]. *)
Definition restricted_mint_submission (sdk : sui_sdk) (reqBody : jsval) (kp : keypair sdk)
  : rpc :=
  SignAndExecuteTransaction
    (Transaction
       (to_string (lookup reqBody ["packageId"]) +:+ "::braav_public::mint_restricted")
       [ArgObject (lookup reqBody ["creatorCapId"]);
        ArgObject (lookup reqBody ["supplyCapId"]);
        ArgObject (lookup reqBody ["lineageId"]);
        ArgObject (lookup reqBody ["counterId"]);
        ArgPureAddress (lookup reqBody ["recipientAddress"]);
        ArgPureString (lookup reqBody ["nftName"]);
        ArgPureString (lookup reqBody ["coinId"]);
        ArgObject (JStr "0x6")]
       [to_string (lookup reqBody ["packageId"]) +:+ "::xoa::"
        +:+ to_string (lookup reqBody ["braavVersion"])]
       (Some 10000000))
    (toSuiAddress sdk (getPublicKey sdk kp))
    ["showObjectChanges"; "showEffects"; "showEvents"; "showInput"].

(** The one transaction POST /api/mint-nft submits for a body. *)
Definition mint_submission (sdk : sui_sdk) (w : world) (reqBody : jsval) (kp : keypair sdk)
  : rpc :=
  SignAndExecuteTransaction
    (Transaction
       (to_string (lookup reqBody ["packageId"]) +:+ "::braav_public::mint_and_transfer")
       [ArgPureString (lookup reqBody ["nftName"]);
        ArgPureString (lookup reqBody ["badgeCoinId"]);
        ArgObject (lookup reqBody ["supplyCapId"]);
        ArgObject (lookup reqBody ["lineageId"]);
        ArgObject (lookup reqBody ["counterId"]);
        ArgPureAddress (lookup reqBody ["recipientAddress"]);
        ArgObject (js_or (getenv w "CLOCK_OBJECT_ID") (JStr "0x6"))]
       [to_string (lookup reqBody ["packageId"]) +:+ "::xoa::"
        +:+ to_string (with_default (lookup reqBody ["nftVersion"]) (JStr "BRAAV16"))]
       (Some 10000000))
    (toSuiAddress sdk (getPublicKey sdk kp))
    ["showObjectChanges"; "showEffects"; "showEvents"; "showBalanceChanges"; "showInput"].

(** The one transaction POST /api/approve-vetting submits, and the one
    read-only inspection POST /api/status-of-vetting makes. *)
Definition approval_submission (sdk : sui_sdk) (w : world) (applicantAddress : jsval)
    (kp : keypair sdk) : rpc :=
  SignAndExecuteTransaction
    (Transaction (to_string (PACKAGE_ID w) +:+ "::vetting::approve_vetting")
       [ArgObject (ADMIN_CAP_ID w); ArgObject (VETTING_TABLE_ID w);
        ArgPureAddress applicantAddress] [] None)
    (toSuiAddress sdk (getPublicKey sdk kp))
    ["showEffects"].

Definition status_inspection (w : world) (applicantAddress : jsval) : rpc :=
  DevInspectTransactionBlock
    (Transaction (to_string (PACKAGE_ID w) +:+ "::vetting::status_of_vetting")
       [ArgObject (VETTING_TABLE_ID w); ArgPureAddress applicantAddress] [] None)
    applicantAddress.

(* ===================================================================== *)
(** ** The key conversion script: hexToBytes, bytesToHex,
       getSuiAddressFromPrivateKey *)
(* ===================================================================== *)

Module Hex.

Definition code (c : ascii) : Z := Z.of_N (N_of_ascii c).

(** White space that [parseInt] skips (the ASCII part of it). *)
Definition is_space (c : ascii) : bool :=
  ((9 <=? code c) && (code c <=? 13)) || (code c =? 32).

Fixpoint trim_start (s : string) : string :=
  match s with
  | String c rest => if is_space c then trim_start rest else s
  | EmptyString => s
  end.

(** The value of a digit in radix 16, either case. *)
Definition digit_value (c : ascii) : option Z :=
  let n := code c in
  if (48 <=? n) && (n <=? 57) then Some (n - 48)
  else if (97 <=? n) && (n <=? 102) then Some (n - 87)
  else if (65 <=? n) && (n <=? 70) then Some (n - 55)
  else None.

(** The longest prefix of digits, read as a number; [None] without a digit. *)
Fixpoint digits_prefix (s : string) (acc : option Z) : option Z :=
  match s with
  | String c rest =>
      match digit_value c with
      | Some d => digits_prefix rest (Some (default 0 acc * 16 + d))
      | None => acc
      end
  | EmptyString => acc
  end.

(** [parseInt(s, 16)]; [None] is NaN. *)
Definition parseInt16 (s : string) : option Z :=
  let s1 := trim_start s in
  let signed :=
    match s1 with
    | String "-" rest => (true, rest)
    | String "+" rest => (false, rest)
    | _ => (false, s1)
    end in
  let s3 :=
    match signed.2 with
    | String "0" (String "x" rest) => rest
    | String "0" (String "X" rest) => rest
    | other => other
    end in
  match digits_prefix s3 None with
  | Some n => Some (if signed.1 then - n else n)
  | None => None
  end.

(** A number stored into a [Uint8Array]: NaN becomes 0, the rest wraps. *)
Definition to_uint8 (v : option Z) : Z :=
  match v with
  | Some n => n mod 256
  | None => 0
  end.

(** The loop of [hexToBytes]: [hex.substr(i, 2)] for i = 0, 2, 4, ... *)
Fixpoint hexToBytes (hex : string) : buffer :=
  match hex with
  | EmptyString => []
  | String a EmptyString => [to_uint8 (parseInt16 (String a EmptyString))]
  | String a (String b rest) =>
      to_uint8 (parseInt16 (String a (String b EmptyString))) :: hexToBytes rest
  end.

(** [n.toString(16)] for an integer [n]. *)
Fixpoint hex_digits (fuel : nat) (n : Z) (acc : string) : string :=
  match fuel with
  | O => acc
  | S fuel' =>
      if n <? 16 then String (hex_digit n) acc
      else hex_digits fuel' (n / 16) (String (hex_digit (n mod 16)) acc)
  end.

Definition number_to_hex (n : Z) : string :=
  let digits m := hex_digits (S (Z.to_nat (Z.log2 m))) m "" in
  if n <? 0 then String "-" (digits (- n)) else digits n.

(** [s.padStart(2, '0')] *)
Definition pad_start2 (s : string) : string :=
  match s with
  | EmptyString => "00"
  | String a EmptyString => String "0" s
  | _ => s
  end.

Definition bytesToHex (bytes : list Z) : string :=
  join "" (map (fun byte => pad_start2 (number_to_hex byte)) bytes).

(** [s.replace(pattern, replacement)] with a string pattern: the first
    occurrence only. *)
Fixpoint replace_first (pattern replacement s : string) : string :=
  if String.prefix pattern s
  then replacement +:+ String.substring (String.length pattern)
                                        (String.length s - String.length pattern) s
  else match s with
       | EmptyString => EmptyString
       | String c rest => String c (replace_first pattern replacement rest)
       end.

(** [privateKeyHex.replace('0x', '')] on any value. *)
Definition call_replace_0x (privateKeyHex : jsval) : completion string :=
  match privateKeyHex with
  | JStr s => Normal (replace_first "0x" "" s)
  | JUndefined | JNull =>
      type_error ("Cannot read properties of " +:+ describe privateKeyHex
                  +:+ " (reading 'replace')")
  | _ => type_error "privateKeyHex.replace is not a function"
  end.

Definition uint8array (bytes : buffer) : jsval := JArr (map JNum bytes).

Definition getSuiAddressFromPrivateKey (privateKeyHex : jsval) : M jsval :=
  try_catch
    (cleanPrivateKey <- lift (call_replace_0x privateKeyHex) ;;
     let privateKeyBytes := hexToBytes cleanPrivateKey in
     log LogLevel [JStr "Private Key (hex):"; JStr cleanPrivateKey] ;;;
     log LogLevel [JStr "Private Key length:";
                   JNum (Z.of_nat (length privateKeyBytes)); JStr "bytes"] ;;;
     log LogLevel [JStr (String "010"%char "⚠️  WARNING: Use official Sui SDK for production!")] ;;;
     log LogLevel [JStr "Install with: npm install @mysten/sui.js"] ;;;
     ret (JObj [("privateKey", JStr cleanPrivateKey);
                ("privateKeyBytes", uint8array privateKeyBytes);
                ("note", JStr "Use @mysten/sui.js for actual address derivation")]))
    (fun err =>
       log ErrorLevel [JStr "Error processing private key:"; JStr (message err)] ;;;
       ret JNull).

(** Strings of ASCII characters, on which the strings of the model and
    those of the engine have the same characters and the same length. *)
Fixpoint ascii_text (s : string) : bool :=
  match s with
  | EmptyString => true
  | String c rest => (code c <? 128) && ascii_text rest
  end.

(** Strings of lower-case hexadecimal digits. *)
Definition lower_hex_digit (c : ascii) : bool :=
  ((48 <=? code c) && (code c <=? 57)) || ((97 <=? code c) && (code c <=? 102)).

Fixpoint lower_hex (s : string) : bool :=
  match s with
  | EmptyString => true
  | String c rest => lower_hex_digit c && lower_hex rest
  end.

(** The two digits of a byte, as [toString(16).padStart(2, '0')] and as
    [Buffer.toString('hex')] write them, read back by [parseInt]. *)
Definition byte_digits_agree (b : Z) : bool :=
  let pair := String (hex_digit (b / 16)) (String (hex_digit (b mod 16)) EmptyString) in
  String.eqb (pad_start2 (number_to_hex b)) pair
  && (to_uint8 (parseInt16 pair) =? b).

(** A pair of digits read by [parseInt] and written back. *)
Definition pair_round_trips (c1 c2 : ascii) : bool :=
  String.eqb
    (bytesToHex [to_uint8 (parseInt16 (String c1 (String c2 EmptyString)))])
    (String c1 (String c2 EmptyString)).

End Hex.
Export Hex.

(* ===================================================================== *)
(** ** lib/submitForVetting.js *)
(* ===================================================================== *)

Module Submit.

Definition decimal_value (c : ascii) : option Z :=
  if (48 <=? code c) && (code c <=? 57) then Some (code c - 48) else None.

Fixpoint digits_in (digit : ascii -> option Z) (radix : Z) (s : string) (acc : option Z)
  : option Z :=
  match s with
  | String c rest =>
      match digit c with
      | Some d => digits_in digit radix rest (Some (default 0 acc * radix + d))
      | None => acc
      end
  | EmptyString => acc
  end.

(** [parseInt(s)] without a radix: decimal, or hexadecimal after [0x];
    [None] is NaN. *)
Definition parseInt (s : string) : option Z :=
  let s1 := trim_start s in
  let signed :=
    match s1 with
    | String "-" rest => (true, rest)
    | String "+" rest => (false, rest)
    | _ => (false, s1)
    end in
  let magnitude :=
    match signed.2 with
    | String "0" (String "x" rest) => digits_in digit_value 16 rest None
    | String "0" (String "X" rest) => digits_in digit_value 16 rest None
    | other => digits_in decimal_value 10 other None
    end in
  match magnitude with
  | Some n => Some (if signed.1 then - n else n)
  | None => None
  end.

(** [parseInt(v) === 0] *)
Definition parses_to_zero (v : jsval) : bool :=
  match parseInt (to_string v) with
  | Some n => n =? 0
  | None => false
  end.

(** [v.startsWith(prefix)] on any value. *)
Definition starts_with (v : jsval) (prefix : string) : completion bool :=
  match v with
  | JStr s => Normal (String.prefix prefix s)
  | JUndefined | JNull =>
      type_error ("Cannot read properties of " +:+ describe v
                  +:+ " (reading 'startsWith')")
  | _ => type_error "privateKey.startsWith is not a function"
  end.

Definition failed_to_load : string :=
  "Failed to load private key. Make sure it's a valid 64-character hex string.".

Definition failed_to_load_from_environment : string :=
  "Failed to load private key from environment. Make sure it's a valid 64-character hex string.".

Section WithWorld.
Variable sdk : sui_sdk.
Variable w : world.
(** [fromHex] of @mysten/sui/utils. *)
Variable fromHex : string -> completion buffer.

(** The body of the [try] block that turns a private key into a key pair
    (lines 28-46 and 62-79). *)
Definition decode_private_key (privateKey : jsval) : completion (keypair sdk) :=
  len <~ get privateKey "length" ;;
  keyBytes <~
    (if is_num len 64 then fromHex ("0x" +:+ to_string privateKey)
     else
       prefixed <~ (if is_num len 66 then starts_with privateKey "0x" else Normal false) ;;
       if prefixed then fromHex (to_string privateKey)
       else throw_error ("Invalid private key format. Expected 64 hex characters, got "
                         +:+ to_string len)) ;;
  keyBytes' <~
    (if (length keyBytes =? 64)%nat then Normal (slice 0 32 keyBytes)
     else if negb (length keyBytes =? 32)%nat
     then throw_error "Invalid private key byte length after hex decoding. Expected 32 bytes."
     else Normal keyBytes) ;;
  fromSecretKey sdk keyBytes'.

(** The [try]/[catch] around it: whatever was thrown, a fixed message is. *)
Definition load_private_key (failure : string) (privateKey : jsval)
  : completion (keypair sdk) :=
  match decode_private_key privateKey with
  | Normal keypair => Normal keypair
  | Throw _ => throw_error failure
  end.

(** Lines 22-86: the signer, from the credentials of the call or from the
    environment. *)
Definition signer_of (walletCredentials : jsval) : completion (keypair sdk) :=
  if truthy walletCredentials then
    mnemonic <~ get walletCredentials "mnemonic" ;;
    if truthy mnemonic then deriveKeypair sdk mnemonic
    else
      privateKey <~ get walletCredentials "privateKey" ;;
      if truthy privateKey then load_private_key failed_to_load privateKey
      else throw_error "Either mnemonic or privateKey must be provided in walletCredentials"
  else
    let mnemonic := getenv w "MNEMONIC" in
    let privateKey := getenv w "PRIVATE_KEY" in
    if truthy mnemonic then deriveKeypair sdk mnemonic
    else if truthy privateKey
    then load_private_key failed_to_load_from_environment privateKey
    else throw_error
      "Either MNEMONIC or PRIVATE_KEY must be set in the .env file, or provide walletCredentials".

Definition balance_query (address : string) : rpc :=
  OtherCall "getBalance" (JObj [("owner", JStr address)]).

Definition no_tokens (address : string) : error :=
  Error "Error" ("No SUI tokens found in wallet " +:+ address
                 +:+ ". Please fund your wallet first.").

(** Lines 90-103. [console.warn] writes to the error stream. *)
Definition check_balance (address : string) : M unit :=
  try_catch
    (balance <- remote w (balance_query address) ;;
     total <- lift (get balance "totalBalance") ;;
     if parses_to_zero total then throw (no_tokens address) else ret tt)
    (fun error =>
       if includes "No SUI tokens found" (message error) then throw error
       else log ErrorLevel [JStr "Could not check balance:"; JStr (message error)]).

Definition submission (address : string) (table : txarg) : rpc :=
  SignAndExecuteTransaction
    (Transaction (to_string (PACKAGE_ID w) +:+ "::vetting::submit_for_vetting")
                 [table] [] None)
    address ["showEffects"; "showEvents"].

(** Lines 112-136. *)
Definition submit (address : string) (table : txarg) : M jsval :=
  try_catch
    (result <- remote w (submission address table) ;;
     effects <- lift (get result "effects") ;;
     status <- lift (get_opt effects "status") ;;
     status' <- lift (get_opt status "status") ;;
     if is_str status' "success"
     then
       digest <- lift (get result "digest") ;;
       ret (JObj [("success", JBool true);
                  ("transactionDigest", digest);
                  ("applicantAddress", JStr address);
                  ("message", JStr "Vetting submission successful")])
     else throw (Error "Error" ("Transaction failed: " +:+ to_string status)))
    (fun error =>
       log ErrorLevel [JStr "Error executing transaction:"; JStr (message error)] ;;;
       throw error).

Definition submitForVetting (argument : jsval) : M jsval :=
  let walletCredentials := with_default argument JNull in
  if is_str (PACKAGE_ID w) "YOUR_PACKAGE_ID"
     || is_str (VETTING_TABLE_ID w) "YOUR_VETTING_TABLE_ID"
  then throw (Error "Error" "PACKAGE_ID or VETTING_TABLE_ID not set in .env file")
  else
    keypair <- lift (signer_of walletCredentials) ;;
    let address := toSuiAddress sdk (getPublicKey sdk keypair) in
    check_balance address ;;;
    table <- lift (tx_object sdk (VETTING_TABLE_ID w)) ;;
    submit address table.

End WithWorld.

End Submit.
Export Submit.

(* ===================================================================== *)
(** ** createDisplay (display.js) and initializeVettingTable *)
(* ===================================================================== *)

Module Display.

(** [array.filter(p)] for a predicate that may throw. *)
Fixpoint filter_with (p : jsval -> completion bool) (l : list jsval)
  : completion (list jsval) :=
  match l with
  | [] => Normal []
  | x :: rest =>
      keep <~ p x ;;
      more <~ filter_with p rest ;;
      Normal (if keep then x :: more else more)
  end.

(** [result.objectChanges?.filter(change => change.type === "created" &&
    change.objectType.includes(marker))]; [None] is [undefined]. *)
Definition created_of_type (marker : string) (result : jsval)
  : completion (option (list jsval)) :=
  objectChanges <~ get result "objectChanges" ;;
  match objectChanges with
  | JUndefined | JNull => Normal None
  | JArr l => kept <~ filter_with (is_created marker) l ;; Normal (Some kept)
  | _ => type_error "result.objectChanges?.filter is not a function"
  end.

(** [change => change.objectType.includes(marker)] *)
Definition type_includes (marker : string) (change : jsval) : completion bool :=
  objectType <~ get change "objectType" ;;
  call_includes objectType marker.

(** [objectChanges?.find(change => change.objectType.includes("NFT"))?.objectId] *)
Definition nft_display_id (objectChanges : option (list jsval)) : completion jsval :=
  match objectChanges with
  | None => Normal JUndefined
  | Some l =>
      found <~ find_first (type_includes "NFT") l ;;
      get_opt found "objectId"
  end.

Definition publisher_query (publisherId : jsval) : rpc :=
  OtherCall "getObject"
    (JObj [("id", publisherId); ("options", JObj [("showType", JBool true)])]).

(** The test on the answer of [getObject] (line 228): [true] when the id is
    not accepted as a Publisher. *)
Definition not_a_publisher (publisherObj : jsval) : completion bool :=
  failure <~ get publisherObj "error" ;;
  if truthy failure then Normal true
  else
    data <~ get publisherObj "data" ;;
    if negb (truthy data) then Normal true
    else
      type <~ get data "type" ;;
      Normal (negb (is_str type "0x2::package::Publisher")).

Definition display_options : list string :=
  ["showObjectChanges"; "showEffects"; "showEvents"; "showInput"].

Section WithWorld.
Variable sdk : sui_sdk.
Variable w : world.
Variable stringify : jsval -> string.
(** [bcs.vector(bcs.string()).serialize(value)], the SDK's. *)
Variable serialize_strings : jsval -> completion buffer.

(** The programmable transaction of createDisplay: two Move calls on the
    display module, the transfer of the display to the signer and the gas
    budget, as the request that carries it to the node. *)
Definition display_submission (publisherId : jsval) (keys values : buffer)
    (nftType signerAddress : string) : rpc :=
  OtherCall "signAndExecuteTransaction"
    (JObj [("transaction",
            JObj [("commands",
                   JArr [JObj [("target", JStr "0x2::display::new_with_fields");
                               ("arguments", JArr [JObj [("object", publisherId)];
                                                   JObj [("pure", uint8array keys)];
                                                   JObj [("pure", uint8array values)]]);
                               ("typeArguments", JArr [JStr nftType])];
                         JObj [("target", JStr "0x2::display::update_version");
                               ("arguments", JArr [JObj [("result", JNum 0)]]);
                               ("typeArguments", JArr [JStr nftType])];
                         JObj [("transferObjects", JArr [JObj [("result", JNum 0)]]);
                               ("address", JStr signerAddress)]]);
                  ("gasBudget", JNum 60000000)]);
           ("signer", JStr signerAddress);
           ("options", strings display_options)]).

(** Lines 207-218: the argument checks and the signer. *)
Definition prepare_display
    (mnemonic publisherId packageId suiNetwork displayKeys displayValues braavVersion : jsval)
  : M (keypair sdk) :=
  lift (require mnemonic "MNEMONIC not set") ;;;
  lift (require publisherId "PUBLISHER_ID not set") ;;;
  lift (require packageId "PACKAGE_ID not set") ;;;
  lift (require suiNetwork "SUI_NETWORK not set") ;;;
  lift (if negb (truthy displayKeys) || negb (is_array displayKeys)
        then throw_error "displayKeys must be an array" else Normal tt) ;;;
  lift (if negb (truthy displayValues) || negb (is_array displayValues)
        then throw_error "displayValues must be an array" else Normal tt) ;;;
  lift (nk <~ get displayKeys "length" ;;
        nv <~ get displayValues "length" ;;
        if negb (match nk, nv with JNum a, JNum b => a =? b | _, _ => false end)
        then throw_error "displayKeys and displayValues must have the same length"
        else Normal tt) ;;;
  lift (require braavVersion "braavVersion is required") ;;;
  lift (deriveKeypair sdk mnemonic).

(** Lines 231-251: the transaction, once the publisher has been accepted. *)
Definition build_display
    (publisherId packageId displayKeys displayValues braavVersion : jsval)
    (signerAddress : string) : completion rpc :=
  let baseType := to_string packageId +:+ "::xoa::" +:+ to_string braavVersion in
  let nftType := to_string packageId +:+ "::braav_public::NFT<" +:+ baseType +:+ ">" in
  _ <~ check_object sdk publisherId ;;
  keys <~ serialize_strings displayKeys ;;
  values <~ serialize_strings displayValues ;;
  Normal (display_submission publisherId keys values nftType signerAddress).

(** Lines 264-281: what is made of the node's answer. *)
Definition conclude_display (result : jsval) : M jsval :=
  status <- lift (effects_status result "status") ;;
  (if negb (is_str status "success")
   then
     reason <- lift (effects_status result "error") ;;
     throw (Error "Error" ("Transaction failed: "
              +:+ to_string (js_or reason (JStr (stringify result)))))
   else ret tt) ;;;
  objectChanges <- lift (created_of_type "0x2::display::Display" result) ;;
  nftDisplayId <- lift (nft_display_id objectChanges) ;;
  (if negb (truthy nftDisplayId)
   then throw (Error "Error" "Failed to retrieve NFT Display object ID")
   else ret tt) ;;;
  log LogLevel [JObj [("nftDisplayId", nftDisplayId)]] ;;;
  ret (JObj [("nftDisplayId", nftDisplayId)]).

Definition createDisplay
    (mnemonic publisherId packageId suiNetwork displayKeys displayValues braavVersion : jsval)
  : M jsval :=
  try_catch
    (keypair <- prepare_display mnemonic publisherId packageId suiNetwork
                  displayKeys displayValues braavVersion ;;
     let signerAddress := toSuiAddress sdk (getPublicKey sdk keypair) in
     publisherObj <- remote w (publisher_query publisherId) ;;
     refused <- lift (not_a_publisher publisherObj) ;;
     (if refused
      then throw (Error "Error" ("Invalid PUBLISHER_ID: " +:+ to_string publisherId
                                 +:+ " is not a valid Publisher object"))
      else ret tt) ;;;
     submission <- lift (build_display publisherId packageId displayKeys displayValues
                           braavVersion signerAddress) ;;
     result <- remote w submission ;;
     conclude_display result)
    (fun error =>
       log ErrorLevel [JStr "Error creating display:"; JStr (message error)] ;;;
       throw error).

(** initializeVettingTable: lines 291-335 of the script. *)
Definition initialization (adminCapId : txarg) (signerAddress : string) : rpc :=
  SignAndExecuteTransaction
    (Transaction (to_string (getenv w "PACKAGE_ID") +:+ "::vetting::initialize_vetting_table")
                 [adminCapId] [] None)
    signerAddress ["showObjectChanges"].

Definition initializeVettingTable : M jsval :=
  let packageId := getenv w "PACKAGE_ID" in
  if negb (truthy packageId) then throw (Error "Error" "PACKAGE_ID not set in .env")
  else
    let mnemonic := getenv w "MNEMONIC" in
    if negb (truthy mnemonic) then throw (Error "Error" "MNEMONIC not set in .env")
    else
      keypair <- lift (deriveKeypair sdk mnemonic) ;;
      let adminCapId := getenv w "ADMIN_CAP" in
      if negb (truthy adminCapId) then throw (Error "Error" "ADMIN_CAP_ID not set in .env")
      else
        cap <- lift (tx_object sdk adminCapId) ;;
        try_catch
          (result <- remote w (initialization cap
                                 (toSuiAddress sdk (getPublicKey sdk keypair))) ;;
           log LogLevel [JStr "Transaction executed:"; JStr (stringify result)] ;;;
           vettingTableChange <- lift (find_created "VettingTable" result) ;;
           vettingTableId <- lift (get_opt vettingTableChange "objectId") ;;
           if negb (truthy vettingTableId)
           then throw (Error "Error" "VettingTable object not found")
           else
             log LogLevel [JStr "VettingTable Object ID:"; vettingTableId] ;;;
             ret vettingTableId)
          (fun error =>
             log ErrorLevel [JStr "Error executing transaction:"; error_value error] ;;;
             throw error).

End WithWorld.

End Display.
Export Display.

(** The arguments createDisplay tests before it does anything else. *)
Definition display_arguments_ok
    (mnemonic publisherId packageId suiNetwork displayKeys displayValues braavVersion : jsval)
  : bool :=
  forallb truthy [mnemonic; publisherId; packageId; suiNetwork]
  && match displayKeys, displayValues with
     | JArr keys, JArr values => (length keys =? length values)%nat
     | _, _ => false
     end
  && truthy braavVersion.

Definition display_argument_messages : list string :=
  ["MNEMONIC not set"; "PUBLISHER_ID not set"; "PACKAGE_ID not set"; "SUI_NETWORK not set";
   "displayKeys must be an array"; "displayValues must be an array";
   "displayKeys and displayValues must have the same length";
   "braavVersion is required"].

(* ===================================================================== *)
(** ** fetchWithRetry and createSupply (the supply script) *)
(* ===================================================================== *)

Module Supply.

Definition is_digit (c : ascii) : bool := (48 <=? code c) && (code c <=? 57).

Fixpoint take_digits (s : string) : string :=
  match s with
  | String c rest => if is_digit c then String c (take_digits rest) else EmptyString
  | EmptyString => EmptyString
  end.

(** [s.match(/BRAAV\d+/)?.[0]]: the leftmost BRAAV followed by digits, with
    all the digits that follow. *)
Fixpoint match_braav (s : string) : option string :=
  match s with
  | EmptyString => None
  | String _ rest =>
      let digits :=
        take_digits (String.substring 5 (String.length s - 5) s) in
      if String.prefix "BRAAV" s && negb (String.eqb digits "")
      then Some ("BRAAV" +:+ digits)
      else match_braav rest
  end.

(** [braavTypeArg.match(/BRAAV\d+/)?.[0] || 'Unknown BRAAV'] on any value. *)
Definition braav_number (braavTypeArg : jsval) : completion string :=
  match braavTypeArg with
  | JStr s => Normal (default "Unknown BRAAV" (match_braav s))
  | JUndefined | JNull =>
      type_error ("Cannot read properties of " +:+ describe braavTypeArg
                  +:+ " (reading 'match')")
  | _ => type_error "braavTypeArg.match is not a function"
  end.

(** [result.objectChanges?.find(p)] *)
Definition find_change (p : jsval -> completion bool) (result : jsval) : completion jsval :=
  objectChanges <~ get result "objectChanges" ;;
  match objectChanges with
  | JUndefined | JNull => Normal JUndefined
  | JArr l => find_first p l
  | _ => type_error "result.objectChanges?.find is not a function"
  end.

(** [change.type === 'created' && change.owner.AddressOwner === address &&
    change.objectType.includes('::counter::Counter')] *)
Definition is_created_counter (address : string) (change : jsval) : completion bool :=
  ty <~ get change "type" ;;
  if is_str ty "created"
  then
    owner <~ get change "owner" ;;
    addressOwner <~ get owner "AddressOwner" ;;
    if is_str addressOwner address
    then (objectType <~ get change "objectType" ;;
          call_includes objectType "::counter::Counter")
    else Normal false
  else Normal false.

Definition object_query (objectId : jsval) : rpc :=
  OtherCall "getObject"
    (JObj [("id", objectId); ("options", JObj [("showContent", JBool true)])]).

Definition supply_options : list string :=
  ["showObjectChanges"; "showEffects"; "showEvents"; "showBalanceChanges"; "showInput"].

Section WithWorld.
Variable sdk : sui_sdk.
Variable w : world.
Variable stringify : jsval -> string.
(** [tx.pure.u64(value)], the SDK's check of its argument. *)
Variable check_pure_u64 : jsval -> completion unit.
(** The [code] property of a thrown value. The errors of the model carry a
    name and a message; what else the client attaches is read through this. *)
Variable code_of : error -> jsval.
(** [v > 0] for an operand that is not a number, a boolean, null or
    undefined: the engine's conversion of strings and objects to numbers. *)
Variable converts_above_zero : jsval -> bool.

Definition above_zero (v : jsval) : bool :=
  match v with
  | JNum n => 0 <? n
  | JBool b => b
  | JUndefined | JNull => false
  | _ => converts_above_zero v
  end.

(** One turn of the loop of fetchWithRetry: the object when it has data,
    nothing when the loop is to go on. The pause of [delayMs] leaves no
    trace in the state. *)
Definition fetch_once (objectId : jsval) (retries i : Z) : M (option jsval) :=
  try_catch
    (obj <- remote w (object_query objectId) ;;
     data <- lift (get obj "data") ;;
     ret (if truthy data then Some obj else None))
    (fun e =>
       if negb (is_str (code_of e) "notExists") then throw e
       else
         log LogLevel [JStr ("Object " +:+ to_string objectId
                             +:+ " not yet available, retrying... ("
                             +:+ pretty (retries - i - 1) +:+ " left)")] ;;;
         ret None).

Fixpoint fetch_loop (objectId : jsval) (retries : Z) (remaining : nat) (i : Z) : M jsval :=
  match remaining with
  | O => throw (Error "Error" ("Object " +:+ to_string objectId +:+ " not found after "
                               +:+ pretty retries +:+ " retries"))
  | S remaining' =>
      found <- fetch_once objectId retries i ;;
      match found with
      | Some obj => ret obj
      | None => fetch_loop objectId retries remaining' (i + 1)
      end
  end.

(** [fetchWithRetry(client, objectId, retries)] for a count [retries]. *)
Definition fetchWithRetry (objectId : jsval) (retries : nat) : M jsval :=
  fetch_loop objectId (Z.of_nat retries) retries 0.

Definition mnemonic : jsval := js_or (getenv w "MNEMONIC") (JStr "").
Definition packageId : jsval := js_or (getenv w "PACKAGE_ID") (JStr "").
Definition suiNetwork : jsval := js_or (getenv w "SUI_NETWORK") (JStr "").
Definition creatorCapId : jsval := js_or (getenv w "CREATOR_CAP_ID") (JStr "").

Definition owned_query (address : string) (braavTypeArg : jsval) : rpc :=
  OtherCall "getOwnedObjects"
    (JObj [("owner", JStr address);
           ("filter", JObj [("StructType",
              JStr (to_string packageId +:+ "::braav_public::BRAAV<"
                    +:+ to_string braavTypeArg +:+ ">"))]);
           ("options", JObj [("showType", JBool true)])]).

(** The programmable transaction of createSupply, as the request that
    carries it to the node. *)
Definition supply_submission (limit braavTypeArg : jsval) (address : string) : rpc :=
  OtherCall "signAndExecuteTransaction"
    (JObj [("signer", JStr address);
           ("transaction",
            JObj [("commands",
                   JArr [JObj [("target", JStr (to_string packageId
                                                +:+ "::braav_public::create_supply"));
                               ("arguments", JArr [JObj [("object", creatorCapId)];
                                                   JObj [("u64", limit)]]);
                               ("typeArguments", JArr [braavTypeArg])];
                         JObj [("transferObjects", JArr [JObj [("result", JNum 0)]]);
                               ("address", JStr address)]]);
                  ("gasBudget", JNum 10000000)]);
           ("options", strings supply_options)]).

(** Lines 94-102: the counter read back from the BRAAV object. *)
Definition counter_of (createdBraav : jsval) : M jsval :=
  braavId <- lift (get_opt createdBraav "objectId") ;;
  if truthy braavId
  then
    objectId <- lift (get createdBraav "objectId") ;;
    braavObject <- fetchWithRetry objectId 10 ;;
    data <- lift (get braavObject "data") ;;
    content <- lift (get_opt data "content") ;;
    dataType <- lift (get_opt content "dataType") ;;
    if is_str dataType "moveObject"
    then
      fields <- lift (get content "fields") ;;
      counter <- lift (get_opt fields "counter") ;;
      if truthy counter
      then (fields' <- lift (get content "fields") ;; lift (get fields' "counter"))
      else ret (JStr "Not found")
    else ret (JStr "Not found")
  else ret (JStr "Not found").

Definition createSupply (limit braavTypeArg : jsval) : M jsval :=
  braavNumber <- lift (braav_number braavTypeArg) ;;
  try_catch
    (lift (require mnemonic "MNEMONIC not set") ;;;
     lift (require packageId "PACKAGE_ID not set") ;;;
     lift (require suiNetwork "SUI_NETWORK not set") ;;;
     lift (require creatorCapId "CREATOR_CAP_ID not set") ;;;
     keypair <- lift (deriveKeypair sdk mnemonic) ;;
     let address := toSuiAddress sdk (getPublicKey sdk keypair) in
     objects <- remote w (owned_query address braavTypeArg) ;;
     data <- lift (get objects "data") ;;
     count <- lift (get data "length") ;;
     (if above_zero count
      then throw (Error "Error" (braavNumber +:+ " already used for packageId "
                                 +:+ to_string packageId +:+ "."))
      else ret tt) ;;;
     lift (check_object sdk creatorCapId) ;;;
     lift (check_pure_u64 limit) ;;;
     result <- remote w (supply_submission limit braavTypeArg address) ;;
     log LogLevel [JStr "Full Transaction Result:"; JStr (stringify result)] ;;;
     createdBraav <- lift (find_created "::braav_public::BRAAV" result) ;;
     createdLineage <- lift (find_created "::braav_public::Lineage" result) ;;
     createdCounter <- lift (find_change (is_created_counter address) result) ;;
     counterId <- counter_of createdBraav ;;
     supplyCapId <- lift (get_opt createdBraav "objectId") ;;
     lineageObjectId <- lift (get_opt createdLineage "objectId") ;;
     createdCounterId <- lift (get_opt createdCounter "objectId") ;;
     log LogLevel [JObj [("SupplyCapId", js_coalesce supplyCapId (JStr "Not found"));
                         ("LineageObjectId", js_coalesce lineageObjectId (JStr "Not found"));
                         ("CounterId", js_coalesce createdCounterId counterId)]] ;;;
     ret result)
    (fun error =>
       log ErrorLevel [JStr ("Error creating " +:+ braavNumber +:+ " supply:");
                       JStr (message error)] ;;;
       throw error).

End WithWorld.

End Supply.
Export Supply.

(* ===================================================================== *)
(** ** Stand-ins for the closed examples of the further properties *)
(* ===================================================================== *)

Module Examples.

Definition quiet_world : world := Demo.world_with Demo.configured (Normal JNull).

(** A node that answers by the method called. *)
Definition node (e : gmap string string) (answer : rpc -> completion jsval) : world := {|
  env := e;
  client := fun _ r => answer r;
  clock := fun _ => "2024-01-15T10:30:00.000Z";
  os_random := fun _ n => repeat 7 n
|}.

Definition fromHex (s : string) : completion buffer :=
  Normal (hexToBytes (Demo.strip_0x s)).

Definition serialize_strings (v : jsval) : completion buffer :=
  match v with
  | JArr l => Normal (Z.of_nat (length l) :: flat_map (fun x => utf8 (to_string x)) l)
  | _ => type_error "Invalid array"
  end.

Definition check_pure_u64 (v : jsval) : completion unit :=
  match v with
  | JNum n => if 0 <=? n then Normal tt else throw_error "Invalid u64 value"
  | _ => throw_error "Invalid u64 value"
  end.

Definition code_of (e : error) : jsval :=
  if includes "does not exist" (message e) then JStr "notExists" else JUndefined.

Definition converts_above_zero (v : jsval) : bool := false.

Definition method_of (r : rpc) : string :=
  match r with
  | DevInspectTransactionBlock _ _ => "devInspectTransactionBlock"
  | SignAndExecuteTransaction _ _ _ => "signAndExecuteTransaction"
  | OtherCall method _ => method
  end.

(** A wallet without funds, an unreachable balance service, a submission
    that aborts. *)
Definition empty_wallet (r : rpc) : completion jsval :=
  if String.eqb (method_of r) "getBalance"
  then Normal (JObj [("coinType", JStr "0x2::sui::SUI"); ("totalBalance", JStr "0")])
  else Normal (Demo.executed "success" []).

Definition no_balance_service (r : rpc) : completion jsval :=
  if String.eqb (method_of r) "getBalance"
  then throw_error "fetch failed"
  else Normal (Demo.executed "success" []).

(** The bytes 0, 1, ..., n-1. *)
Definition seq_bytes (n : nat) : buffer := map Z.of_nat (seq 0 n).

Definition credentials : jsval :=
  JObj [("privateKey",
         JStr "000102030405060708090a0b0c0d0e0f101112131415161718191a1b1c1d1e1f")].

Definition both_credentials : jsval :=
  JObj [("mnemonic", JStr "abandon ability able about above absent absorb abstract absurd abuse access accident");
        ("privateKey", JStr "not a key")].

Definition signer : Demo.sdk.(keypair) :=
  match deriveKeypair Demo.sdk (getenv quiet_world "MNEMONIC") with
  | Normal kp => kp
  | Throw _ => []
  end.

Definition signer_address : string :=
  toSuiAddress Demo.sdk (getPublicKey Demo.sdk signer).

(** Bodies of requests. *)
Definition numeric_string_limit : jsval :=
  JObj [("supplyLimit", JStr "10"); ("tokenTypeName", JStr "0xabc::xoa::BRAAV16")].

Definition empty_created_at : jsval :=
  JObj [("userDetails", JObj [("id", JStr "user123"); ("created_at", JStr "")])].

(** A created NFT behind a change that is not a creation. *)
Definition created_nft : jsval :=
  JObj [("type", JStr "created");
        ("objectType", JStr "0xabc::braav_public::NFT<0xabc::xoa::BRAAV16>");
        ("objectId", JStr "0x9f1")].

Definition mutated_gas : jsval :=
  JObj [("type", JStr "mutated");
        ("objectType", JStr "0x2::coin::Coin<0x2::sui::SUI>");
        ("objectId", JStr "0x6a5")].

Definition supply_env : gmap string string :=
  <["CREATOR_CAP_ID" := "0xc4"]> Demo.configured.

Definition owns (data : list jsval) (r : rpc) : completion jsval :=
  if String.eqb (method_of r) "getOwnedObjects"
  then Normal (JObj [("data", JArr data)])
  else Normal (JObj [("digest", JStr "9WzSXdwbky8tNbH7juvyaui4QzMUYEjdCEKMrMgLhXHT");
                     ("effects", JObj [("status", JObj [("status", JStr "failure");
                                                        ("error", JStr "MoveAbort")])])]).

End Examples.


(** The SDK with its key constructor refusing anything but 32 bytes before
    the library sees it: a probe for what the constructor is handed. *)
Definition only_32_byte_seeds (sdk : sui_sdk) : sui_sdk := {|
  keypair := keypair sdk;
  public_key := public_key sdk;
  fromSecretKey := fun secret =>
    if (length secret =? 32)%nat then fromSecretKey sdk secret
    else throw_error "seed is not 32 bytes";
  deriveKeypair := deriveKeypair sdk;
  generateKeypair := generateKeypair sdk;
  getSecretKey := getSecretKey sdk;
  getPublicKey := getPublicKey sdk;
  toSuiAddress := toSuiAddress sdk;
  toBase64 := toBase64 sdk;
  isValidSuiAddress := isValidSuiAddress sdk;
  check_object := check_object sdk;
  check_pure_address := check_pure_address sdk;
  check_pure_string := check_pure_string sdk
|}.

(** A word of the mnemonic: non-empty, without blanks, from the list. *)
Definition plain_word (s : string) : bool :=
  negb (String.eqb s "") && negb (includes " " s).

(** The results the resolver can hand back for an applicant. *)
Inductive resolver_result (applicantAddress : jsval) : jsval -> Prop :=
| res_not_applied (msg : string) :
    msg = "This address has not applied" \/ msg = "Unexpected return value" ->
    resolver_result applicantAddress (not_applied applicantAddress msg)
| res_query_failed (err : error) :
    resolver_result applicantAddress (query_failed applicantAddress err)
| res_decided (approved : bool) :
    resolver_result applicantAddress (decided applicantAddress approved).

(** The NotApplied shape: [hasApplied] false, [isApproved] null, a message. *)
Definition not_applied_shaped (r : jsval) : Prop :=
  get r "hasApplied" = Normal (JBool false)
  /\ get r "isApproved" = Normal JNull
  /\ exists msg, get r "message" = Normal (JStr msg).

(** The condition of the guard at the top of lib/statusOfVetting.js: an
    identifier is unset, empty, or still the placeholder. *)
Definition placeholder_left (w : world) : bool :=
  is_str (PACKAGE_ID w) "YOUR_PACKAGE_ID"
  || is_str (VETTING_TABLE_ID w) "YOUR_VETTING_TABLE_ID".

(** The state after one remote call [r], and after the line the [catch]
    block of the resolver prints. *)
Definition after_call (st : state) (r : rpc) : state :=
  State (calls st ++ [r]) (console st) (draws st) (ticks st).

Definition after_failed_query (st : state) (r : rpc) (err : error) : state :=
  State (calls st ++ [r])
        (console st ++ [(ErrorLevel, [JStr "Error querying status:"; JStr (message err)])])
        (draws st) (ticks st).

(** One step of a case analysis on a completion or a test. *)
Ltac case_completion :=
  match goal with
  | |- context [cbind ?c _] =>
      let v := fresh "v" in
      let e := fresh "e" in
      destruct c as [v|e]; simpl
  | |- context [if ?b then _ else _] => destruct b; simpl
  end.

(* ===================================================================== *)
(** * Properties *)
(* ===================================================================== *)

(** ** Test vectors (FIPS 180-4 appendix, RFC 4231 case 2) *)

Example sha256_abc :
  to_hex (sha256 (utf8 "abc"))
  = "ba7816bf8f01cfea414140de5dae2223b00361a396177a9cb410ff61f20015ad".
Proof. vm_compute. reflexivity. Qed.

Example sha256_two_blocks :
  to_hex (sha256 (utf8 "abcdbcdecdefdefgefghfghighijhijkijkljklmklmnlmnomnopnopq"))
  = "248d6a61d20638b8e5c026930c3e6039a33ce45964ff2167f6ecedd419db06c1".
Proof. vm_compute. reflexivity. Qed.

Example hmac_sha256_rfc4231_case2 :
  to_hex (hmac_sha256 (utf8 "Jefe") (utf8 "what do ya want for nothing?"))
  = "5bdcc146bf60754e6a042426089575c75a003f089d2739839dec58b964ec3843".
Proof. vm_compute. reflexivity. Qed.

(** ** Digest sizes *)

Lemma be32_length (x : Z) : length (be32 x) = 4%nat.
Proof. reflexivity. Qed.

Lemma be32_bytes (x : Z) : Forall is_byte (be32 x).
Proof.
  unfold be32, is_byte.
  repeat constructor; apply Z.mod_pos_bound; lia.
Qed.

Lemma digest_bytes_length (s : hstate) : length (digest_bytes s) = 32%nat.
Proof. unfold digest_bytes. rewrite !length_app, !be32_length. reflexivity. Qed.

Lemma digest_bytes_range (s : hstate) : Forall is_byte (digest_bytes s).
Proof. unfold digest_bytes. repeat (apply Forall_app; split); apply be32_bytes. Qed.

Lemma sha256_length (msg : buffer) : length (sha256 msg) = 32%nat.
Proof. apply digest_bytes_length. Qed.

Lemma hmac_sha256_length (key msg : buffer) : length (hmac_sha256 key msg) = 32%nat.
Proof. apply sha256_length. Qed.

Lemma hmac_sha256_range (key msg : buffer) : Forall is_byte (hmac_sha256 key msg).
Proof. apply digest_bytes_range. Qed.

Lemma slice_whole (n : nat) (buf : buffer) : length buf = n -> slice 0 n buf = buf.
Proof.
  intros H. unfold slice. rewrite Nat.sub_0_r, drop_0.
  apply firstn_all2. lia.
Qed.

(** ** Property access never fails on a value that is not nullish *)

Lemma get_total (v : jsval) (k : string) :
  nullish v = false -> exists x, get v k = Normal x.
Proof.
  destruct v; simpl; intros H; try discriminate; eauto;
    destruct (String.eqb k "length"); eauto.
Qed.

Lemma destructure_get (v : jsval) (source k : string) :
  nullish v = false -> destructure v source k = get v k.
Proof. intros H. unfold destructure. rewrite H. reflexivity. Qed.

Lemma get_normal_not_nullish (v x : jsval) (k : string) :
  get v k = Normal x -> nullish v = false.
Proof. destruct v; simpl; intros; try reflexivity; discriminate. Qed.

Lemma deterministicSeed_total (w : world) (userDetails : jsval) :
  nullish userDetails = false ->
  exists seed, deterministicSeed w userDetails = Normal seed /\ length seed = 32%nat
               /\ Forall is_byte seed.
Proof.
  intros H. unfold deterministicSeed.
  destruct (get_total userDetails "id" H) as [a ->].
  destruct (get_total userDetails "created_at" H) as [b ->].
  destruct (get_total userDetails "secret_key" H) as [c ->].
  simpl. eexists. split; [reflexivity|].
  split; [apply hmac_sha256_length | apply hmac_sha256_range].
Qed.

(** C7. Whatever the identity fields are, the private-key seed that key
    derivation computes is exactly 32 bytes (each a byte): it is the whole
    HMAC-SHA256 digest, and the SDK's key constructor is never handed a
    buffer of another length (guarding the constructor changes nothing). *)
Theorem C7_private_key_seed_is_32_bytes
  (sdk : sui_sdk) (w : world) (userDetails : jsval) :
  nullish userDetails = false ->
  exists digest seed,
    deterministicSeed w userDetails = Normal digest
    /\ privateKeyBytes w userDetails = Normal seed
    /\ seed = digest
    /\ length seed = 32%nat
    /\ Forall is_byte seed
    /\ derive_wallet (only_32_byte_seeds sdk) w userDetails
       = derive_wallet sdk w userDetails.
Proof.
  intros H.
  destruct (deterministicSeed_total w userDetails H) as (digest & Hd & Hlen & Hrange).
  exists digest, digest.
  unfold privateKeyBytes, derive_wallet. rewrite Hd. simpl.
  rewrite (slice_whole 32 digest Hlen).
  repeat split; try assumption; try reflexivity.
  rewrite Hlen. reflexivity.
Qed.

Lemma C7_witness :
  exists digest seed,
    deterministicSeed (Demo.world_with Demo.configured (Normal JNull)) Demo.user = Normal digest
    /\ privateKeyBytes (Demo.world_with Demo.configured (Normal JNull)) Demo.user = Normal seed
    /\ seed = digest
    /\ length seed = 32%nat
    /\ Forall is_byte seed
    /\ derive_wallet (only_32_byte_seeds Demo.sdk)
         (Demo.world_with Demo.configured (Normal JNull)) Demo.user
       = derive_wallet Demo.sdk (Demo.world_with Demo.configured (Normal JNull)) Demo.user.
Proof.
  apply (C7_private_key_seed_is_32_bytes Demo.sdk
           (Demo.world_with Demo.configured (Normal JNull)) Demo.user).
  reflexivity.
Defined.

(** ** The mnemonic *)

Lemma words_plain : Forall (fun x => plain_word x = true) words.
Proof.
  assert (H : forallb plain_word words = true) by (vm_compute; reflexivity).
  rewrite List.forallb_forall in H. apply List.Forall_forall. exact H.
Qed.

Lemma word_at_byte (b : Z) :
  exists x, words !! Z.to_nat (b mod Z.of_nat (length words)) = Some x
            /\ x ∈ words /\ plain_word x = true.
Proof.
  assert (Hlt : (Z.to_nat (b mod Z.of_nat (length words)) < length words)%nat).
  { pose proof (Z.mod_pos_bound b (Z.of_nat (length words))) as Hb.
    simpl length in *. lia. }
  destruct (lookup_lt_is_Some_2 words _ Hlt) as [x Hx].
  exists x. split; [exact Hx|].
  assert (Hin : x ∈ words) by (eapply list_elem_of_lookup_2; exact Hx).
  split; [exact Hin|].
  pose proof words_plain as Hall. rewrite Forall_forall in Hall.
  apply Hall. exact Hin.
Qed.

Lemma mnemonic_shape (seed : buffer) :
  length seed = 32%nat ->
  exists ws : list string,
    generateMnemonicFromSeed seed = join " " ws
    /\ length ws = 12%nat
    /\ (forall i, (i < 12)%nat ->
          exists b, seed !! (2 * i)%nat = Some b
                    /\ is_Some (ws !! i)
                    /\ ws !! i = words !! Z.to_nat (b mod Z.of_nat (length words)))
    /\ Forall (fun x => x ∈ words /\ plain_word x = true) ws.
Proof.
  intros Hlen.
  exists (map (fun i => default "" (mnemonic_word seed i)) (seq 0 12)).
  assert (Hword : forall i, (i < 12)%nat ->
            exists b x, seed !! (2 * i)%nat = Some b
                        /\ words !! Z.to_nat (b mod Z.of_nat (length words)) = Some x
                        /\ mnemonic_word seed i = Some x
                        /\ x ∈ words /\ plain_word x = true).
  { intros i Hi.
    destruct (lookup_lt_is_Some_2 seed (i * 2)%nat) as [b Hb]; [lia|].
    destruct (word_at_byte b) as (x & Hx & Hin & Hplain).
    exists b, x.
    split; [replace (2 * i)%nat with (i * 2)%nat by lia; exact Hb|].
    split; [exact Hx|].
    split; [|split; assumption].
    unfold mnemonic_word. rewrite Hb. simpl. exact Hx. }
  split; [|split; [|split]].
  - unfold generateMnemonicFromSeed, join_words, mnemonic_words.
    rewrite map_map. reflexivity.
  - rewrite length_map, length_seq. reflexivity.
  - intros i Hi.
    destruct (Hword i Hi) as (b & x & Hb & Hx & Hm & _).
    exists b. split; [exact Hb|].
    assert (Hws : map (fun i => default "" (mnemonic_word seed i)) (seq 0 12) !! i = Some x).
    { change (map ?f ?l) with (f <$> l). rewrite list_lookup_fmap.
      rewrite lookup_seq_lt by lia. simpl. rewrite Hm. reflexivity. }
    rewrite Hws, Hx. split; [eexists|]; reflexivity.
  - apply List.Forall_forall. intros x Hin.
    apply in_map_iff in Hin. destruct Hin as (i & <- & Hi).
    apply in_seq in Hi.
    destruct (Hword i) as (b & y & _ & _ & Hm & Hy & Hplain); [lia|].
    rewrite Hm. simpl. split; assumption.
Qed.

(** C8. The mnemonic of a derived wallet is twelve words joined by single
    blanks; word [i] is the word-list entry at index (digest byte [2 * i])
    modulo the size of the list; every word is a plain entry of the list;
    and the rendering loses information: two different 32-byte seeds have
    the same mnemonic. *)
Theorem C8_mnemonic_is_twelve_indexed_words
  (sdk : sui_sdk) (w : world) (userDetails wallet : jsval) :
  derive_wallet sdk w userDetails = Normal wallet ->
  exists (digest : buffer) (ws : list string),
    deterministicSeed w userDetails = Normal digest
    /\ get wallet "mnemonic" = Normal (JStr (join " " ws))
    /\ generateMnemonicFromSeed digest = join " " ws
    /\ length ws = 12%nat
    /\ (forall i, (i < 12)%nat ->
          exists b, digest !! (2 * i)%nat = Some b
                    /\ is_Some (ws !! i)
                    /\ ws !! i = words !! Z.to_nat (b mod Z.of_nat (length words)))
    /\ Forall (fun x => x ∈ words /\ plain_word x = true) ws
    /\ (exists s1 s2 : buffer,
          length s1 = 32%nat /\ length s2 = 32%nat
          /\ Forall is_byte s1 /\ Forall is_byte s2
          /\ s1 <> s2
          /\ generateMnemonicFromSeed s1 = generateMnemonicFromSeed s2).
Proof.
  intros Hw. unfold derive_wallet in Hw.
  destruct (deterministicSeed w userDetails) as [digest|e] eqn:Hd; [|discriminate].
  assert (Hu : nullish userDetails = false).
  { destruct userDetails; try reflexivity; discriminate. }
  destruct (deterministicSeed_total w userDetails Hu) as (digest' & Hd' & Hlen & _).
  rewrite Hd in Hd'. injection Hd' as <-.
  simpl in Hw. rewrite (slice_whole 32 digest Hlen) in Hw.
  destruct (fromSecretKey sdk digest) as [kp|e]; [|discriminate].
  simpl in Hw. injection Hw as <-.
  destruct (mnemonic_shape digest Hlen) as (ws & Hjoin & Hws & Hidx & Hall).
  exists digest, ws.
  split; [reflexivity|].
  split; [simpl; rewrite Hjoin; reflexivity|].
  split; [exact Hjoin|].
  split; [exact Hws|].
  split; [exact Hidx|].
  split; [exact Hall|].
  exists (repeat 0 32), (0 :: 255 :: repeat 0 30).
  split; [reflexivity|]. split; [reflexivity|].
  split; [apply List.Forall_forall; intros x Hx; apply repeat_spec in Hx; subst; unfold is_byte; lia|].
  split.
  { constructor; [unfold is_byte; lia|].
    constructor; [unfold is_byte; lia|].
    apply List.Forall_forall; intros x Hx; apply repeat_spec in Hx; subst; unfold is_byte; lia. }
  split; [discriminate|].
  vm_compute. reflexivity.
Qed.

Lemma C8_witness :
  exists (digest : buffer) (ws : list string),
    deterministicSeed (Demo.world_with Demo.configured (Normal JNull)) Demo.user = Normal digest
    /\ get Demo.user_wallet "mnemonic" = Normal (JStr (join " " ws))
    /\ generateMnemonicFromSeed digest = join " " ws
    /\ length ws = 12%nat
    /\ (forall i, (i < 12)%nat ->
          exists b, digest !! (2 * i)%nat = Some b
                    /\ is_Some (ws !! i)
                    /\ ws !! i = words !! Z.to_nat (b mod Z.of_nat (length words)))
    /\ Forall (fun x => x ∈ words /\ plain_word x = true) ws
    /\ (exists s1 s2 : buffer,
          length s1 = 32%nat /\ length s2 = 32%nat
          /\ Forall is_byte s1 /\ Forall is_byte s2
          /\ s1 <> s2
          /\ generateMnemonicFromSeed s1 = generateMnemonicFromSeed s2).
Proof.
  apply (C8_mnemonic_is_twelve_indexed_words Demo.sdk
           (Demo.world_with Demo.configured (Normal JNull)) Demo.user Demo.user_wallet).
  vm_compute. reflexivity.
Defined.

Example user_wallet_mnemonic :
  get Demo.user_wallet "mnemonic"
  = Normal (JStr "achieve average april aerobic ability agree admit athlete across apple announce alert").
Proof. vm_compute. reflexivity. Qed.

(** ** Determinism of the derivation *)

Lemma walletSecret_reads_one_variable (w1 w2 : world) :
  env w1 !! "WALLET_SECRET" = env w2 !! "WALLET_SECRET" ->
  walletSecret w1 = walletSecret w2.
Proof. intros H. unfold walletSecret, getenv. rewrite H. reflexivity. Qed.

Lemma derive_wallet_reads_three_fields (sdk : sui_sdk) (w1 w2 : world) (u1 u2 : jsval) :
  env w1 !! "WALLET_SECRET" = env w2 !! "WALLET_SECRET" ->
  get u1 "id" = get u2 "id" ->
  get u1 "created_at" = get u2 "created_at" ->
  get u1 "secret_key" = get u2 "secret_key" ->
  derive_wallet sdk w1 u1 = derive_wallet sdk w2 u2.
Proof.
  intros Hs Hid Hc Hk. unfold derive_wallet, deterministicSeed.
  rewrite Hid, Hc, Hk, (walletSecret_reads_one_variable w1 w2 Hs). reflexivity.
Qed.

Lemma createCustodialWallet_runs_derive (sdk : sui_sdk) (w : world) (u : jsval) (st : state) :
  (createCustodialWallet sdk w u st).1 = derive_wallet sdk w u
  /\ calls (createCustodialWallet sdk w u st).2 = calls st
  /\ draws (createCustodialWallet sdk w u st).2 = draws st
  /\ ticks (createCustodialWallet sdk w u st).2 = ticks st.
Proof.
  unfold createCustodialWallet, try_catch, lift, log_and_rethrow, bind, log, throw.
  destruct (derive_wallet sdk w u); simpl; auto.
Qed.

(** C1. Two calls of createCustodialWallet whose inputs agree on id,
    created_at and secret_key, made under the same wallet secret, complete
    identically (the same wallet object: address, public key, private key,
    mnemonic; or the same exception), whatever else differs between the two
    calls: other properties of the argument, other environment variables,
    the remote node, the clock, the random source and the state the call
    starts in. The call issues no remote call and consumes no randomness
    and no clock read. *)
Theorem C1_derivation_is_deterministic
  (sdk : sui_sdk) (w1 w2 : world) (u1 u2 : jsval) (st1 st2 : state) :
  env w1 !! "WALLET_SECRET" = env w2 !! "WALLET_SECRET" ->
  get u1 "id" = get u2 "id" ->
  get u1 "created_at" = get u2 "created_at" ->
  get u1 "secret_key" = get u2 "secret_key" ->
  (createCustodialWallet sdk w1 u1 st1).1 = (createCustodialWallet sdk w2 u2 st2).1
  /\ (forall wallet field,
        (createCustodialWallet sdk w1 u1 st1).1 = Normal wallet ->
        exists wallet', (createCustodialWallet sdk w2 u2 st2).1 = Normal wallet'
                        /\ get wallet' field = get wallet field)
  /\ calls (createCustodialWallet sdk w1 u1 st1).2 = calls st1
  /\ draws (createCustodialWallet sdk w1 u1 st1).2 = draws st1
  /\ ticks (createCustodialWallet sdk w1 u1 st1).2 = ticks st1.
Proof.
  intros Hs Hid Hc Hk.
  destruct (createCustodialWallet_runs_derive sdk w1 u1 st1) as (E1 & C1 & D1 & T1).
  destruct (createCustodialWallet_runs_derive sdk w2 u2 st2) as (E2 & _).
  pose proof (derive_wallet_reads_three_fields sdk w1 w2 u1 u2 Hs Hid Hc Hk) as E.
  assert (Heq : (createCustodialWallet sdk w1 u1 st1).1
                = (createCustodialWallet sdk w2 u2 st2).1) by congruence.
  repeat split; try assumption.
  intros wallet field Hw. exists wallet. split; [congruence | reflexivity].
Qed.

Lemma C1_witness :
  (createCustodialWallet Demo.sdk (Demo.world_with Demo.configured (Normal JNull))
     Demo.user start).1
  = (createCustodialWallet Demo.sdk Demo.elsewhere Demo.user_again Demo.busy).1
  /\ (forall wallet field,
        (createCustodialWallet Demo.sdk (Demo.world_with Demo.configured (Normal JNull))
           Demo.user start).1 = Normal wallet ->
        exists wallet',
          (createCustodialWallet Demo.sdk Demo.elsewhere Demo.user_again Demo.busy).1
          = Normal wallet'
          /\ get wallet' field = get wallet field)
  /\ calls (createCustodialWallet Demo.sdk (Demo.world_with Demo.configured (Normal JNull))
              Demo.user start).2 = calls start
  /\ draws (createCustodialWallet Demo.sdk (Demo.world_with Demo.configured (Normal JNull))
              Demo.user start).2 = draws start
  /\ ticks (createCustodialWallet Demo.sdk (Demo.world_with Demo.configured (Normal JNull))
              Demo.user start).2 = ticks start.
Proof.
  apply (C1_derivation_is_deterministic Demo.sdk
           (Demo.world_with Demo.configured (Normal JNull)) Demo.elsewhere
           Demo.user Demo.user_again start Demo.busy);
    vm_compute; reflexivity.
Defined.

Example user_wallet_is_returned :
  (createCustodialWallet Demo.sdk Demo.elsewhere Demo.user_again Demo.busy).1
  = Normal Demo.user_wallet.
Proof. vm_compute. reflexivity. Qed.

(** ** The vetting status resolver *)

Lemma length_and_head_bytes (bytes : list Z) (n v : Z) :
  length_and_head (JArr (map JNum bytes)) n v
  = Normal ((Z.of_nat (length bytes) =? n)
            && match bytes with b :: _ => b =? v | [] => false end).
Proof.
  unfold length_and_head. simpl. rewrite length_map.
  destruct (Z.of_nat (length bytes) =? n); destruct bytes; reflexivity.
Qed.

Lemma decode_bytes (applicantAddress : jsval) (bytes : list Z) :
  decode_option_value applicantAddress (JArr (map JNum bytes))
  = Normal (match bytes with
            | [b] => if b =? 0
                     then not_applied applicantAddress "This address has not applied"
                     else not_applied applicantAddress "Unexpected return value"
            | [b; inner] => if b =? 1
                            then decided applicantAddress (inner =? 1)
                            else not_applied applicantAddress "Unexpected return value"
            | _ => not_applied applicantAddress "Unexpected return value"
            end).
Proof.
  unfold decode_option_value. rewrite !length_and_head_bytes.
  destruct bytes as [|b1 [|b2 [|b3 rest]]].
  - reflexivity.
  - simpl. destruct (b1 =? 0); reflexivity.
  - simpl. destruct (b1 =? 1); reflexivity.
  - assert (H1 : (Z.of_nat (length (b1 :: b2 :: b3 :: rest)) =? 1) = false)
      by (apply Z.eqb_neq; simpl length; lia).
    assert (H2 : (Z.of_nat (length (b1 :: b2 :: b3 :: rest)) =? 2) = false)
      by (apply Z.eqb_neq; simpl length; lia).
    rewrite H1, H2. reflexivity.
Qed.

Lemma script_decode_bytes (applicantAddress : jsval) (bytes : list Z) (st : state) :
  script_decode_option_value applicantAddress (JArr (map JNum bytes)) st
  = match bytes with
    | [b] => if b =? 0 then say_not_applied applicantAddress st
             else (log LogLevel [JStr ("Unexpected return value for "
                                       +:+ to_string applicantAddress)] ;;; ret JNull) st
    | [b; inner] =>
        if b =? 1
        then (log LogLevel [JStr ("Approval status for " +:+ to_string applicantAddress
                                  +:+ ": " +:+ to_string (JBool (inner =? 1)))] ;;;
              ret (JBool (inner =? 1))) st
        else (log LogLevel [JStr ("Unexpected return value for "
                                  +:+ to_string applicantAddress)] ;;; ret JNull) st
    | _ => (log LogLevel [JStr ("Unexpected return value for "
                                +:+ to_string applicantAddress)] ;;; ret JNull) st
    end.
Proof.
  unfold script_decode_option_value, bind, lift. rewrite !length_and_head_bytes.
  destruct bytes as [|b1 [|b2 [|b3 rest]]].
  - reflexivity.
  - simpl. destruct (b1 =? 0); reflexivity.
  - simpl. destruct (b1 =? 1); reflexivity.
  - assert (H1 : (Z.of_nat (length (b1 :: b2 :: b3 :: rest)) =? 1) = false)
      by (apply Z.eqb_neq; simpl length; lia).
    assert (H2 : (Z.of_nat (length (b1 :: b2 :: b3 :: rest)) =? 2) = false)
      by (apply Z.eqb_neq; simpl length; lia).
    rewrite H1, H2. reflexivity.
Qed.

(** C2. Decoding of the optional-of-optional return value, in the library
    resolver and in the command-line script: the one-byte value 0 is
    NotApplied; a two-byte value whose first byte is 1 is Decided, approved
    exactly when the second byte is 1; every other byte sequence is
    NotApplied annotated "Unexpected return value". *)
Theorem C2_option_of_option_decoding (applicantAddress : jsval) (bytes : list Z) (st : state) :
  let optionValue := JArr (map JNum bytes) in
  let unexpected :=
    (Normal JNull,
     State (calls st)
           (console st ++ [(LogLevel, [JStr ("Unexpected return value for "
                                             +:+ to_string applicantAddress)])])
           (draws st) (ticks st)) in
  (bytes = [0] ->
     decode_option_value applicantAddress optionValue
     = Normal (not_applied applicantAddress "This address has not applied")
     /\ (script_decode_option_value applicantAddress optionValue st).1 = Normal JNull)
  /\ (forall inner, bytes = [1; inner] ->
        decode_option_value applicantAddress optionValue
        = Normal (decided applicantAddress (inner =? 1))
        /\ (script_decode_option_value applicantAddress optionValue st).1
           = Normal (JBool (inner =? 1)))
  /\ (bytes <> [0] -> (forall inner, bytes <> [1; inner]) ->
        decode_option_value applicantAddress optionValue
        = Normal (not_applied applicantAddress "Unexpected return value")
        /\ script_decode_option_value applicantAddress optionValue st = unexpected)
  /\ interpret_result applicantAddress (Demo.inspected bytes)
     = decode_option_value applicantAddress optionValue
  /\ script_interpret_result applicantAddress (Demo.inspected bytes) st
     = script_decode_option_value applicantAddress optionValue st.
Proof.
  intros optionValue unexpected. subst optionValue unexpected.
  assert (Hlib : interpret_result applicantAddress (Demo.inspected bytes)
                 = decode_option_value applicantAddress (JArr (map JNum bytes)))
    by reflexivity.
  assert (Hscript : script_interpret_result applicantAddress (Demo.inspected bytes) st
                    = script_decode_option_value applicantAddress (JArr (map JNum bytes)) st)
    by reflexivity.
  rewrite Hlib, Hscript.
  rewrite decode_bytes, script_decode_bytes.
  split; [|split; [|split; [|split; reflexivity]]].
  - intros ->. simpl. split; reflexivity.
  - intros inner ->. simpl. split; reflexivity.
  - intros H0 H1.
    destruct bytes as [|b1 [|b2 [|b3 rest]]]; simpl; try (split; reflexivity).
    + destruct (Z.eqb_spec b1 0) as [->|]; [congruence|]. split; reflexivity.
    + destruct (Z.eqb_spec b1 1) as [->|]; [exfalso; apply (H1 b2); reflexivity|].
      split; reflexivity.
Qed.

Example decode_empty_optional :
  decode_option_value Demo.applicant (JArr [JNum 0])
  = Normal (not_applied Demo.applicant "This address has not applied").
Proof. reflexivity. Qed.

Example decode_approved :
  interpret_result Demo.applicant (Demo.inspected [1; 1])
  = Normal (decided Demo.applicant true).
Proof. reflexivity. Qed.

Example decode_rejected :
  interpret_result Demo.applicant (Demo.inspected [1; 0])
  = Normal (decided Demo.applicant false).
Proof. reflexivity. Qed.

Example decode_other_shapes :
  map (fun bytes => interpret_result Demo.applicant (Demo.inspected bytes))
      [[]; [1]; [2]; [0; 0]; [1; 1; 1]]
  = repeat (Normal (not_applied Demo.applicant "Unexpected return value")) 5.
Proof. reflexivity. Qed.

Lemma decode_option_value_results (applicantAddress optionValue r : jsval) :
  decode_option_value applicantAddress optionValue = Normal r ->
  resolver_result applicantAddress r.
Proof.
  unfold decode_option_value, length_and_head.
  repeat (case_completion; try discriminate);
    intros H; injection H as <-; constructor; auto.
Qed.

Lemma interpret_result_results (applicantAddress result r : jsval) :
  interpret_result applicantAddress result = Normal r ->
  resolver_result applicantAddress r.
Proof.
  unfold interpret_result.
  destruct (get result "effects") as [effects|]; simpl; [|discriminate].
  destruct (get effects "status") as [status|]; simpl; [|discriminate].
  destruct (get status "status") as [s|]; simpl; [|discriminate].
  destruct (is_str s "success"); simpl;
    [|intros H; injection H as <-; constructor; auto].
  destruct (get result "results") as [results|]; simpl; [|discriminate].
  destruct (get_index_opt results 0) as [first|]; simpl; [|discriminate].
  destruct (get_opt first "returnValues") as [returnValues|]; simpl; [|discriminate].
  destruct (truthy returnValues); simpl;
    [|intros H; injection H as <-; constructor; auto].
  destruct (get_index returnValues 0) as [rv0|]; simpl; [|discriminate].
  destruct (truthy rv0); simpl;
    [|intros H; injection H as <-; constructor; auto].
  destruct (get_index rv0 0) as [optionValue|]; simpl; [|discriminate].
  apply decode_option_value_results.
Qed.

(** What the library resolver does once the guard and the query
    construction are behind it. *)
Lemma statusOfVetting_runs (sdk : sui_sdk) (w : world) (applicantAddress : jsval)
  (tx : transaction) (st : state) :
  placeholder_left w = false ->
  status_query sdk w applicantAddress = Normal tx ->
  let r := DevInspectTransactionBlock tx applicantAddress in
  statusOfVetting sdk w applicantAddress st
  = match client w (calls st) r with
    | Normal result =>
        match interpret_result applicantAddress result with
        | Normal answer => (Normal answer, after_call st r)
        | Throw err => (Normal (query_failed applicantAddress err),
                        after_failed_query st r err)
        end
    | Throw err => (Normal (query_failed applicantAddress err),
                    after_failed_query st r err)
    end.
Proof.
  intros Hg Hq r. subst r.
  unfold statusOfVetting. unfold placeholder_left in Hg. rewrite Hg.
  unfold bind, lift, try_catch, remote. rewrite Hq.
  destruct (client w (calls st) _) as [result|err]; [|reflexivity].
  destruct (interpret_result applicantAddress result); reflexivity.
Qed.

Lemma resolver_result_shape (applicantAddress r : jsval) :
  resolver_result applicantAddress r ->
  (not_applied_shaped r)
  \/ (get r "hasApplied" = Normal (JBool true)
      /\ exists b, get r "isApproved" = Normal (JBool b)).
Proof.
  intros [msg _|err|b].
  - left. repeat split. eexists; reflexivity.
  - left. repeat split. eexists; reflexivity.
  - right. split; [reflexivity|]. eexists; reflexivity.
Qed.

Lemma statusOfVetting_answers (sdk : sui_sdk) (w : world) (applicantAddress : jsval)
  (st st' : state) (answer : jsval) :
  statusOfVetting sdk w applicantAddress st = (Normal answer, st') ->
  resolver_result applicantAddress answer.
Proof.
  destruct (placeholder_left w) eqn:Hg.
  - unfold statusOfVetting. unfold placeholder_left in Hg. rewrite Hg.
    unfold throw. discriminate.
  - destruct (status_query sdk w applicantAddress) as [tx|err] eqn:Hq.
    + rewrite (statusOfVetting_runs sdk w applicantAddress tx st Hg Hq).
      destruct (client w (calls st) _) as [result|err].
      * destruct (interpret_result applicantAddress result) as [a|err] eqn:Hi;
          intros H; injection H as <- <-.
        -- eapply interpret_result_results; exact Hi.
        -- constructor.
      * intros H; injection H as <- <-. constructor.
    + unfold statusOfVetting. unfold placeholder_left in Hg. rewrite Hg.
      unfold bind, lift. rewrite Hq. discriminate.
Qed.





(** The other way to make it raise, with an SDK that checks addresses when
    [tx.pure.address] is called: the check runs outside the [try] block. *)
Example resolver_raises_on_a_rejected_address :
  statusOfVetting Demo.sdk
    (Demo.world_with Demo.configured (Normal (Demo.inspected [0])))
    (JStr "not-an-address") start
  = (Throw (Error "Error" "Invalid Sui address not-an-address"), start).
Proof. vm_compute. reflexivity. Qed.


Example resolver_folds_failure_into_not_applied :
  (statusOfVetting Demo.sdk
     (Demo.world_with Demo.configured (Normal (Demo.executed "failure" [])))
     Demo.applicant start).1
  = (statusOfVetting Demo.sdk
       (Demo.world_with Demo.configured (Normal (Demo.inspected [0])))
       Demo.applicant start).1.
Proof. vm_compute. reflexivity. Qed.

(** C10. Every object the library resolver returns has either [hasApplied]
    true with a boolean [isApproved], or [hasApplied] false with
    [isApproved] null. *)
Theorem C10_isApproved_boolean_iff_hasApplied
  (sdk : sui_sdk) (w : world) (applicantAddress answer : jsval) (st st' : state) :
  statusOfVetting sdk w applicantAddress st = (Normal answer, st') ->
  (get answer "hasApplied" = Normal (JBool true)
   /\ exists b, get answer "isApproved" = Normal (JBool b))
  \/ (get answer "hasApplied" = Normal (JBool false)
      /\ get answer "isApproved" = Normal JNull).
Proof.
  intros H. apply statusOfVetting_answers in H.
  destruct (resolver_result_shape _ _ H) as [(Ha & Hb & _)|Hd].
  - right. split; assumption.
  - left. exact Hd.
Qed.

Lemma C10_witness :
  (get (decided Demo.applicant true) "hasApplied" = Normal (JBool true)
   /\ exists b, get (decided Demo.applicant true) "isApproved" = Normal (JBool b))
  \/ (get (decided Demo.applicant true) "hasApplied" = Normal (JBool false)
      /\ get (decided Demo.applicant true) "isApproved" = Normal JNull).
Proof.
  apply (C10_isApproved_boolean_iff_hasApplied Demo.sdk
           (Demo.world_with Demo.configured (Normal (Demo.inspected [1; 1])))
           Demo.applicant (decided Demo.applicant true) start
           (after_call start
              (DevInspectTransactionBlock
                 (Transaction "0xabc::vetting::status_of_vetting"
                    [ArgObject (JStr "0x7ab1e"); ArgPureAddress Demo.applicant] [] None)
                 Demo.applicant))).
  vm_compute. reflexivity.
Defined.

(** ** Minting: a successful transaction without the expected object *)

Lemma success_has_effects (result s : jsval) :
  effects_status result "status" = Normal s ->
  is_str s "success" = true ->
  exists effects digest gasUsed,
    get result "effects" = Normal effects
    /\ get result "digest" = Normal digest
    /\ get_opt effects "gasUsed" = Normal gasUsed.
Proof.
  unfold effects_status. intros H Hs.
  assert (Hr : nullish result = false).
  { destruct result; try reflexivity; discriminate. }
  destruct (get_total result "effects" Hr) as [effects He].
  destruct (get_total result "digest" Hr) as [digest Hd].
  rewrite He in H. simpl in H.
  exists effects, digest.
  destruct (nullish effects) eqn:Hn.
  - injection H as <-. discriminate.
  - destruct (get_total effects "gasUsed" Hn) as [g Hg].
    exists g. unfold get_opt. rewrite Hn. auto.
Qed.

Lemma conclude_restricted_mint_missing_object
  (stringify : jsval -> string)
  (recipientAddress nftName coinId braavVersion result s : jsval) (st : state) :
  effects_status result "status" = Normal s ->
  is_str s "success" = true ->
  find_created "::braav_public::RestrictedNFT" result = Normal JUndefined ->
  conclude_restricted_mint stringify recipientAddress nftName coinId braavVersion result st
  = (Throw (Error "Error" "Failed to retrieve RestrictedNFT object ID"), st).
Proof.
  intros Hstatus Hs Hfind.
  unfold conclude_restricted_mint, bind, lift, throw, ret.
  rewrite Hstatus, Hs. simpl. rewrite Hfind. reflexivity.
Qed.

Lemma conclude_mint_missing_object
  (recipientAddress nftName badgeCoinId result s : jsval) (st : state) :
  effects_status result "status" = Normal s ->
  is_str s "success" = true ->
  find_created "::braav_public::NFT" result = Normal JUndefined ->
  exists digest gasUsed,
    get result "digest" = Normal digest
    /\ conclude_mint recipientAddress nftName badgeCoinId result st
       = (Normal (JObj [("success", JBool true);
                        ("transactionDigest", digest);
                        ("nftObjectId", JStr "Not found");
                        ("recipientAddress", recipientAddress);
                        ("nftName", nftName);
                        ("badgeCoinId", badgeCoinId);
                        ("gasUsed", gasUsed);
                        ("fullResult", result)]), st).
Proof.
  intros Hstatus Hs Hfind.
  destruct (success_has_effects result s Hstatus Hs)
    as (effects & digest & gasUsed & He & Hd & Hg).
  exists digest, gasUsed. split; [exact Hd|].
  unfold conclude_mint, bind, lift, throw, ret.
  rewrite Hstatus, Hs. simpl. rewrite Hfind. simpl.
  rewrite Hd, He. simpl. rewrite Hg. reflexivity.
Qed.

Lemma get_lookup (v : jsval) (k : string) :
  nullish v = false -> get v k = Normal (lookup v [k]).
Proof.
  intros Hn. simpl. unfold get_opt. rewrite Hn.
  destruct (get_total v k Hn) as [x ->]. reflexivity.
Qed.

(** C4 (as the code has it). When the submitted transaction succeeded and
    the response lists no created object of the expected type, the
    restricted path (mintRestrictedNFT.js) rejects with "Failed to retrieve
    RestrictedNFT object ID"; the mint-nft path (mintNFT in apiServer.js)
    raises nothing and returns its success object with [nftObjectId] set to
    the placeholder string "Not found". *)
Theorem C4_missing_object_error_only_on_restricted_path
  (sdk : sui_sdk) (w : world) (stringify : jsval -> string) (result s : jsval) :
  effects_status result "status" = Normal s ->
  is_str s "success" = true ->
  (forall (mnemonic packageId suiNetwork supplyCapId creatorCapId lineageId counterId
           recipientAddress nftName coinId braavVersion : jsval)
          (kp : keypair sdk) (tx : transaction) (st st1 : state),
      prepare_restricted_mint sdk mnemonic packageId suiNetwork supplyCapId creatorCapId
        lineageId counterId recipientAddress nftName coinId braavVersion st
      = (Normal (kp, tx), st1) ->
      let r := SignAndExecuteTransaction tx (toSuiAddress sdk (getPublicKey sdk kp))
                 restricted_mint_options in
      client w (calls st1) r = Normal result ->
      find_created "::braav_public::RestrictedNFT" result = Normal JUndefined ->
      exists st2,
        mintRestrictedNFT sdk w stringify mnemonic packageId suiNetwork supplyCapId
          creatorCapId lineageId counterId recipientAddress nftName coinId braavVersion st
        = (Throw (Error "Error" "Failed to retrieve RestrictedNFT object ID"), st2)
        /\ calls st2 = calls st1 ++ [r])
  /\ (forall (params : jsval) (kp : keypair sdk) (tx : transaction) (st st1 : state),
        nullish params = false ->
        truthy (getenv w "MNEMONIC") = true ->
        truthy (getenv w "SUI_NETWORK") = true ->
        prepare_mint sdk (getenv w "MNEMONIC")
          (lookup params ["packageId"]) (lookup params ["supplyCapId"])
          (lookup params ["lineageId"]) (lookup params ["counterId"])
          (lookup params ["recipientAddress"]) (lookup params ["nftName"])
          (lookup params ["badgeCoinId"])
          (with_default (lookup params ["nftVersion"]) (JStr "BRAAV16"))
          (js_or (getenv w "CLOCK_OBJECT_ID") (JStr "0x6")) st
        = (Normal (kp, tx), st1) ->
        let r := SignAndExecuteTransaction tx (toSuiAddress sdk (getPublicKey sdk kp))
                   mint_options in
        client w (calls st1) r = Normal result ->
        find_created "::braav_public::NFT" result = Normal JUndefined ->
        exists digest gasUsed st2,
          mintNFT sdk w params st
          = (Normal (JObj [("success", JBool true);
                           ("transactionDigest", digest);
                           ("nftObjectId", JStr "Not found");
                           ("recipientAddress", lookup params ["recipientAddress"]);
                           ("nftName", lookup params ["nftName"]);
                           ("badgeCoinId", lookup params ["badgeCoinId"]);
                           ("gasUsed", gasUsed);
                           ("fullResult", result)]), st2)
          /\ calls st2 = calls st1 ++ [r]).
Proof.
  intros Hstatus Hs. split.
  - intros mnemonic packageId suiNetwork supplyCapId creatorCapId lineageId counterId
      recipientAddress nftName coinId braavVersion kp tx st st1 Hprep r Hc Hfind.
    unfold mintRestrictedNFT, try_catch. unfold bind at 1. rewrite Hprep.
    unfold bind at 1. unfold remote. simpl. fold r. rewrite Hc.
    rewrite (conclude_restricted_mint_missing_object stringify _ _ _ _ result s _
               Hstatus Hs Hfind).
    eexists. split; reflexivity.
  - intros params kp tx st st1 Hn Hm Hnet Hprep r Hc Hfind.
    destruct (conclude_mint_missing_object (lookup params ["recipientAddress"])
                (lookup params ["nftName"]) (lookup params ["badgeCoinId"]) result s
                (after_call st1 r) Hstatus Hs Hfind)
      as (digest & gasUsed & _ & Hconclude).
    exists digest, gasUsed.
    unfold mintNFT. unfold bind, lift.
    rewrite !destructure_get by exact Hn.
    rewrite !(get_lookup params _ Hn).
    rewrite Hm, Hnet. change (negb true) with false. cbv iota.
    unfold try_catch. cbv beta. rewrite Hprep.
    unfold remote. simpl fst. simpl snd. fold r. rewrite Hc.
    unfold after_call in Hconclude. rewrite Hconclude.
    eexists. split; reflexivity.
Qed.

Lemma C4_witness :
  (exists st2,
     mintRestrictedNFT Demo.sdk
       (Demo.world_with Demo.configured (Normal (Demo.executed "success" [])))
       (fun v => to_string v)
       (JStr "abandon ability able about above absent absorb abstract absurd abuse access accident")
       (JStr "0xabc") (JStr "https://fullnode.testnet.sui.io") (JStr "0x51") (JStr "0xc4")
       (JStr "0x11") (JStr "0xc0") Demo.applicant (JStr "Gold Coin") (JStr "coin_123")
       (JStr "BRAAV16") start
     = (Throw (Error "Error" "Failed to retrieve RestrictedNFT object ID"), st2)
     /\ length (calls st2) = 1%nat)
  /\ (exists digest gasUsed st2,
        mintNFT Demo.sdk
          (Demo.world_with Demo.configured (Normal (Demo.executed "success" [])))
          Demo.mint_body start
        = (Normal (JObj [("success", JBool true);
                         ("transactionDigest", digest);
                         ("nftObjectId", JStr "Not found");
                         ("recipientAddress", Demo.applicant);
                         ("nftName", JStr "Gold Coin");
                         ("badgeCoinId", JStr "coin_123");
                         ("gasUsed", gasUsed);
                         ("fullResult", Demo.executed "success" [])]), st2)
        /\ length (calls st2) = 1%nat).
Proof.
  destruct (C4_missing_object_error_only_on_restricted_path Demo.sdk
              (Demo.world_with Demo.configured (Normal (Demo.executed "success" [])))
              (fun v => to_string v) (Demo.executed "success" []) (JStr "success")
              eq_refl eq_refl) as [Hrestricted Hmint].
  split.
  - edestruct (Hrestricted
                 (JStr "abandon ability able about above absent absorb abstract absurd abuse access accident")
                 (JStr "0xabc") (JStr "https://fullnode.testnet.sui.io") (JStr "0x51")
                 (JStr "0xc4") (JStr "0x11") (JStr "0xc0") Demo.applicant
                 (JStr "Gold Coin") (JStr "coin_123") (JStr "BRAAV16"))
      as (st2 & Hrun & Hcalls).
    + vm_compute. reflexivity.
    + reflexivity.
    + reflexivity.
    + exists st2. split; [exact Hrun|]. rewrite Hcalls. reflexivity.
  - edestruct (Hmint Demo.mint_body) as (digest & gasUsed & st2 & Hrun & Hcalls).
    + reflexivity.
    + reflexivity.
    + reflexivity.
    + vm_compute. reflexivity.
    + reflexivity.
    + reflexivity.
    + exists digest, gasUsed, st2. split; [exact Hrun|]. rewrite Hcalls. reflexivity.
Defined.

(** C4, as stated, fails on the mint-nft path: the transaction succeeds, the
    response lists no created NFT, and the route answers 200 with a success
    body whose [nftObjectId] is "Not found". *)
Lemma C4_counterexample :
  find_created "::braav_public::NFT" (Demo.executed "success" []) = Normal JUndefined
  /\ exists answer st',
       Demo.serve (Demo.world_with Demo.configured (Normal (Demo.executed "success" [])))
         MintNft Demo.mint_body start = (Normal answer, st')
       /\ length (calls st') = 1%nat
       /\ status answer = 200
       /\ lookup (body answer) ["success"] = JBool true
       /\ lookup (body answer) ["message"] = JStr "NFT minted and transferred successfully"
       /\ lookup (body answer) ["data"; "nftObjectId"] = JStr "Not found".
Proof.
  split; [reflexivity|].
  eexists. eexists. split; [vm_compute; reflexivity|].
  repeat split.
Qed.

Example restricted_route_reports_missing_object :
  (Demo.serve (Demo.world_with Demo.configured (Normal (Demo.executed "success" [])))
     MintRestrictedNft Demo.mint_body start).1
  = Normal (Response 500 (JObj [
      ("success", JBool false);
      ("message", JStr "Failed to mint restricted NFT");
      ("error", JStr "Failed to retrieve RestrictedNFT object ID");
      ("timestamp", JStr "2024-01-15T10:30:00.000Z")])).
Proof. vm_compute. reflexivity. Qed.

(** ** approve-vetting *)

(** The part of the remote-error contract that the code keeps: a client
    call that throws is answered 500 with the thrown message. *)
Lemma approve_route_passes_thrown_error
  (sdk : sui_sdk) (w : world) (stringify : jsval -> string)
  (op1 : jsval -> M jsval) (op0 : M jsval) (op2 : jsval -> jsval -> M jsval)
  (op7 op7' : jsval -> jsval -> jsval -> jsval -> jsval -> jsval -> jsval -> M jsval)
  (reqBody applicantAddress : jsval) (st st' : state) (err : error) :
  get reqBody "applicantAddress" = Normal applicantAddress ->
  truthy applicantAddress = true ->
  approveVetting sdk w applicantAddress st = (Throw err, st') ->
  (post sdk w stringify op1 op0 op2 op7 op7' ApproveVetting reqBody st).1
  = Normal (Response 500 (JObj [("error", JStr (message err));
                                ("endpoint", JStr "/api/approve-vetting")])).
Proof.
  intros Hget Ht Hrun. simpl.
  unfold post_approve_vetting, try_catch, bind, lift.
  rewrite (destructure_get _ _ _ (get_normal_not_nullish _ _ _ Hget)).
  rewrite Hget, Ht. simpl. rewrite Hrun. reflexivity.
Qed.

(** C5 (defect at the execution-status half of the claim). Once the
    transaction is submitted and the client returns a response, whatever
    execution status that response carries, approveVetting returns the
    success object "Vetting approved successfully" and the route answers
    200 with it: [result.effects] is requested (showEffects) and never
    read. *)
Theorem C5_approveVetting_never_reads_the_status
  (sdk : sui_sdk) (w : world) (applicantAddress result digest : jsval)
  (kp : keypair sdk) (tx : transaction) (st : state) :
  is_str (PACKAGE_ID w) "YOUR_PACKAGE_ID"
    || is_str (VETTING_TABLE_ID w) "YOUR_VETTING_TABLE_ID"
    || is_str (ADMIN_CAP_ID w) "YOUR_ADMIN_CAP_ID" = false ->
  truthy (getenv w "MNEMONIC") = true ->
  deriveKeypair sdk (getenv w "MNEMONIC") = Normal kp ->
  approve_call sdk w applicantAddress = Normal tx ->
  let r := SignAndExecuteTransaction tx (toSuiAddress sdk (getPublicKey sdk kp))
             ["showEffects"] in
  let approved := JObj [("success", JBool true);
                        ("transactionDigest", digest);
                        ("applicantAddress", applicantAddress);
                        ("message", JStr "Vetting approved successfully")] in
  client w (calls st) r = Normal result ->
  get result "digest" = Normal digest ->
  approveVetting sdk w applicantAddress st = (Normal approved, after_call st r)
  /\ (forall (stringify : jsval -> string)
             (op1 : jsval -> M jsval) (op0 : M jsval) (op2 : jsval -> jsval -> M jsval)
             (op7 op7' : jsval -> jsval -> jsval -> jsval -> jsval -> jsval -> jsval
                         -> M jsval)
             (reqBody : jsval),
        get reqBody "applicantAddress" = Normal applicantAddress ->
        truthy applicantAddress = true ->
        post sdk w stringify op1 op0 op2 op7 op7' ApproveVetting reqBody st
        = (Normal (Response 200 approved), after_call st r)).
Proof.
  intros Hg Hm Hk Hq r approved Hc Hd. subst r approved.
  assert (Hrun : approveVetting sdk w applicantAddress st
                 = (Normal (JObj [("success", JBool true);
                                  ("transactionDigest", digest);
                                  ("applicantAddress", applicantAddress);
                                  ("message", JStr "Vetting approved successfully")]),
                    after_call st
                      (SignAndExecuteTransaction tx
                         (toSuiAddress sdk (getPublicKey sdk kp)) ["showEffects"]))).
  { unfold approveVetting. rewrite Hg, Hm. simpl.
    unfold bind, lift, try_catch, remote. rewrite Hk, Hq, Hc. simpl.
    rewrite Hd. reflexivity. }
  split; [exact Hrun|].
  intros stringify op1 op0 op2 op7 op7' reqBody Hget Ht. simpl.
  unfold post_approve_vetting, try_catch, bind, lift.
  rewrite (destructure_get _ _ _ (get_normal_not_nullish _ _ _ Hget)).
  rewrite Hget, Ht. simpl. rewrite Hrun. reflexivity.
Qed.

Lemma C5_witness :
  exists st',
    approveVetting Demo.sdk
      (Demo.world_with Demo.configured (Normal (Demo.executed "failure" [])))
      Demo.applicant start
    = (Normal (JObj [("success", JBool true);
                     ("transactionDigest", JStr "9WzSXdwbky8tNbH7juvyaui4QzMUYEjdCEKMrMgLhXHT");
                     ("applicantAddress", Demo.applicant);
                     ("message", JStr "Vetting approved successfully")]), st')
    /\ Demo.serve (Demo.world_with Demo.configured (Normal (Demo.executed "failure" [])))
         ApproveVetting (JObj [("applicantAddress", Demo.applicant)]) start
       = (Normal (Response 200
            (JObj [("success", JBool true);
                   ("transactionDigest", JStr "9WzSXdwbky8tNbH7juvyaui4QzMUYEjdCEKMrMgLhXHT");
                   ("applicantAddress", Demo.applicant);
                   ("message", JStr "Vetting approved successfully")])), st')
    /\ get (Demo.executed "failure" []) "effects"
       = Normal (JObj [("status", JObj [("status", JStr "failure");
                                        ("error", JStr "MoveAbort")]);
                       ("gasUsed", JObj [("computationCost", JStr "1000000")])]).
Proof.
  edestruct (C5_approveVetting_never_reads_the_status Demo.sdk
               (Demo.world_with Demo.configured (Normal (Demo.executed "failure" [])))
               Demo.applicant (Demo.executed "failure" [])
               (JStr "9WzSXdwbky8tNbH7juvyaui4QzMUYEjdCEKMrMgLhXHT"))
    as [Hrun Hroute]; try reflexivity.
  eexists. split; [exact Hrun|]. split; [|reflexivity].
  apply Hroute; reflexivity.
Defined.

Example approve_route_claims_success_on_failed_execution :
  (Demo.serve (Demo.world_with Demo.configured (Normal (Demo.executed "failure" [])))
     ApproveVetting (JObj [("applicantAddress", Demo.applicant)]) start).1
  = Normal (Response 200 (JObj [
      ("success", JBool true);
      ("transactionDigest", JStr "9WzSXdwbky8tNbH7juvyaui4QzMUYEjdCEKMrMgLhXHT");
      ("applicantAddress", Demo.applicant);
      ("message", JStr "Vetting approved successfully")])).
Proof. vm_compute. reflexivity. Qed.

Example approve_route_on_thrown_client_error :
  (Demo.serve (Demo.world_with Demo.configured (Throw (Error "Error" "fetch failed")))
     ApproveVetting (JObj [("applicantAddress", Demo.applicant)]) start).1
  = Normal (Response 500 (JObj [("error", JStr "fetch failed");
                                ("endpoint", JStr "/api/approve-vetting")])).
Proof. vm_compute. reflexivity. Qed.

(** ** Request validation *)

Lemma lookup_single (v : jsval) (k : string) :
  nullish v = false -> lookup v [k] = JUndefined -> get v k = Normal JUndefined.
Proof.
  intros Hn. simpl. unfold get_opt. rewrite Hn.
  destruct (get_total v k Hn) as [x ->]. intros ->. reflexivity.
Qed.

Lemma truthy_not_nullish (v : jsval) : truthy v = true -> nullish v = false.
Proof. destruct v; simpl; intros; try reflexivity; discriminate. Qed.

Lemma missing_fields_total (reqBody : jsval) (fields : list string) :
  nullish reqBody = false -> exists l, missing_fields reqBody fields = Normal l.
Proof.
  intros Hn. induction fields as [|f rest [more IH]]; simpl.
  - eauto.
  - destruct (get_total reqBody f Hn) as [v ->]. simpl. rewrite IH. simpl. eauto.
Qed.

Lemma missing_fields_hit (reqBody : jsval) (fields : list string) (f : string) :
  nullish reqBody = false ->
  In f fields ->
  get reqBody f = Normal JUndefined ->
  exists l, missing_fields reqBody fields = Normal l /\ (0 < length l)%nat.
Proof.
  intros Hn Hin Hf. induction fields as [|f0 rest IH]; [destruct Hin|].
  simpl.
  destruct (missing_fields_total reqBody rest Hn) as [more Hmore].
  destruct Hin as [->|Hin].
  - rewrite Hf. simpl. rewrite Hmore. simpl. eexists. split; [reflexivity|]. simpl. lia.
  - destruct (IH Hin) as (l & Hl & Hpos). rewrite Hmore in Hl. injection Hl as <-.
    destruct (get_total reqBody f0 Hn) as [v ->]. simpl. rewrite Hmore. simpl.
    eexists. split; [reflexivity|].
    destruct (negb (truthy v)); simpl; lia.
Qed.

Lemma validate_with_missing (sdk : sui_sdk) (fields : list string) (reqBody : jsval)
  (f : string) :
  nullish reqBody = false ->
  In f fields ->
  get reqBody f = Normal JUndefined ->
  exists answer, validate_with sdk fields reqBody = Normal (Some answer)
                 /\ status answer = 400.
Proof.
  intros Hn Hin Hf.
  destruct (missing_fields_hit reqBody fields f Hn Hin Hf) as (l & Hl & Hpos).
  unfold validate_with. rewrite Hl. simpl.
  assert (Hlt : (0 <? Z.of_nat (length l)) = true) by (apply Z.ltb_lt; lia).
  rewrite Hlt. eexists. split; reflexivity.
Qed.

Lemma display_fields_problem_found (displayKeys displayValues braavVersion : jsval) :
  displayKeys = JUndefined \/ displayValues = JUndefined \/ braavVersion = JUndefined ->
  exists text,
    display_fields_problem displayKeys displayValues braavVersion = Normal (Some text).
Proof.
  intros H. unfold display_fields_problem.
  destruct (negb (truthy displayKeys) || negb (is_array displayKeys)) eqn:Hk; [eauto|].
  destruct (negb (truthy displayValues) || negb (is_array displayValues)) eqn:Hv; [eauto|].
  apply orb_false_elim in Hk as [_ Hk]. apply negb_false_iff in Hk.
  apply orb_false_elim in Hv as [_ Hv]. apply negb_false_iff in Hv.
  destruct displayKeys; try discriminate.
  destruct displayValues; try discriminate.
  simpl. destruct (_ =? _); simpl; [|eauto].
  destruct H as [H|[H|H]]; try discriminate. subst. simpl. eauto.
Qed.

(** The table against the code: every field of the table is checked by
    its route, except badgeCoinId on mint-restricted-nft, and the routes
    check no field the table does not list. *)
Lemma table_field_is_checked (e : endpoint) (field : list string) :
  In field (interface_table_fields e) ->
  (e, field) <> (MintRestrictedNft, ["badgeCoinId"]) ->
  In field (required_fields e).
Proof.
  intros Hin Hex. destruct e; simpl in Hin |- *;
    repeat (destruct Hin as [<-|Hin]; [first [tauto | exfalso; apply Hex; reflexivity]|]);
    destruct Hin.
Qed.

Lemma checked_field_is_table_field (e : endpoint) (field : list string) :
  In field (required_fields e) -> In field (interface_table_fields e).
Proof.
  intros Hin. destruct e; simpl in Hin |- *;
    repeat (destruct Hin as [<-|Hin]; [tauto|]); destruct Hin.
Qed.

Section Routes.
Variable sdk : sui_sdk.
Variable w : world.
Variable stringify : jsval -> string.
Variable submitForVetting : jsval -> M jsval.
Variable initializeVettingTable : M jsval.
Variable createSupply : jsval -> jsval -> M jsval.
Variable createDisplay createRestrictedDisplay :
  jsval -> jsval -> jsval -> jsval -> jsval -> jsval -> jsval -> M jsval.

Lemma display_route_rejects
  (create : jsval -> jsval -> jsval -> jsval -> jsval -> jsval -> jsval -> M jsval)
  (a b c d e f g : string) (reqBody : jsval) (k : string) (st : state) :
  nullish reqBody = false ->
  In k ["displayKeys"; "displayValues"; "braavVersion"] ->
  get reqBody k = Normal JUndefined ->
  exists answer,
    display_route w create a b c d e f g reqBody st = (Normal answer, st)
    /\ status answer = 400.
Proof.
  intros Hn Hin Hk.
  destruct (get_total reqBody "displayKeys" Hn) as [dk Hdk].
  destruct (get_total reqBody "displayValues" Hn) as [dv Hdv].
  destruct (get_total reqBody "braavVersion" Hn) as [bv Hbv].
  assert (Hcase : dk = JUndefined \/ dv = JUndefined \/ bv = JUndefined).
  { simpl in Hin. destruct Hin as [<-|[<-|[<-|[]]]]; rewrite Hk in *.
    - left. congruence.
    - right. left. congruence.
    - right. right. congruence. }
  destruct (display_fields_problem_found dk dv bv Hcase) as [text Ht].
  unfold display_route, try_catch, bind, lift.
  rewrite !destructure_get by exact Hn.
  rewrite Hdk, Hdv, Hbv, Ht. simpl. eexists. split; reflexivity.
Qed.

(** A parsed body in which a field the route checks is missing is answered
    400, and the state of the request is left as it was: no remote call has
    been issued (nor any line printed, random byte drawn or clock read). *)
Lemma checked_field_missing_is_answered_400
  (e : endpoint) (reqBody : jsval) (field : list string) (st : state) :
  nullish reqBody = false ->
  In field (required_fields e) ->
  lookup reqBody field = JUndefined ->
  exists answer,
    post sdk w stringify submitForVetting initializeVettingTable createSupply
         createDisplay createRestrictedDisplay e reqBody st = (Normal answer, st)
    /\ status answer = 400.
Proof.
  intros Hn Hin Hmiss.
  destruct e; unfold required_fields in Hin.
  - (* approve-vetting *)
    destruct Hin as [<-|[]]. apply lookup_single in Hmiss; [|exact Hn].
    simpl. unfold post_approve_vetting, try_catch, bind, lift.
    rewrite destructure_get by exact Hn. rewrite Hmiss. simpl. eexists. split; reflexivity.
  - (* status-of-vetting *)
    destruct Hin as [<-|[]]. apply lookup_single in Hmiss; [|exact Hn].
    simpl. unfold post_status_of_vetting, try_catch, bind, lift.
    rewrite destructure_get by exact Hn. rewrite Hmiss. simpl. eexists. split; reflexivity.
  - destruct Hin.
  - destruct Hin.
  - (* create-wallet *)
    destruct (get_total reqBody "userDetails" Hn) as [ud Hud].
    destruct (get_total reqBody "useStandardMnemonic" Hn) as [flag Hflag].
    simpl. unfold post_create_wallet, try_catch, bind, lift.
    rewrite !destructure_get by exact Hn. rewrite Hud, Hflag. simpl.
    destruct (truthy ud) eqn:Ht.
    + assert (Hid : get ud "id" = Normal JUndefined).
      { pose proof (truthy_not_nullish ud Ht) as Hnn.
        destruct Hin as [<-|[<-|[]]].
        - apply lookup_single in Hmiss; [|exact Hn]. rewrite Hud in Hmiss.
          injection Hmiss as ->. discriminate.
        - simpl in Hmiss. unfold get_opt in Hmiss. rewrite Hn, Hud, Hnn in Hmiss.
          destruct (get_total ud "id" Hnn) as [x Hx]. rewrite Hx in *. congruence. }
      rewrite Hid. simpl. eexists. split; reflexivity.
    + simpl. eexists. split; reflexivity.
  - (* create-supply *)
    destruct (get_total reqBody "supplyLimit" Hn) as [sl Hsl].
    destruct (get_total reqBody "tokenTypeName" Hn) as [tn Htn].
    simpl. unfold post_create_supply, try_catch, bind, lift.
    rewrite !destructure_get by exact Hn. rewrite Hsl, Htn. simpl.
    destruct Hin as [<-|[<-|[]]]; apply lookup_single in Hmiss; try exact Hn.
    + rewrite Hsl in Hmiss. injection Hmiss as ->. simpl. eexists. split; reflexivity.
    + rewrite Htn in Hmiss. injection Hmiss as ->. simpl.
      rewrite orb_true_r. eexists. split; reflexivity.
  - (* create-display *)
    assert (exists k, field = [k] /\ In k ["displayKeys"; "displayValues"; "braavVersion"])
      as (k & -> & Hk).
    { destruct Hin as [<-|[<-|[<-|[]]]]; eexists; (split; [reflexivity|simpl; auto]). }
    apply lookup_single in Hmiss; [|exact Hn].
    simpl. unfold post_create_display.
    eapply display_route_rejects; eassumption.
  - (* create-restricted-display *)
    assert (exists k, field = [k] /\ In k ["displayKeys"; "displayValues"; "braavVersion"])
      as (k & -> & Hk).
    { destruct Hin as [<-|[<-|[<-|[]]]]; eexists; (split; [reflexivity|simpl; auto]). }
    apply lookup_single in Hmiss; [|exact Hn].
    simpl. unfold post_create_restricted_display.
    eapply display_route_rejects; eassumption.
  - (* mint-nft *)
    apply in_map_iff in Hin. destruct Hin as (k & <- & Hk).
    apply lookup_single in Hmiss; [|exact Hn].
    destruct (validate_with_missing sdk mint_required_fields reqBody k Hn Hk Hmiss)
      as (answer & Hv & Hs).
    simpl. unfold post_mint_nft, with_middleware, validateMintRequest.
    rewrite Hv. exists answer. split; [reflexivity|exact Hs].
  - (* mint-restricted-nft *)
    apply in_map_iff in Hin. destruct Hin as (k & <- & Hk).
    apply lookup_single in Hmiss; [|exact Hn].
    destruct (validate_with_missing sdk restricted_mint_required_fields reqBody k Hn Hk Hmiss)
      as (answer & Hv & Hs).
    simpl.
    unfold post_mint_restricted_nft, with_middleware, validateRestrictedMintRequest.
    rewrite Hv. exists answer. split; [reflexivity|exact Hs].
Qed.

(** A request without a body ([req.body] is [undefined], or [null]) fails
    at the first field a route reads from it: the handler's [catch] block,
    or the error-handling middleware behind a validator, answers 500. Lines
    are printed, but no remote call has been issued. *)
Lemma no_body_is_answered_500 (e : endpoint) (reqBody : jsval) (st : state) :
  nullish reqBody = true ->
  required_fields e <> [] ->
  exists answer st',
    post sdk w stringify submitForVetting initializeVettingTable createSupply
         createDisplay createRestrictedDisplay e reqBody st = (Normal answer, st')
    /\ status answer = 500
    /\ calls st' = calls st.
Proof.
  intros Hn He.
  destruct reqBody; try discriminate Hn;
    destruct e; try (exfalso; apply He; reflexivity);
    do 2 eexists; (split; [reflexivity|split; reflexivity]).
Qed.

(** C6, as amended. On every POST route, a request in which a field of the
    interface table is missing attempts no remote call, with one exception:
    badgeCoinId on mint-restricted-nft, which that route does not check. A
    parsed body lacking the field is answered 400, and the state of the
    request is left as it was (no line printed, random byte drawn or clock
    read either). A request without a body lacks every field; it is
    answered 500 instead of 400, still before any remote call. *)
Theorem C6_missing_field_is_rejected_before_any_remote_call
  (e : endpoint) (reqBody : jsval) (field : list string) (st : state) :
  In field (interface_table_fields e) ->
  (e, field) <> (MintRestrictedNft, ["badgeCoinId"]) ->
  lookup reqBody field = JUndefined ->
  exists answer st',
    post sdk w stringify submitForVetting initializeVettingTable createSupply
         createDisplay createRestrictedDisplay e reqBody st = (Normal answer, st')
    /\ calls st' = calls st
    /\ status answer = (if nullish reqBody then 500 else 400)
    /\ (nullish reqBody = false -> st' = st).
Proof.
  intros Hin Hex Hmiss.
  pose proof (table_field_is_checked e field Hin Hex) as Hc.
  destruct (nullish reqBody) eqn:Hn.
  - assert (He : required_fields e <> []) by (intros E; rewrite E in Hc; destruct Hc).
    destruct (no_body_is_answered_500 e reqBody st Hn He) as (answer & st' & Hp & Hs & Hcalls).
    exists answer, st'. repeat split; [exact Hp|exact Hcalls|exact Hs|discriminate].
  - destruct (checked_field_missing_is_answered_400 e reqBody field st Hn Hc Hmiss)
      as (answer & Hp & Hs).
    exists answer, st. repeat split; [exact Hp|exact Hs].
Qed.

(** The two further checks the routes make before any remote call. *)
Lemma mint_rejects_bad_address (reqBody recipientAddress : jsval) (st : state) :
  nullish reqBody = false ->
  get reqBody "recipientAddress" = Normal recipientAddress ->
  isValidSuiAddress sdk recipientAddress = false ->
  (exists answer, (post sdk w stringify submitForVetting initializeVettingTable createSupply
       createDisplay createRestrictedDisplay) MintNft reqBody st = (Normal answer, st) /\ status answer = 400)
  /\ (exists answer, (post sdk w stringify submitForVetting initializeVettingTable createSupply
       createDisplay createRestrictedDisplay)
                       MintRestrictedNft reqBody st = (Normal answer, st)
                     /\ status answer = 400).
Proof.
  intros Hn Hr Hbad.
  assert (Hv : forall fields, exists answer,
             validate_with sdk fields reqBody = Normal (Some answer) /\ status answer = 400).
  { intros fields. unfold validate_with.
    destruct (missing_fields_total reqBody fields Hn) as [l ->]. simpl.
    destruct (0 <? Z.of_nat (length l)); [eexists; split; reflexivity|].
    rewrite Hr. simpl. rewrite Hbad. simpl. eexists; split; reflexivity. }
  split.
  - destruct (Hv mint_required_fields) as (answer & Ha & Hs).
    simpl. unfold post_mint_nft, with_middleware, validateMintRequest.
    rewrite Ha. eauto.
  - destruct (Hv restricted_mint_required_fields) as (answer & Ha & Hs).
    simpl.
    unfold post_mint_restricted_nft, with_middleware, validateRestrictedMintRequest.
    rewrite Ha. eauto.
Qed.

Lemma create_supply_rejects_non_positive (reqBody supplyLimit : jsval) (st : state) :
  nullish reqBody = false ->
  get reqBody "supplyLimit" = Normal supplyLimit ->
  (forall n, supplyLimit = JNum n -> n <= 0) ->
  exists answer, (post sdk w stringify submitForVetting initializeVettingTable createSupply
       createDisplay createRestrictedDisplay) CreateSupply reqBody st = (Normal answer, st) /\ status answer = 400.
Proof.
  intros Hn Hs Hle.
  destruct (get_total reqBody "tokenTypeName" Hn) as [tn Htn].
  simpl. unfold post_create_supply, try_catch, bind, lift.
  rewrite !destructure_get by exact Hn. rewrite Hs, Htn. simpl.
  destruct (_ || _); [eexists; split; reflexivity|].
  destruct supplyLimit; simpl; try (eexists; split; reflexivity).
  assert (Hn0 : (n <=? 0) = true) by (apply Z.leb_le; eauto).
  rewrite Hn0. eexists; split; reflexivity.
Qed.

End Routes.

Lemma C6_witness :
  (exists answer st',
     post Demo.sdk (Demo.world_with Demo.configured (Normal (Demo.executed "success" [])))
          (fun v => to_string v) Demo.no_op1 (ret JUndefined) Demo.no_op2 Demo.no_op7
          Demo.no_op7 MintNft Demo.mint_body_without_coin start = (Normal answer, st')
     /\ calls st' = calls start
     /\ status answer = 400
     /\ (nullish Demo.mint_body_without_coin = false -> st' = start))
  /\ (exists answer st',
        post Demo.sdk (Demo.world_with Demo.configured (Normal (Demo.executed "success" [])))
             (fun v => to_string v) Demo.no_op1 (ret JUndefined) Demo.no_op2 Demo.no_op7
             Demo.no_op7 CreateSupply JUndefined start = (Normal answer, st')
        /\ calls st' = calls start
        /\ status answer = 500
        /\ (nullish JUndefined = false -> st' = start)).
Proof.
  split.
  - apply (C6_missing_field_is_rejected_before_any_remote_call Demo.sdk
             (Demo.world_with Demo.configured (Normal (Demo.executed "success" [])))
             (fun v => to_string v) Demo.no_op1 (ret JUndefined) Demo.no_op2 Demo.no_op7
             Demo.no_op7 MintNft Demo.mint_body_without_coin ["badgeCoinId"] start).
    + simpl. tauto.
    + discriminate.
    + reflexivity.
  - apply (C6_missing_field_is_rejected_before_any_remote_call Demo.sdk
             (Demo.world_with Demo.configured (Normal (Demo.executed "success" [])))
             (fun v => to_string v) Demo.no_op1 (ret JUndefined) Demo.no_op2 Demo.no_op7
             Demo.no_op7 CreateSupply JUndefined ["supplyLimit"] start).
    + simpl. tauto.
    + discriminate.
    + reflexivity.
Defined.

(** The claim as the table has it fails on mint-restricted-nft: the body
    below carries the nine fields that route checks and lacks badgeCoinId, a
    field of the table's row, yet it is answered 200 once the mint
    transaction has been sent to the node. And a request without a body,
    which lacks applicantAddress, is answered 500, not 400. *)
Lemma C6_counterexample :
  (In ["badgeCoinId"] (interface_table_fields MintRestrictedNft)
   /\ lookup Demo.restricted_mint_body ["badgeCoinId"] = JUndefined
   /\ exists answer st',
        Demo.serve (Demo.world_with Demo.configured
                      (Normal (Demo.executed "success" [Demo.created_restricted_nft])))
                   MintRestrictedNft Demo.restricted_mint_body start
        = (Normal answer, st')
        /\ status answer = 200
        /\ length (calls st') = 1%nat)
  /\ (In ["applicantAddress"] (interface_table_fields ApproveVetting)
      /\ lookup JUndefined ["applicantAddress"] = JUndefined
      /\ exists answer st',
           Demo.serve (Demo.world_with Demo.configured
                         (Normal (Demo.executed "success" [])))
                      ApproveVetting JUndefined start
           = (Normal answer, st')
           /\ status answer = 500).
Proof.
  split; (split; [simpl; tauto|split; [reflexivity|]]).
  - do 2 eexists. split; [vm_compute; reflexivity|split; reflexivity].
  - do 2 eexists. split; [vm_compute; reflexivity|reflexivity].
Qed.

Example mint_route_names_the_missing_field :
  (Demo.serve (Demo.world_with Demo.configured (Normal (Demo.executed "success" [])))
     MintNft (JObj [("packageId", JStr "0xabc"); ("nftName", JStr "Gold Coin")]) start)
  = (Normal (Response 400 (JObj [
       ("success", JBool false);
       ("error", JStr "Missing required fields");
       ("missingFields", strings ["supplyCapId"; "lineageId"; "counterId";
                                  "recipientAddress"; "badgeCoinId"]);
       ("requiredFields", strings mint_required_fields)])), start).
Proof. vm_compute. reflexivity. Qed.

(** ** create-wallet with useStandardMnemonic *)

Lemma standard_mnemonic_always_throws
  (sdk : sui_sdk) (w : world) (userDetails : jsval) (st : state) :
  exists st',
    createCustodialWalletWithStandardMnemonic sdk w userDetails st
    = (Throw (Error "ReferenceError" "privateKeyBytes is not defined"), st')
    /\ calls st' = calls st.
Proof.
  eexists. unfold createCustodialWalletWithStandardMnemonic.
  unfold try_catch, bind, random_bytes, lift, log_and_rethrow, log, throw. simpl.
  split; reflexivity.
Qed.

Section CreateWallet.
Variable sdk : sui_sdk.
Variable w : world.
Variable stringify : jsval -> string.
Variable submitForVetting : jsval -> M jsval.
Variable initializeVettingTable : M jsval.
Variable createSupply : jsval -> jsval -> M jsval.
Variable createDisplay createRestrictedDisplay :
  jsval -> jsval -> jsval -> jsval -> jsval -> jsval -> jsval -> M jsval.

(** C9 (as the code has it). createCustodialWalletWithStandardMnemonic
    throws a ReferenceError on every input. A POST /api/create-wallet request
    with a truthy [useStandardMnemonic] is therefore never answered with the
    success shape: it is answered 500 with "privateKeyBytes is not defined"
    when [userDetails.id] is present (truthy), and 400 by the route's own
    check when [userDetails] or its [id] is missing. No remote call is made
    either way. *)
Theorem C9_standard_mnemonic_route_never_succeeds
  (reqBody flag : jsval) (st : state) :
  nullish reqBody = false ->
  get reqBody "useStandardMnemonic" = Normal flag ->
  truthy flag = true ->
  (forall userDetails st0, exists st1,
      createCustodialWalletWithStandardMnemonic sdk w userDetails st0
      = (Throw (Error "ReferenceError" "privateKeyBytes is not defined"), st1))
  /\ exists answer st',
       post sdk w stringify submitForVetting initializeVettingTable createSupply
            createDisplay createRestrictedDisplay CreateWallet reqBody st
       = (Normal answer, st')
       /\ calls st' = calls st
       /\ (if truthy (lookup reqBody ["userDetails"])
              && truthy (lookup reqBody ["userDetails"; "id"])
           then status answer = 500
                /\ body answer = JObj [("error", JStr "privateKeyBytes is not defined");
                                       ("endpoint", JStr "/api/create-wallet")]
           else status answer = 400
                /\ body answer = JObj [("error",
                     JStr "userDetails with id is required in request body")]
                /\ st' = st).
Proof.
  intros Hn Hflag Ht.
  split.
  { intros ud st0. destruct (standard_mnemonic_always_throws sdk w ud st0) as (st1 & H & _).
    eauto. }
  destruct (get_total reqBody "userDetails" Hn) as [ud Hud].
  assert (Hlud : lookup reqBody ["userDetails"] = ud).
  { simpl. unfold get_opt. rewrite Hn, Hud. reflexivity. }
  assert (Hlid : lookup reqBody ["userDetails"; "id"]
                 = match get_opt ud "id" with Normal v => v | Throw _ => JUndefined end).
  { simpl. unfold get_opt at 1. rewrite Hn, Hud. reflexivity. }
  rewrite Hlud, Hlid.
  simpl. unfold post_create_wallet, try_catch, bind, lift.
  rewrite !destructure_get by exact Hn. rewrite Hud, Hflag. simpl.
  destruct (truthy ud) eqn:Hu; simpl.
  2:{ eexists. eexists. split; [reflexivity|]. split; [reflexivity|]. auto. }
  pose proof (truthy_not_nullish ud Hu) as Hnn.
  unfold get_opt. rewrite Hnn.
  destruct (get_total ud "id" Hnn) as [id Hid].
  destruct (get_total ud "created_at" Hnn) as [ca Hca].
  destruct (get_total ud "secret_key" Hnn) as [sk Hsk].
  rewrite Hid. simpl.
  destruct (truthy id) eqn:Hi; simpl.
  2:{ eexists. eexists. split; [reflexivity|]. split; [reflexivity|]. auto. }
  rewrite Hca, Hsk, Ht. simpl.
  unfold or_else, now_iso, random_bytes, ret, bind.
  unfold createCustodialWalletWithStandardMnemonic.
  unfold try_catch, bind, random_bytes, lift, log_and_rethrow, log, throw,
    route_failed, reply, ret, bind.
  destruct (truthy ca), (truthy sk); simpl;
    (eexists; eexists; split; [reflexivity|]; split; [reflexivity|]; auto).
Qed.

End CreateWallet.

Lemma C9_witness :
  (forall userDetails st0, exists st1,
      createCustodialWalletWithStandardMnemonic Demo.sdk
        (Demo.world_with Demo.configured (Normal JNull)) userDetails st0
      = (Throw (Error "ReferenceError" "privateKeyBytes is not defined"), st1))
  /\ exists answer st',
       post Demo.sdk (Demo.world_with Demo.configured (Normal JNull))
            (fun v => to_string v) Demo.no_op1 (ret JUndefined) Demo.no_op2 Demo.no_op7
            Demo.no_op7 CreateWallet
            (JObj [("userDetails", Demo.user); ("useStandardMnemonic", JBool true)]) start
       = (Normal answer, st')
       /\ calls st' = calls start
       /\ (if truthy (lookup (JObj [("userDetails", Demo.user);
                                    ("useStandardMnemonic", JBool true)]) ["userDetails"])
              && truthy (lookup (JObj [("userDetails", Demo.user);
                                       ("useStandardMnemonic", JBool true)])
                                ["userDetails"; "id"])
           then status answer = 500
                /\ body answer = JObj [("error", JStr "privateKeyBytes is not defined");
                                       ("endpoint", JStr "/api/create-wallet")]
           else status answer = 400
                /\ body answer = JObj [("error",
                     JStr "userDetails with id is required in request body")]
                /\ st' = start).
Proof.
  apply (C9_standard_mnemonic_route_never_succeeds Demo.sdk
           (Demo.world_with Demo.configured (Normal JNull))
           (fun v => to_string v) Demo.no_op1 (ret JUndefined) Demo.no_op2 Demo.no_op7
           Demo.no_op7
           (JObj [("userDetails", Demo.user); ("useStandardMnemonic", JBool true)])
           (JBool true) start);
    reflexivity.
Defined.

(** C9, as stated, fails: a request with a truthy flag and no [userDetails]
    is answered 400, not 500. *)
Lemma C9_counterexample :
  truthy (JBool true) = true
  /\ Demo.serve (Demo.world_with Demo.configured (Normal JNull)) CreateWallet
       (JObj [("useStandardMnemonic", JBool true)]) start
     = (Normal (Response 400 (JObj [("error",
          JStr "userDetails with id is required in request body")])), start).
Proof. split; vm_compute; reflexivity. Qed.

Example standard_mnemonic_route_with_identity :
  (Demo.serve (Demo.world_with Demo.configured (Normal JNull)) CreateWallet
     (JObj [("userDetails", Demo.user); ("useStandardMnemonic", JBool true)]) start).1
  = Normal (Response 500 (JObj [("error", JStr "privateKeyBytes is not defined");
                                ("endpoint", JStr "/api/create-wallet")])).
Proof. vm_compute. reflexivity. Qed.

Example create_wallet_route_returns_the_wallet :
  (Demo.serve (Demo.world_with Demo.configured (Normal JNull)) CreateWallet
     (JObj [("userDetails", Demo.user)]) start).1
  = Normal (Response 200 (JObj [("success", JBool true);
                                ("wallet", Demo.user_wallet);
                                ("message", JStr "Custodial wallet created successfully")])).
Proof. vm_compute. reflexivity. Qed.

(** ** The routes on their ordinary paths *)

Example mint_route_returns_the_created_object :
  let created := JObj [("type", JStr "created");
                       ("objectType", JStr "0xabc::braav_public::NFT<0xabc::xoa::BRAAV16>");
                       ("objectId", JStr "0x99")] in
  let answer :=
    (Demo.serve (Demo.world_with Demo.configured
                   (Normal (Demo.executed "success"
                              [JObj [("type", JStr "mutated"); ("objectId", JStr "0x51")];
                               created])))
       MintNft Demo.mint_body start).1 in
  exists r, answer = Normal r
            /\ status r = 200
            /\ lookup (body r) ["data"; "nftObjectId"] = JStr "0x99".
Proof. eexists. split; [vm_compute; reflexivity|]. split; reflexivity. Qed.

Example mint_route_reports_failed_execution :
  (Demo.serve (Demo.world_with Demo.configured (Normal (Demo.executed "failure" [])))
     MintNft Demo.mint_body start).1
  = Normal (Response 500 (JObj [
      ("success", JBool false);
      ("message", JStr "Failed to mint NFT");
      ("error", JStr "Transaction failed: MoveAbort");
      ("timestamp", JStr "2024-01-15T10:30:00.000Z")])).
Proof. vm_compute. reflexivity. Qed.

Example status_route_answers_decided :
  (Demo.serve (Demo.world_with Demo.configured (Normal (Demo.inspected [1; 1])))
     StatusOfVetting (JObj [("applicantAddress", Demo.applicant)]) start).1
  = Normal (Response 200 (decided Demo.applicant true)).
Proof. vm_compute. reflexivity. Qed.

Example create_supply_route_checks_the_limit :
  map (fun limit =>
         match (Demo.serve (Demo.world_with Demo.configured (Normal JNull)) CreateSupply
                  (JObj [("supplyLimit", limit); ("tokenTypeName", JStr "BRAAV1")])
                  start).1 with
         | Normal r => status r
         | Throw _ => 0
         end)
      [JNum 10; JNum 0; JNum (-3); JStr "10"; JNull]
  = [200; 400; 400; 400; 400].
Proof. vm_compute. reflexivity. Qed.

(* ===================================================================== *)
(** * Further properties of the modelled code *)
(* ===================================================================== *)

(** ** Sequencing and what it accumulates *)

Lemma bind_normal {A B} (m : M A) (k : A -> M B) (st st' : state) (a : A) :
  m st = (Normal a, st') -> bind m k st = k a st'.
Proof. intros H. unfold bind. rewrite H. reflexivity. Qed.

Lemma bind_throw {A B} (m : M A) (k : A -> M B) (st st' : state) (e : error) :
  m st = (Throw e, st') -> bind m k st = (Throw e, st').
Proof. intros H. unfold bind. rewrite H. reflexivity. Qed.

Lemma try_catch_normal {A} (m : M A) (h : error -> M A) (st st' : state) (a : A) :
  m st = (Normal a, st') -> try_catch m h st = (Normal a, st').
Proof. intros H. unfold try_catch. rewrite H. reflexivity. Qed.

Lemma try_catch_throw {A} (m : M A) (h : error -> M A) (st st' : state) (e : error) :
  m st = (Throw e, st') -> try_catch m h st = h e st'.
Proof. intros H. unfold try_catch. rewrite H. reflexivity. Qed.

Lemma try_remote_normal {A} (w : world) (r : rpc) (k : jsval -> M A) (h : error -> M A)
    (st : state) (result : jsval) :
  client w (calls st) r = Normal result ->
  try_catch (bind (remote w r) k) h st = try_catch (k result) h (after_call st r).
Proof. intros H. unfold try_catch, bind, remote. rewrite H. reflexivity. Qed.

Lemma try_remote_throw {A} (w : world) (r : rpc) (k : jsval -> M A) (h : error -> M A)
    (st : state) (err : error) :
  client w (calls st) r = Throw err ->
  try_catch (bind (remote w r) k) h st = h err (after_call st r).
Proof. intros H. unfold try_catch, bind, remote. rewrite H. reflexivity. Qed.

Lemma try_bind_normal {A B} (m : M A) (k : A -> M B) (h : error -> M B)
    (st st1 : state) (a : A) :
  m st = (Normal a, st1) -> try_catch (bind m k) h st = try_catch (k a) h st1.
Proof. intros H. unfold try_catch, bind. rewrite H. reflexivity. Qed.

Lemma try_bind_throw {A B} (m : M A) (k : A -> M B) (h : error -> M B)
    (st st1 : state) (e : error) :
  m st = (Throw e, st1) -> try_catch (bind m k) h st = h e st1.
Proof. intros H. unfold try_catch, bind. rewrite H. reflexivity. Qed.

Lemma try_remote_as_lift {A} (w : world) (r : rpc) (k : jsval -> M A) (h : error -> M A)
    (st : state) :
  try_catch (bind (remote w r) k) h st
  = try_catch (bind (lift (client w (calls st) r)) k) h (after_call st r).
Proof. unfold try_catch, bind, remote, lift, after_call. reflexivity. Qed.

Lemma issues_weaken {A} (n p : nat) (m : M A) :
  (n <= p)%nat -> issues_at_most n m -> issues_at_most p m.
Proof.
  intros Hle H st. destruct (H st) as (extra & Hc & Hl).
  exists extra. split; [exact Hc | lia].
Qed.

Lemma issues_none {A} (m : M A) (st : state) :
  issues_at_most 0 m -> calls (m st).2 = calls st.
Proof.
  intros H. destruct (H st) as (extra & Hc & Hl).
  destruct extra; [|simpl in Hl; lia].
  rewrite Hc. apply app_nil_r.
Qed.

Lemma issues_ret {A} (a : A) : issues_at_most 0 (ret a).
Proof. intros st. exists []. simpl. rewrite app_nil_r. split; [reflexivity | lia]. Qed.

Lemma issues_throw {A} (e : error) : issues_at_most 0 (@throw A e).
Proof. intros st. exists []. simpl. rewrite app_nil_r. split; [reflexivity | lia]. Qed.

Lemma issues_lift {A} (c : completion A) : issues_at_most 0 (lift c).
Proof. intros st. exists []. simpl. rewrite app_nil_r. split; [reflexivity | lia]. Qed.

Lemma issues_log (lv : level) (args : list jsval) : issues_at_most 0 (log lv args).
Proof. intros st. exists []. simpl. rewrite app_nil_r. split; [reflexivity | lia]. Qed.

Lemma issues_now_iso (w : world) : issues_at_most 0 (now_iso w).
Proof. intros st. exists []. simpl. rewrite app_nil_r. split; [reflexivity | lia]. Qed.

Lemma issues_random_bytes (w : world) (n : nat) : issues_at_most 0 (random_bytes w n).
Proof. intros st. exists []. simpl. rewrite app_nil_r. split; [reflexivity | lia]. Qed.

Lemma issues_remote (w : world) (r : rpc) : issues_at_most 1 (remote w r).
Proof. intros st. exists [r]. simpl. split; [reflexivity | lia]. Qed.

Lemma issues_bind {A B} (n p : nat) (m : M A) (k : A -> M B) :
  issues_at_most n m -> (forall a, issues_at_most p (k a)) ->
  issues_at_most (n + p) (bind m k).
Proof.
  intros Hm Hk st. unfold bind.
  destruct (Hm st) as (x1 & Hc1 & Hl1).
  destruct (m st) as [[a|e] st1]; simpl in Hc1.
  - destruct (Hk a st1) as (x2 & Hc2 & Hl2).
    exists (x1 ++ x2). rewrite Hc2, Hc1, app_assoc, length_app. split; [reflexivity | lia].
  - exists x1. simpl. split; [exact Hc1 | lia].
Qed.

Lemma issues_try_catch {A} (n p : nat) (m : M A) (h : error -> M A) :
  issues_at_most n m -> (forall e, issues_at_most p (h e)) ->
  issues_at_most (n + p) (try_catch m h).
Proof.
  intros Hm Hh st. unfold try_catch.
  destruct (Hm st) as (x1 & Hc1 & Hl1).
  destruct (m st) as [[a|e] st1]; simpl in Hc1.
  - exists x1. simpl. split; [exact Hc1 | lia].
  - destruct (Hh e st1) as (x2 & Hc2 & Hl2).
    exists (x1 ++ x2). rewrite Hc2, Hc1, app_assoc, length_app. split; [reflexivity | lia].
Qed.

Lemma calls_try_catch_quiet {A} (m : M A) (h : error -> M A) (st : state) :
  (forall e, issues_at_most 0 (h e)) ->
  calls (try_catch m h st).2 = calls (m st).2.
Proof.
  intros Hh. unfold try_catch. destruct (m st) as [[a|e] st1]; [reflexivity|].
  simpl. apply issues_none. apply Hh.
Qed.

Create HintDb footprint.

(** A computation built from everything but [remote] issues no call. *)
Ltac quiet_step :=
  lazymatch goal with
  | |- issues_at_most _ (ret _) => apply issues_ret
  | |- issues_at_most _ (throw _) => apply issues_throw
  | |- issues_at_most _ (lift _) => apply issues_lift
  | |- issues_at_most _ (log _ _) => apply issues_log
  | |- issues_at_most _ (now_iso _) => apply issues_now_iso
  | |- issues_at_most _ (random_bytes _ _) => apply issues_random_bytes
  | |- issues_at_most _ (reply _ _) => apply issues_ret
  | |- issues_at_most _ (reply_ok _) => apply issues_ret
  | |- issues_at_most _ (bind _ _) => apply (issues_bind 0 0); [ | intros ]
  | |- issues_at_most _ (try_catch _ _) => apply (issues_try_catch 0 0); [ | intros ]
  | |- issues_at_most _ (if ?b then _ else _) => destruct b
  | |- issues_at_most _ (match ?x with _ => _ end) => destruct x
  | |- issues_at_most _ (let _ := _ in _) => cbv zeta
  | |- _ => solve [ auto with footprint ]
  end.

Ltac quiet := repeat quiet_step.

(** A computation whose only [remote] lies on one path of its sequence. *)
Ltac one_call :=
  first
    [ solve [ apply (issues_weaken 0 1); [ lia | quiet ] ]
    | lazymatch goal with
      | |- issues_at_most _ (remote _ _) => apply issues_remote
      | |- issues_at_most _ (bind _ _) =>
          first [ apply (issues_bind 0 1); [ solve [ quiet ] | intros; one_call ]
                | apply (issues_bind 1 0); [ one_call | intros; solve [ quiet ] ] ]
      | |- issues_at_most _ (try_catch _ _) =>
          apply (issues_try_catch 1 0); [ one_call | intros; solve [ quiet ] ]
      | |- issues_at_most _ (if ?b then _ else _) => destruct b; one_call
      | |- issues_at_most _ (match ?x with _ => _ end) => destruct x; one_call
      | |- issues_at_most _ (let _ := _ in _) => cbv zeta; one_call
      | |- _ => solve [ auto with footprint ]
      end ].

Lemma approveVetting_issues (sdk : sui_sdk) (w : world) (applicantAddress : jsval) :
  issues_at_most 1 (approveVetting sdk w applicantAddress).
Proof. unfold approveVetting. one_call. Qed.

Lemma statusOfVetting_issues (sdk : sui_sdk) (w : world) (applicantAddress : jsval) :
  issues_at_most 1 (statusOfVetting sdk w applicantAddress).
Proof. unfold statusOfVetting. one_call. Qed.

Lemma statusOfVetting_script_issues (sdk : sui_sdk) (w : world) (applicantAddress : jsval) :
  issues_at_most 1 (statusOfVetting_script sdk w applicantAddress).
Proof.
  unfold statusOfVetting_script, script_interpret_result, script_decode_option_value,
    say_not_applied.
  one_call.
Qed.

Lemma mintNFT_issues (sdk : sui_sdk) (w : world) (params : jsval) :
  issues_at_most 1 (mintNFT sdk w params).
Proof. unfold mintNFT, prepare_mint, conclude_mint. one_call. Qed.

Lemma mintRestrictedNFT_issues (sdk : sui_sdk) (w : world) (stringify : jsval -> string)
    (a1 a2 a3 a4 a5 a6 a7 a8 a9 a10 a11 : jsval) :
  issues_at_most 1 (mintRestrictedNFT sdk w stringify a1 a2 a3 a4 a5 a6 a7 a8 a9 a10 a11).
Proof. unfold mintRestrictedNFT, prepare_restricted_mint, conclude_restricted_mint. one_call. Qed.

Lemma createCustodialWallet_issues (sdk : sui_sdk) (w : world) (u : jsval) :
  issues_at_most 0 (createCustodialWallet sdk w u).
Proof. unfold createCustodialWallet, log_and_rethrow. quiet. Qed.

Lemma createCustodialWalletWithStandardMnemonic_issues (sdk : sui_sdk) (w : world) (u : jsval) :
  issues_at_most 0 (createCustodialWalletWithStandardMnemonic sdk w u).
Proof. unfold createCustodialWalletWithStandardMnemonic, log_and_rethrow. quiet. Qed.

#[local] Hint Resolve approveVetting_issues statusOfVetting_issues mintNFT_issues
  mintRestrictedNFT_issues createCustodialWallet_issues
  createCustodialWalletWithStandardMnemonic_issues : footprint.

(** ** The POST routes as a whole *)

Lemma returns_ret {A} (P : A -> Prop) (a : A) : P a -> returns P (ret a).
Proof. intros H st a' st' E. injection E as <- _. exact H. Qed.

Lemma returns_throw {A} (P : A -> Prop) (e : error) : returns P (throw e).
Proof. intros st a st' E. discriminate E. Qed.

Lemma returns_bind {A B} (P : B -> Prop) (m : M A) (k : A -> M B) :
  (forall a, returns P (k a)) -> returns P (bind m k).
Proof.
  intros Hk st b st' E. unfold bind in E.
  destruct (m st) as [[a|e] st1]; [exact (Hk a st1 b st' E) | discriminate E].
Qed.

Lemma answers_ret {A} (P : A -> Prop) (a : A) : P a -> answers P (ret a).
Proof. intros H st. exists a, st. split; [reflexivity | exact H]. Qed.

Lemma answers_log {A} (P : A -> Prop) (lv : level) (args : list jsval) (k : unit -> M A) :
  answers P (k tt) -> answers P (bind (log lv args) k).
Proof. intros H st. unfold bind, log. apply H. Qed.

Lemma answers_now_iso {A} (P : A -> Prop) (w : world) (k : jsval -> M A) :
  (forall stamp, answers P (k stamp)) -> answers P (bind (now_iso w) k).
Proof. intros H st. unfold bind, now_iso. apply H. Qed.

Lemma answers_try_catch {A} (P : A -> Prop) (m : M A) (h : error -> M A) :
  returns P m -> (forall e, answers P (h e)) -> answers P (try_catch m h).
Proof.
  intros Hm Hh st. unfold try_catch.
  destruct (m st) as [[a|e] st1] eqn:E.
  - exists a, st1. split; [reflexivity | exact (Hm st a st1 E)].
  - apply Hh.
Qed.

Lemma validate_with_refusal (sdk : sui_sdk) (fields : list string) (reqBody : jsval)
    (answer : response) :
  validate_with sdk fields reqBody = Normal (Some answer) -> status answer = 400.
Proof.
  unfold validate_with. intros H.
  destruct (missing_fields reqBody fields) as [missing|e]; simpl in H; [|discriminate H].
  destruct (0 <? Z.of_nat (length missing)).
  - injection H as <-. reflexivity.
  - destruct (get reqBody "recipientAddress") as [r|e]; simpl in H; [|discriminate H].
    destruct (negb (isValidSuiAddress sdk r)); [|discriminate H].
    injection H as <-. reflexivity.
Qed.

Ltac sent := unfold sent_status; simpl; tauto.

Ltac returns_step :=
  lazymatch goal with
  | |- returns _ (reply _ _) => apply returns_ret; sent
  | |- returns _ (reply_ok _) => apply returns_ret; sent
  | |- returns _ (bind _ _) => apply returns_bind; intros
  | |- returns _ (if ?b then _ else _) => destruct b
  | |- returns _ (match ?x with _ => _ end) => destruct x
  | |- returns _ (let _ := _ in _) => cbv zeta
  end.

Ltac answers_step :=
  lazymatch goal with
  | |- answers _ (bind (log _ _) _) => apply answers_log
  | |- answers _ (bind (now_iso _) _) => apply answers_now_iso; intros
  | |- answers _ (reply _ _) => apply answers_ret; sent
  end.

Ltac route_answers :=
  apply answers_try_catch; [ repeat returns_step | intros; repeat answers_step ].

Section EveryRoute.
Variable sdk : sui_sdk.
Variable w : world.
Variable stringify : jsval -> string.
Variable submitForVetting : jsval -> M jsval.
Variable initializeVettingTable : M jsval.
Variable createSupply : jsval -> jsval -> M jsval.
Variable createDisplay createRestrictedDisplay :
  jsval -> jsval -> jsval -> jsval -> jsval -> jsval -> jsval -> M jsval.

(** X1. Whatever the body of the request and whatever the operations behind
    the routes do (return or throw), each of the ten POST routes sends a
    response, never lets an exception escape, and the status it sends is
    200, 400 or 500. *)
Theorem every_route_sends_200_400_or_500 (e : endpoint) (reqBody : jsval) (st : state) :
  exists answer st',
    post sdk w stringify submitForVetting initializeVettingTable createSupply
         createDisplay createRestrictedDisplay e reqBody st = (Normal answer, st')
    /\ sent_status answer.
Proof.
  revert st. change (answers sent_status
    (post sdk w stringify submitForVetting initializeVettingTable createSupply
          createDisplay createRestrictedDisplay e reqBody)).
  destruct e; unfold post.
  - unfold post_approve_vetting, route_failed. route_answers.
  - unfold post_status_of_vetting, route_failed. route_answers.
  - unfold post_submit_for_vetting, route_failed. route_answers.
  - unfold post_initialize_vetting_table, route_failed. route_answers.
  - unfold post_create_wallet, route_failed. route_answers.
  - unfold post_create_supply, route_failed. route_answers.
  - unfold post_create_display, display_route. route_answers.
  - unfold post_create_restricted_display, display_route. route_answers.
  - unfold post_mint_nft, with_middleware, validateMintRequest.
    destruct (validate_with sdk mint_required_fields reqBody) as [[answer|]|err] eqn:E.
    + apply answers_ret. apply validate_with_refusal in E. unfold sent_status. tauto.
    + unfold mint_nft_handler, mint_failed. route_answers.
    + unfold error_middleware. repeat answers_step.
  - unfold post_mint_restricted_nft, with_middleware, validateRestrictedMintRequest.
    destruct (validate_with sdk restricted_mint_required_fields reqBody)
      as [[answer|]|err] eqn:E.
    + apply answers_ret. apply validate_with_refusal in E. unfold sent_status. tauto.
    + unfold mint_restricted_nft_handler, mint_failed. route_answers.
    + unfold error_middleware. repeat answers_step.
Qed.

(** X2. The routes whose operations are in this file reach the node at most
    once per request: approve-vetting, status-of-vetting, mint-nft and
    mint-restricted-nft issue at most one remote call (no retry, no second
    query), and create-wallet issues none. Calls made before the request are
    left as they were. *)
Theorem routes_issue_at_most_one_remote_call (reqBody : jsval) :
  issues_at_most 1
    (post sdk w stringify submitForVetting initializeVettingTable createSupply
          createDisplay createRestrictedDisplay ApproveVetting reqBody)
  /\ issues_at_most 1
       (post sdk w stringify submitForVetting initializeVettingTable createSupply
             createDisplay createRestrictedDisplay StatusOfVetting reqBody)
  /\ issues_at_most 1
       (post sdk w stringify submitForVetting initializeVettingTable createSupply
             createDisplay createRestrictedDisplay MintNft reqBody)
  /\ issues_at_most 1
       (post sdk w stringify submitForVetting initializeVettingTable createSupply
             createDisplay createRestrictedDisplay MintRestrictedNft reqBody)
  /\ issues_at_most 0
       (post sdk w stringify submitForVetting initializeVettingTable createSupply
             createDisplay createRestrictedDisplay CreateWallet reqBody).
Proof.
  unfold post. repeat split.
  - unfold post_approve_vetting, route_failed. one_call.
  - unfold post_status_of_vetting, route_failed. one_call.
  - unfold post_mint_nft, with_middleware, mint_nft_handler, mint_failed, error_middleware.
    one_call.
  - unfold post_mint_restricted_nft, with_middleware, mint_restricted_nft_handler,
      mint_failed, error_middleware.
    one_call.
  - unfold post_create_wallet, route_failed, or_else. quiet.
Qed.

End EveryRoute.

(** ** What the validators let through *)

Lemma missing_fields_filter (reqBody : jsval) (fields : list string) :
  nullish reqBody = false ->
  missing_fields reqBody fields
  = Normal (List.filter (fun f => negb (truthy (lookup reqBody [f]))) fields).
Proof.
  intros Hn. induction fields as [|f rest IH]; [reflexivity|].
  simpl missing_fields. rewrite (get_lookup reqBody f Hn), IH. reflexivity.
Qed.

Lemma filter_nil_forall {A} (p : A -> bool) (l : list A) :
  List.filter p l = [] <-> List.Forall (fun x => p x = false) l.
Proof.
  induction l as [|x l IH]; simpl.
  - split; [constructor | reflexivity].
  - destruct (p x) eqn:E.
    + split; [discriminate | intros H; inversion H; congruence].
    + rewrite IH. split; [intros H; constructor; assumption | intros H; inversion H; assumption].
Qed.

Lemma validate_with_next_iff (sdk : sui_sdk) (fields : list string) (reqBody : jsval) :
  validate_with sdk fields reqBody = Normal None <-> complete_request sdk fields reqBody.
Proof.
  unfold complete_request. destruct (nullish reqBody) eqn:Hn.
  - split; [|intros (Hf & _); discriminate Hf].
    intros Hv. exfalso. unfold validate_with in Hv.
    destruct reqBody; try discriminate Hn;
      (destruct fields; simpl in Hv; discriminate Hv).
  - unfold validate_with.
    rewrite (missing_fields_filter reqBody fields Hn). simpl.
    rewrite (get_lookup reqBody "recipientAddress" Hn). simpl.
    set (missing := List.filter _ fields).
    assert (Hm : missing = [] <->
                 List.Forall (fun f => truthy (lookup reqBody [f]) = true) fields).
    { unfold missing. rewrite filter_nil_forall. split; intros HF;
        (eapply List.Forall_impl; [|exact HF]); intros f Hf; cbv beta in *.
      - apply negb_false_iff in Hf. exact Hf.
      - apply negb_false_iff. exact Hf. }
    destruct missing as [|m rest] eqn:Em.
    + simpl. destruct (isValidSuiAddress sdk _) eqn:Ea; simpl.
      * split; [intros _|reflexivity]. repeat split. apply Hm. reflexivity.
      * split; [discriminate|intros (_ & _ & Hx); discriminate Hx].
    + assert (Hlt : (0 <? Z.of_nat (length (m :: rest))) = true)
        by (apply Z.ltb_lt; simpl length; lia).
      rewrite Hlt. split; [discriminate|].
      intros (_ & HF & _). apply Hm in HF. discriminate HF.
Qed.

(** X3. A validation middleware calls next() exactly when the body is an
    object in which every required field is truthy and recipientAddress is
    accepted by isValidSuiAddress; in every other case it answers the request
    itself or throws. This holds for validateMintRequest (seven fields) and
    validateRestrictedMintRequest (nine fields). *)
Theorem validator_calls_next_exactly_when_complete (sdk : sui_sdk) (reqBody : jsval) :
  (validateMintRequest sdk reqBody = Normal None
   <-> complete_request sdk mint_required_fields reqBody)
  /\ (validateRestrictedMintRequest sdk reqBody = Normal None
      <-> complete_request sdk restricted_mint_required_fields reqBody).
Proof.
  split; apply validate_with_next_iff.
Qed.


(** ** create-supply and create-wallet *)

Lemma assoc_set_field (k k0 : string) (v : jsval) (fs : list (string * jsval)) :
  assoc k (set_field k0 v fs) = if String.eqb k k0 then Some v else assoc k fs.
Proof.
  induction fs as [|[k' v'] rest IH]; simpl.
  - reflexivity.
  - destruct (String.eqb k0 k') eqn:E0; simpl.
    + apply String.eqb_eq in E0. subst k'. destruct (String.eqb k k0); reflexivity.
    + rewrite IH. destruct (String.eqb k k0) eqn:E1; [|reflexivity].
      apply String.eqb_eq in E1. subst k0. rewrite E0. reflexivity.
Qed.

Lemma assoc_absent (k : string) (fs : list (string * jsval)) :
  ~ In k (map fst fs) -> assoc k fs = None.
Proof.
  induction fs as [|[k' v'] rest IH]; simpl; [reflexivity|].
  intros Hk. destruct (String.eqb k k') eqn:E.
  - apply String.eqb_eq in E. subst k'. exfalso. apply Hk. left. reflexivity.
  - apply IH. intros Hin. apply Hk. right. exact Hin.
Qed.

(** [{...base, ...src}.k] is [src.k] when [src] has the key and [base.k]
    otherwise; the keys of an object are distinct. *)
Lemma assoc_spread (k : string) (src base : list (string * jsval)) :
  List.NoDup (map fst src) ->
  assoc k (spread base src)
  = match assoc k src with Some v => Some v | None => assoc k base end.
Proof.
  unfold spread. revert base.
  induction src as [|[k0 v0] rest IH]; intros base Hnd; simpl; [reflexivity|].
  inversion Hnd as [|? ? Hnotin Hrest]; subst.
  rewrite (IH _ Hrest), assoc_set_field.
  destruct (String.eqb k k0) eqn:E.
  - apply String.eqb_eq in E. subst k0. rewrite (assoc_absent k rest Hnotin). reflexivity.
  - reflexivity.
Qed.

Section Gates.
Variable sdk : sui_sdk.
Variable w : world.
Variable stringify : jsval -> string.
Variable submitForVetting : jsval -> M jsval.
Variable initializeVettingTable : M jsval.
Variable createSupply : jsval -> jsval -> M jsval.
Variable createDisplay createRestrictedDisplay :
  jsval -> jsval -> jsval -> jsval -> jsval -> jsval -> jsval -> M jsval.

(** X4. POST /api/create-supply hands the request to createSupply exactly
    when supplyLimit is a number greater than zero and tokenTypeName is
    truthy. Every other body (a numeric string such as '10', a boolean, null,
    zero, a negative number, a missing name) is answered 400 with the state
    untouched, so createSupply is not called. *)
Theorem create_supply_runs_only_on_a_positive_number
    (reqBody : jsval) (st : state) :
  nullish reqBody = false ->
  if positive_number (lookup reqBody ["supplyLimit"])
     && truthy (lookup reqBody ["tokenTypeName"])
  then post sdk w stringify submitForVetting initializeVettingTable createSupply
            createDisplay createRestrictedDisplay CreateSupply reqBody st
       = try_catch
           (result <- createSupply (lookup reqBody ["supplyLimit"])
                                   (lookup reqBody ["tokenTypeName"]) ;;
            reply_ok (JObj [("success", JBool true);
                            ("message", JStr "Supply created successfully");
                            ("result", result)]))
           (route_failed "Create supply error:" "/api/create-supply") st
  else exists answer,
         post sdk w stringify submitForVetting initializeVettingTable createSupply
              createDisplay createRestrictedDisplay CreateSupply reqBody st
         = (Normal answer, st)
         /\ status answer = 400.
Proof.
  intros Hn. cbv zeta.
  pose proof (get_lookup reqBody "supplyLimit" Hn) as Hsl.
  pose proof (get_lookup reqBody "tokenTypeName" Hn) as Htn.
  set (sl := lookup reqBody ["supplyLimit"]) in *.
  set (tn := lookup reqBody ["tokenTypeName"]) in *.
  clearbody sl tn.
  assert (Hpost :
    post sdk w stringify submitForVetting initializeVettingTable createSupply
         createDisplay createRestrictedDisplay CreateSupply reqBody st
    = try_catch
        (if String.eqb (typeof sl) "undefined" || negb (truthy tn)
         then reply 400 (required_message
                "supplyLimit (number) and tokenTypeName (string) are required in request body")
         else if negb (String.eqb (typeof sl) "number") || non_positive sl
         then reply 400 (required_message "supplyLimit must be a positive number")
         else
           result <- createSupply sl tn ;;
           reply_ok (JObj [("success", JBool true);
                           ("message", JStr "Supply created successfully");
                           ("result", result)]))
        (route_failed "Create supply error:" "/api/create-supply") st).
  { unfold post, post_create_supply, try_catch, bind, lift.
    rewrite !destructure_get by exact Hn. rewrite Hsl, Htn. reflexivity. }
  rewrite Hpost. clear Hpost.
  destruct sl as [| |b|n|s|l|fs]; destruct (truthy tn) eqn:Ht;
    simpl; try (eexists; split; reflexivity).
  - destruct (0 <? n) eqn:Hpos; simpl.
    + assert (Hle : (n <=? 0) = false) by (apply Z.leb_gt; apply Z.ltb_lt; exact Hpos).
      rewrite Hle. reflexivity.
    + assert (Hle : (n <=? 0) = true) by (apply Z.leb_le; apply Z.ltb_ge; exact Hpos).
      rewrite Hle. eexists; split; reflexivity.
  - rewrite andb_false_r. eexists; split; reflexivity.
Qed.

(** X5. POST /api/create-wallet on an object userDetails with a truthy id
    and no useStandardMnemonic flag derives the wallet from exactly three
    values: the id, and for created_at and secret_key the value the request
    carries under that key, whatever it is, or the generated default (the
    current time, 32 random bytes in hexadecimal) only when the key is absent.
    A key that is present with a falsy value (an empty string, null, 0) still
    consumes a clock read or a random draw, but the derivation uses the falsy
    value, not the default. Derivation errors are answered 500; no remote
    call is made. *)
Theorem create_wallet_defaults_fill_only_absent_keys
    (reqBody flag id : jsval) (fs : list (string * jsval)) (st : state) :
  nullish reqBody = false ->
  get reqBody "userDetails" = Normal (JObj fs) ->
  List.NoDup (map fst fs) ->
  assoc "id" fs = Some id ->
  truthy id = true ->
  get reqBody "useStandardMnemonic" = Normal flag ->
  truthy flag = false ->
  exists st',
    post sdk w stringify submitForVetting initializeVettingTable createSupply
         createDisplay createRestrictedDisplay CreateWallet reqBody st
    = (Normal
         match derive_wallet sdk w
                 (JObj [("id", id);
                        ("created_at",
                         default (JStr (clock w (ticks st))) (assoc "created_at" fs));
                        ("secret_key",
                         default (JStr (to_hex (take 32 (os_random w (draws st) 32))))
                                 (assoc "secret_key" fs))])
         with
         | Normal wallet =>
             Response 200 (JObj [("success", JBool true);
                                 ("wallet", wallet);
                                 ("message", JStr "Custodial wallet created successfully")])
         | Throw err =>
             Response 500 (JObj [("error", JStr (message err));
                                 ("endpoint", JStr "/api/create-wallet")])
         end, st')
    /\ calls st' = calls st
    /\ ticks st' = (if truthy (default JUndefined (assoc "created_at" fs))
                   then ticks st else S (ticks st))
    /\ draws st' = (if truthy (default JUndefined (assoc "secret_key" fs))
                   then draws st else S (draws st)).
Proof.
  intros Hn Hud Hnd Hid Hidt Hflag Hflagf.
  set (ca := default JUndefined (assoc "created_at" fs)).
  set (sk := default JUndefined (assoc "secret_key" fs)).
  set (ca' := if truthy ca then ca else JStr (clock w (ticks st))).
  set (sk' := if truthy sk then sk
              else JStr (to_hex (take 32 (os_random w (draws st) 32)))).
  set (identity := JObj [("id", id);
                         ("created_at",
                          default (JStr (clock w (ticks st))) (assoc "created_at" fs));
                         ("secret_key",
                          default (JStr (to_hex (take 32 (os_random w (draws st) 32))))
                                  (assoc "secret_key" fs))]).
  set (complete := JObj (spread [("id", id); ("created_at", ca'); ("secret_key", sk')] fs)).
  assert (Hsame : derive_wallet sdk w complete = derive_wallet sdk w identity).
  { apply derive_wallet_reads_three_fields; [reflexivity| | |];
      unfold complete, identity; simpl get; rewrite (assoc_spread _ fs _ Hnd); simpl.
    - rewrite Hid. reflexivity.
    - unfold ca', ca. destruct (assoc "created_at" fs); reflexivity.
    - unfold sk', sk. destruct (assoc "secret_key" fs); reflexivity. }
  set (st1 := State (calls st) (console st)
                    (if truthy sk then draws st else S (draws st))
                    (if truthy ca then ticks st else S (ticks st))).
  assert (Hrun : post sdk w stringify submitForVetting initializeVettingTable createSupply
                   createDisplay createRestrictedDisplay CreateWallet reqBody st
                 = try_catch
                     (result <- createCustodialWallet sdk w complete ;;
                      reply_ok (JObj [("success", JBool true);
                                      ("wallet", result);
                                      ("message", JStr "Custodial wallet created successfully")]))
                     (route_failed "Create wallet error:" "/api/create-wallet") st1).
  { unfold post, post_create_wallet, try_catch, bind at 1 2 3 4 5 6 7 8, lift.
    rewrite !destructure_get by exact Hn. rewrite Hud, Hflag.
    change (truthy (JObj fs)) with true.
    change (get (JObj fs) "id") with (Normal (default JUndefined (assoc "id" fs))).
    change (get (JObj fs) "created_at") with (Normal ca).
    change (get (JObj fs) "secret_key") with (Normal sk).
    rewrite Hid. change (default JUndefined (Some id)) with id. cbv beta iota. rewrite Hidt.
    change (negb true) with false. change (false || false) with false.
    cbv beta iota. rewrite Hflagf.
    unfold or_else, now_iso, random_bytes, ret, bind, st1, complete, ca', sk'.
    change (own_fields (JObj fs)) with fs.
    clear Hsame. subst st1 complete identity ca' sk'. destruct st as [cs co dr ti].
    destruct (truthy ca), (truthy sk); reflexivity. }
  rewrite Hrun.
  destruct (createCustodialWallet_runs_derive sdk w complete st1) as (Hv & Hc & Hd & Ht).
  rewrite Hsame in Hv.
  unfold try_catch, bind, reply_ok, ret, route_failed, reply, log.
  destruct (createCustodialWallet sdk w complete st1) as [[wallet|err] st2];
    simpl in Hv, Hc, Hd, Ht; rewrite <- Hv.
  - exists st2. split; [reflexivity|]. rewrite Hc, Hd, Ht. unfold st1. simpl. auto.
  - eexists. split; [reflexivity|]. simpl. rewrite Hc, Hd, Ht. unfold st1. simpl. auto.
Qed.

End Gates.

Lemma create_supply_runs_only_on_a_positive_number_witness :
  exists answer,
    Demo.serve Examples.quiet_world CreateSupply Examples.numeric_string_limit start
    = (Normal answer, start)
    /\ status answer = 400.
Proof.
  exact (create_supply_runs_only_on_a_positive_number Demo.sdk Examples.quiet_world
           (fun v => to_string v) Demo.no_op1 (ret JUndefined) Demo.no_op2 Demo.no_op7
           Demo.no_op7 Examples.numeric_string_limit start eq_refl).
Defined.

Lemma create_wallet_defaults_fill_only_absent_keys_witness :
  exists st',
    (Demo.serve Examples.quiet_world CreateWallet Examples.empty_created_at start).2 = st'
    /\ ticks st' = 1%nat /\ draws st' = 1%nat /\ calls st' = [].
Proof.
  destruct (create_wallet_defaults_fill_only_absent_keys Demo.sdk Examples.quiet_world
              (fun v => to_string v) Demo.no_op1 (ret JUndefined) Demo.no_op2 Demo.no_op7
              Demo.no_op7 Examples.empty_created_at JUndefined (JStr "user123")
              [("id", JStr "user123"); ("created_at", JStr "")] start)
    as (st' & Hrun & Hc & Ht & Hd).
  - reflexivity.
  - reflexivity.
  - repeat (constructor; [simpl; intuition discriminate|]). constructor.
  - reflexivity.
  - reflexivity.
  - reflexivity.
  - reflexivity.
  - exists st'. unfold Demo.serve. rewrite Hrun. repeat split; assumption.
Defined.
(** ** The command-line resolver against the library's *)

Lemma mirrors_bind_lift {A B C} (c : completion A) (k : A -> M B)
    (k' : A -> completion C) (g : C -> completion B) :
  (forall a, mirrors (k a) (cbind (k' a) g)) ->
  mirrors (bind (lift c) k) (cbind (cbind c k') g).
Proof.
  intros H st. unfold bind, lift. destruct c as [a|e]; simpl; [apply H | auto].
Qed.

Lemma mirrors_if {B C} (b : bool) (m1 m2 : M B) (c1 c2 : completion C)
    (g : C -> completion B) :
  mirrors m1 (cbind c1 g) -> mirrors m2 (cbind c2 g) ->
  mirrors (if b then m1 else m2) (cbind (if b then c1 else c2) g).
Proof. destruct b; auto. Qed.

Lemma mirrors_say_not_applied (applicantAddress : jsval) (msg : string) :
  mirrors (say_not_applied applicantAddress)
          (cbind (Normal (not_applied applicantAddress msg))
                 (fun answer => get answer "isApproved")).
Proof. intros st. split; reflexivity. Qed.

Ltac mirror_step :=
  lazymatch goal with
  | |- mirrors (say_not_applied _) _ => apply mirrors_say_not_applied
  | |- mirrors (bind (lift _) _) _ => apply mirrors_bind_lift; intros; cbv beta
  | |- mirrors (if _ then _ else _) _ => apply mirrors_if
  end.

Ltac mirror := repeat mirror_step.

Lemma script_decode_agrees (applicantAddress optionValue : jsval) :
  mirrors (script_decode_option_value applicantAddress optionValue)
          (answer <~ decode_option_value applicantAddress optionValue ;;
           get answer "isApproved").
Proof.
  unfold script_decode_option_value, decode_option_value. mirror.
  all: intros st; split; reflexivity.
Qed.

Lemma script_interpret_agrees (applicantAddress result : jsval) :
  mirrors (script_interpret_result applicantAddress result)
          (answer <~ interpret_result applicantAddress result ;;
           get answer "isApproved").
Proof.
  unfold script_interpret_result, interpret_result. mirror.
  apply script_decode_agrees.
Qed.

(** X6. The command-line resolver (statusOfVetting.js) and the library's
    (lib/statusOfVetting.js) take the same decision and issue the same
    remote calls: the script returns the isApproved member of the object
    the library returns (true, false or null), and throws what the library
    throws, with one exception. When PACKAGE_ID or VETTING_TABLE_ID is not
    configured the library throws, while the script returns null. *)
Theorem script_resolver_agrees_with_library
    (sdk : sui_sdk) (w : world) (applicantAddress : jsval) (st : state) :
  (statusOfVetting_script sdk w applicantAddress st).1
  = match (statusOfVetting sdk w applicantAddress st).1 with
    | Normal answer => get answer "isApproved"
    | Throw e => if placeholder_left w then Normal JNull else Throw e
    end
  /\ calls (statusOfVetting_script sdk w applicantAddress st).2
     = calls (statusOfVetting sdk w applicantAddress st).2.
Proof.
  unfold statusOfVetting_script, statusOfVetting, placeholder_left.
  destruct (is_str (PACKAGE_ID w) "YOUR_PACKAGE_ID"
            || is_str (VETTING_TABLE_ID w) "YOUR_VETTING_TABLE_ID"); [split; reflexivity|].
  destruct (status_query sdk w applicantAddress) as [tx|e]; [|split; reflexivity].
  change (bind (lift (Normal tx)) ?k st) with (k tx st). cbv beta.
  set (r := DevInspectTransactionBlock tx applicantAddress).
  destruct (client w (calls st) r) as [result|err] eqn:E.
  - rewrite !(try_remote_normal w r _ _ st result E).
    destruct (script_interpret_agrees applicantAddress result (after_call st r)) as [Hv Hc].
    unfold try_catch, lift.
    destruct (script_interpret_result applicantAddress result (after_call st r))
      as [[v|e] st2];
      simpl in Hv, Hc;
      destruct (interpret_result applicantAddress result) as [answer|e'] eqn:Hi;
      simpl in Hv; try discriminate Hv; simpl.
    + split; [congruence | exact Hc].
    + apply interpret_result_results in Hi. destruct Hi; discriminate Hv.
    + split; [reflexivity | exact Hc].
  - rewrite !(try_remote_throw w r _ _ st err E). split; reflexivity.
Qed.

(** ** Minting: argument checks, the transaction sent, the outcome reported *)

Lemma bind_require_pass {A} (v : jsval) (msg : string) (k : unit -> M A) (st : state) :
  truthy v = true -> bind (lift (require v msg)) k st = k tt st.
Proof. intros H. unfold bind, lift, require. rewrite H. reflexivity. Qed.

Lemma bind_require_fail {A} (v : jsval) (msg : string) (k : unit -> M A) (st : state) :
  truthy v = false -> bind (lift (require v msg)) k st = (Throw (Error "Error" msg), st).
Proof. intros H. unfold bind, lift, require. rewrite H. reflexivity. Qed.

Lemma bind_lift_normal {A B} (a : A) (k : A -> M B) (st : state) :
  bind (lift (Normal a)) k st = k a st.
Proof. reflexivity. Qed.

Lemma bind_lift_throw {A B} (e : error) (k : A -> M B) (st : state) :
  bind (lift (Throw e)) k st = (Throw e, st).
Proof. reflexivity. Qed.

Ltac pick_message := simpl; repeat first [ left; reflexivity | right ].

Ltac required v :=
  let H := fresh "Hset" in
  destruct (truthy v) eqn:H;
  [ rewrite (bind_require_pass v) by exact H
  | eexists; split; [ apply bind_require_fail; exact H | pick_message ] ].

Lemma prepare_restricted_mint_rejects (sdk : sui_sdk)
    (mnemonic packageId suiNetwork supplyCapId creatorCapId lineageId counterId
     recipientAddress nftName coinId braavVersion : jsval) (st : state) :
  restricted_mint_arguments_ok sdk mnemonic packageId suiNetwork supplyCapId creatorCapId
    lineageId counterId recipientAddress nftName coinId braavVersion = false ->
  exists msg,
    prepare_restricted_mint sdk mnemonic packageId suiNetwork supplyCapId creatorCapId
      lineageId counterId recipientAddress nftName coinId braavVersion st
    = (Throw (Error "Error" msg), st)
    /\ In msg (restricted_mint_argument_messages recipientAddress).
Proof.
  intros Hbad. unfold prepare_restricted_mint, restricted_mint_argument_messages.
  required mnemonic. required packageId. required suiNetwork. required supplyCapId.
  required creatorCapId. required lineageId. required counterId. required recipientAddress.
  destruct (isValidSuiAddress sdk recipientAddress) eqn:Hvalid.
  2:{ eexists. split; [reflexivity | pick_message]. }
  change (negb true) with false. cbv iota. rewrite bind_lift_normal.
  required nftName. required coinId. required braavVersion.
  exfalso. unfold restricted_mint_arguments_ok in Hbad. simpl in Hbad.
  rewrite Hset, Hset0, Hset1, Hset2, Hset3, Hset4, Hset5, Hset6, Hset7, Hset8, Hset9,
    Hvalid in Hbad.
  discriminate Hbad.
Qed.

(** X7. mintRestrictedNFT tests its eleven arguments before it does anything
    else: when one of them is falsy, or recipientAddress is not a valid Sui
    address, it throws an Error carrying one of its twelve argument messages,
    and no remote call has been issued. *)
Theorem restricted_mint_rejects_bad_arguments_before_any_call
    (sdk : sui_sdk) (w : world) (stringify : jsval -> string)
    (mnemonic packageId suiNetwork supplyCapId creatorCapId lineageId counterId
     recipientAddress nftName coinId braavVersion : jsval) (st : state) :
  restricted_mint_arguments_ok sdk mnemonic packageId suiNetwork supplyCapId creatorCapId
    lineageId counterId recipientAddress nftName coinId braavVersion = false ->
  exists e st',
    mintRestrictedNFT sdk w stringify mnemonic packageId suiNetwork supplyCapId
      creatorCapId lineageId counterId recipientAddress nftName coinId braavVersion st
    = (Throw e, st')
    /\ calls st' = calls st
    /\ error_name e = "Error"
    /\ In (message e) (restricted_mint_argument_messages recipientAddress).
Proof.
  intros Hbad.
  destruct (prepare_restricted_mint_rejects sdk mnemonic packageId suiNetwork supplyCapId
              creatorCapId lineageId counterId recipientAddress nftName coinId
              braavVersion st Hbad) as (msg & Hprep & Hmsg).
  exists (Error "Error" msg). eexists. unfold mintRestrictedNFT.
  rewrite (try_catch_throw _ _ st st (Error "Error" msg)) by (apply bind_throw; exact Hprep).
  split; [reflexivity|]. split; [reflexivity|]. split; [reflexivity | exact Hmsg].
Qed.

Lemma restricted_mint_rejects_bad_arguments_before_any_call_witness :
  exists e st',
    mintRestrictedNFT Demo.sdk Examples.quiet_world (fun v => to_string v)
      (JStr "abandon ability able about above absent absorb abstract absurd abuse access accident")
      (JStr "0xabc") (JStr "https://fullnode.testnet.sui.io") (JStr "0x51") (JStr "0xc4")
      (JStr "0x11") (JStr "0xc0") Demo.applicant (JStr "Gold Coin") (JStr "")
      (JStr "BRAAV16") start
    = (Throw e, st')
    /\ calls st' = calls start
    /\ error_name e = "Error"
    /\ In (message e) (restricted_mint_argument_messages Demo.applicant).
Proof.
  apply (restricted_mint_rejects_bad_arguments_before_any_call Demo.sdk Examples.quiet_world
           (fun v => to_string v)).
  vm_compute. reflexivity.
Defined.

Lemma bind_log {A} (lv : level) (args : list jsval) (k : unit -> M A) (st : state) :
  bind (log lv args) k st
  = k tt (State (calls st) (console st ++ [(lv, args)]) (draws st) (ticks st)).
Proof. reflexivity. Qed.

Lemma may_quiet {A} (R : rpc -> Prop) (m : M A) :
  issues_at_most 0 m -> may_send R m.
Proof. intros H st. left. apply issues_none. exact H. Qed.

Lemma may_bind_lift {A B} (R : rpc -> Prop) (c : completion A) (k : A -> M B) :
  (forall a, c = Normal a -> may_send R (k a)) -> may_send R (bind (lift c) k).
Proof.
  intros H st. destruct c as [a|e].
  - rewrite bind_lift_normal. apply H. reflexivity.
  - left. reflexivity.
Qed.

Lemma may_bind_quiet {A B} (R : rpc -> Prop) (m : M A) (k : A -> M B) :
  issues_at_most 0 m -> (forall a, may_send R (k a)) -> may_send R (bind m k).
Proof.
  intros Hm Hk st. pose proof (issues_none m st Hm) as Hc. unfold bind.
  destruct (m st) as [[a|e] st1]; simpl in Hc.
  - rewrite <- Hc. apply Hk.
  - left. exact Hc.
Qed.

Lemma may_bind_then_quiet {A B} (R : rpc -> Prop) (m : M A) (k : A -> M B) :
  may_send R m -> (forall a, issues_at_most 0 (k a)) -> may_send R (bind m k).
Proof.
  intros Hm Hk st. specialize (Hm st). unfold bind.
  destruct (m st) as [[a|e] st1]; simpl in Hm; [|exact Hm].
  rewrite (issues_none (k a) st1 (Hk a)). exact Hm.
Qed.

Lemma may_try_catch {A} (R : rpc -> Prop) (m : M A) (h : error -> M A) :
  may_send R m -> (forall e, issues_at_most 0 (h e)) -> may_send R (try_catch m h).
Proof.
  intros Hm Hh st. specialize (Hm st). unfold try_catch.
  destruct (m st) as [[a|e] st1]; simpl in Hm; [exact Hm|].
  rewrite (issues_none (h e) st1 (Hh e)). exact Hm.
Qed.

Lemma may_remote (R : rpc -> Prop) (w : world) (r : rpc) :
  R r -> may_send R (remote w r).
Proof. intros H st. right. exists r. split; [exact H | reflexivity]. Qed.

Lemma prepare_restricted_mint_issues (sdk : sui_sdk)
    (a1 a2 a3 a4 a5 a6 a7 a8 a9 a10 a11 : jsval) :
  issues_at_most 0 (prepare_restricted_mint sdk a1 a2 a3 a4 a5 a6 a7 a8 a9 a10 a11).
Proof. unfold prepare_restricted_mint. quiet. Qed.

Lemma conclude_restricted_mint_issues (stringify : jsval -> string)
    (a1 a2 a3 a4 result : jsval) :
  issues_at_most 0 (conclude_restricted_mint stringify a1 a2 a3 a4 result).
Proof. unfold conclude_restricted_mint. quiet. Qed.

Lemma prepare_mint_issues (sdk : sui_sdk) (a1 a2 a3 a4 a5 a6 a7 a8 a9 a10 : jsval) :
  issues_at_most 0 (prepare_mint sdk a1 a2 a3 a4 a5 a6 a7 a8 a9 a10).
Proof. unfold prepare_mint. quiet. Qed.

Lemma conclude_mint_issues (a1 a2 a3 result : jsval) :
  issues_at_most 0 (conclude_mint a1 a2 a3 result).
Proof. unfold conclude_mint. quiet. Qed.

#[local] Hint Resolve prepare_restricted_mint_issues conclude_restricted_mint_issues
  prepare_mint_issues conclude_mint_issues : footprint.

Lemma bind_log_inv {A} (lv : level) (args : list jsval) (k : unit -> M A) (st : state)
    (r : completion A * state) :
  bind (log lv args) k st = r -> exists st0, calls st0 = calls st /\ k tt st0 = r.
Proof. intros H. eexists. split; [|exact H]. reflexivity. Qed.

Ltac skip_logs H :=
  repeat (apply bind_log_inv in H; destruct H as (? & _ & H)).

Ltac checked_in H c :=
  destruct c as [[]|?]; cbn [cbind] in H; [ | discriminate H ].

(** What [prepare_restricted_mint] has established when it returns. *)
Lemma prepare_restricted_mint_returns (sdk : sui_sdk)
    (mnemonic packageId suiNetwork supplyCapId creatorCapId lineageId counterId
     recipientAddress nftName coinId braavVersion : jsval)
    (kp : keypair sdk) (tx : transaction) (st st1 : state) :
  prepare_restricted_mint sdk mnemonic packageId suiNetwork supplyCapId creatorCapId
    lineageId counterId recipientAddress nftName coinId braavVersion st
  = (Normal (kp, tx), st1) ->
  restricted_mint_arguments_ok sdk mnemonic packageId suiNetwork supplyCapId creatorCapId
    lineageId counterId recipientAddress nftName coinId braavVersion = true
  /\ deriveKeypair sdk mnemonic = Normal kp
  /\ tx = Transaction (to_string packageId +:+ "::braav_public::mint_restricted")
            [ArgObject creatorCapId; ArgObject supplyCapId; ArgObject lineageId;
             ArgObject counterId; ArgPureAddress recipientAddress;
             ArgPureString nftName; ArgPureString coinId; ArgObject (JStr "0x6")]
            [to_string packageId +:+ "::xoa::" +:+ to_string braavVersion]
            (Some 10000000).
Proof.
  intros Hp.
  destruct (restricted_mint_arguments_ok sdk mnemonic packageId suiNetwork supplyCapId
              creatorCapId lineageId counterId recipientAddress nftName coinId
              braavVersion) eqn:Hok.
  2:{ destruct (prepare_restricted_mint_rejects sdk mnemonic packageId suiNetwork
                  supplyCapId creatorCapId lineageId counterId recipientAddress nftName
                  coinId braavVersion st Hok) as (msg & Hthrow & _).
      rewrite Hthrow in Hp. discriminate Hp. }
  split; [reflexivity|].
  unfold restricted_mint_arguments_ok in Hok. simpl in Hok.
  repeat match goal with
         | H : _ && _ = true |- _ => apply andb_true_iff in H; destruct H
         end.
  unfold prepare_restricted_mint in Hp.
  rewrite !bind_require_pass in Hp by assumption.
  match goal with H : isValidSuiAddress _ _ = true |- _ => rewrite H in Hp end.
  change (negb true) with false in Hp. cbv iota in Hp. rewrite bind_lift_normal in Hp.
  rewrite !bind_require_pass in Hp by assumption.
  destruct (deriveKeypair sdk mnemonic) as [kp'|e];
    [rewrite bind_lift_normal in Hp | rewrite bind_lift_throw in Hp; discriminate Hp].
  skip_logs Hp.
  unfold bind, lift, ret, tx_object, tx_pure_address, tx_pure_string in Hp.
  checked_in Hp (check_object sdk creatorCapId).
  checked_in Hp (check_object sdk supplyCapId).
  checked_in Hp (check_object sdk lineageId).
  checked_in Hp (check_object sdk counterId).
  checked_in Hp (check_pure_address sdk recipientAddress).
  checked_in Hp (check_pure_string sdk nftName).
  checked_in Hp (check_pure_string sdk coinId).
  checked_in Hp (check_object sdk (JStr "0x6")).
  injection Hp as <- <- _.
  split; reflexivity.
Qed.

Lemma may_bind_value {A B} (R : rpc -> Prop) (m : M A) (k : A -> M B) :
  issues_at_most 0 m ->
  (forall st a st1, m st = (Normal a, st1) -> may_send R (k a)) ->
  may_send R (bind m k).
Proof.
  intros Hm Hk st. pose proof (issues_none m st Hm) as Hc. unfold bind.
  destruct (m st) as [[a|e] st1] eqn:E; simpl in Hc.
  - rewrite <- Hc. exact (Hk st a st1 E st1).
  - left. exact Hc.
Qed.

Lemma may_impl {A} (R R' : rpc -> Prop) (m : M A) :
  (forall r, R r -> R' r) -> may_send R m -> may_send R' m.
Proof.
  intros HR Hm st. destruct (Hm st) as [H|(r & Hr & H)]; [left; exact H|].
  right. exists r. split; [apply HR; exact Hr | exact H].
Qed.

Lemma mintRestrictedNFT_may_send (sdk : sui_sdk) (w : world) (stringify : jsval -> string)
    (mnemonic packageId suiNetwork supplyCapId creatorCapId lineageId counterId
     recipientAddress nftName coinId braavVersion : jsval) :
  may_send
    (fun r => exists kp,
       deriveKeypair sdk mnemonic = Normal kp
       /\ r = SignAndExecuteTransaction
                (Transaction (to_string packageId +:+ "::braav_public::mint_restricted")
                   [ArgObject creatorCapId; ArgObject supplyCapId; ArgObject lineageId;
                    ArgObject counterId; ArgPureAddress recipientAddress;
                    ArgPureString nftName; ArgPureString coinId; ArgObject (JStr "0x6")]
                   [to_string packageId +:+ "::xoa::" +:+ to_string braavVersion]
                   (Some 10000000))
                (toSuiAddress sdk (getPublicKey sdk kp))
                restricted_mint_options)
    (mintRestrictedNFT sdk w stringify mnemonic packageId suiNetwork supplyCapId
       creatorCapId lineageId counterId recipientAddress nftName coinId braavVersion).
Proof.
  unfold mintRestrictedNFT.
  apply may_try_catch; [|intros; quiet].
  apply may_bind_value; [auto with footprint|].
  intros st [kp tx] st1 Hp.
  apply prepare_restricted_mint_returns in Hp. destruct Hp as (_ & Hkp & ->).
  apply may_bind_then_quiet; [|intros; auto with footprint].
  apply may_remote. exists kp. split; [exact Hkp | reflexivity].
Qed.

Lemma may_bind_lift_normal {A B} (R : rpc -> Prop) (a : A) (k : A -> M B) :
  may_send R (k a) -> may_send R (bind (lift (Normal a)) k).
Proof. intros H st. rewrite bind_lift_normal. apply H. Qed.

Ltac may_step Hn :=
  lazymatch goal with
  | |- may_send _ (bind (lift (get _ _)) _) =>
      rewrite (get_lookup _ _ Hn); apply may_bind_lift_normal; cbv beta
  | |- may_send _ (bind (lift (destructure _ _ _)) _) =>
      rewrite (destructure_get _ _ _ Hn), (get_lookup _ _ Hn);
      apply may_bind_lift_normal; cbv beta
  | |- may_send _ (bind (now_iso _) _) => apply may_bind_quiet; [quiet | intros]
  | |- may_send _ (bind (log _ _) _) => apply may_bind_quiet; [quiet | intros]
  end.

(** What [prepare_mint] has established when it returns. *)
Lemma prepare_mint_returns (sdk : sui_sdk)
    (mnemonic packageId supplyCapId lineageId counterId recipientAddress nftName
     badgeCoinId nftVersion clockObjectId : jsval)
    (kp : keypair sdk) (tx : transaction) (st st1 : state) :
  prepare_mint sdk mnemonic packageId supplyCapId lineageId counterId recipientAddress
    nftName badgeCoinId nftVersion clockObjectId st = (Normal (kp, tx), st1) ->
  deriveKeypair sdk mnemonic = Normal kp
  /\ tx = Transaction (to_string packageId +:+ "::braav_public::mint_and_transfer")
            [ArgPureString nftName; ArgPureString badgeCoinId; ArgObject supplyCapId;
             ArgObject lineageId; ArgObject counterId; ArgPureAddress recipientAddress;
             ArgObject clockObjectId]
            [to_string packageId +:+ "::xoa::" +:+ to_string nftVersion]
            (Some 10000000).
Proof.
  intros Hp. unfold prepare_mint in Hp.
  destruct (deriveKeypair sdk mnemonic) as [kp'|e];
    [rewrite bind_lift_normal in Hp | rewrite bind_lift_throw in Hp; discriminate Hp].
  skip_logs Hp.
  unfold bind, lift, ret, tx_object, tx_pure_address, tx_pure_string in Hp.
  checked_in Hp (check_pure_string sdk nftName).
  checked_in Hp (check_pure_string sdk badgeCoinId).
  checked_in Hp (check_object sdk supplyCapId).
  checked_in Hp (check_object sdk lineageId).
  checked_in Hp (check_object sdk counterId).
  checked_in Hp (check_pure_address sdk recipientAddress).
  checked_in Hp (check_object sdk clockObjectId).
  injection Hp as <- <- _.
  split; reflexivity.
Qed.

Lemma mintNFT_may_send (sdk : sui_sdk) (w : world) (params : jsval) :
  may_send
    (fun r => truthy (getenv w "MNEMONIC") = true
              /\ truthy (getenv w "SUI_NETWORK") = true
              /\ exists kp, deriveKeypair sdk (getenv w "MNEMONIC") = Normal kp
                            /\ r = mint_submission sdk w params kp)
    (mintNFT sdk w params).
Proof.
  unfold mintNFT.
  destruct (nullish params) eqn:Hn.
  { apply may_bind_lift. intros a E. unfold destructure in E. rewrite Hn in E.
    discriminate E. }
  repeat may_step Hn.
  destruct (truthy (getenv w "MNEMONIC")) eqn:Hm; cbn [negb]; [|apply may_quiet; quiet].
  destruct (truthy (getenv w "SUI_NETWORK")) eqn:Hs; cbn [negb]; [|apply may_quiet; quiet].
  apply may_try_catch; [|intros; quiet].
  apply may_bind_value; [auto with footprint|].
  intros st [kp tx] st1 Hp.
  apply prepare_mint_returns in Hp. destruct Hp as (Hkp & ->).
  apply may_bind_then_quiet; [|intros; auto with footprint].
  apply may_remote. split; [reflexivity|]. split; [reflexivity|].
  exists kp. split; [exact Hkp | reflexivity].
Qed.

Lemma approve_call_returns (sdk : sui_sdk) (w : world) (applicantAddress : jsval)
    (tx : transaction) :
  approve_call sdk w applicantAddress = Normal tx ->
  tx = Transaction (to_string (PACKAGE_ID w) +:+ "::vetting::approve_vetting")
         [ArgObject (ADMIN_CAP_ID w); ArgObject (VETTING_TABLE_ID w);
          ArgPureAddress applicantAddress] [] None.
Proof.
  unfold approve_call, tx_object, tx_pure_address. intros H.
  checked_in H (check_object sdk (ADMIN_CAP_ID w)).
  checked_in H (check_object sdk (VETTING_TABLE_ID w)).
  checked_in H (check_pure_address sdk applicantAddress).
  injection H as <-. reflexivity.
Qed.

Lemma status_query_returns (sdk : sui_sdk) (w : world) (applicantAddress : jsval)
    (tx : transaction) :
  status_query sdk w applicantAddress = Normal tx ->
  tx = Transaction (to_string (PACKAGE_ID w) +:+ "::vetting::status_of_vetting")
         [ArgObject (VETTING_TABLE_ID w); ArgPureAddress applicantAddress] [] None.
Proof.
  unfold status_query, tx_object, tx_pure_address. intros H.
  checked_in H (check_object sdk (VETTING_TABLE_ID w)).
  checked_in H (check_pure_address sdk applicantAddress).
  injection H as <-. reflexivity.
Qed.

Lemma approveVetting_may_send (sdk : sui_sdk) (w : world) (applicantAddress : jsval) :
  may_send
    (fun r => exists kp, deriveKeypair sdk (getenv w "MNEMONIC") = Normal kp
                         /\ r = approval_submission sdk w applicantAddress kp)
    (approveVetting sdk w applicantAddress).
Proof.
  unfold approveVetting.
  destruct (_ || _); [apply may_quiet; quiet|].
  destruct (negb (truthy (getenv w "MNEMONIC"))); [apply may_quiet; quiet|].
  apply may_bind_lift. intros kp Hkp.
  apply may_bind_lift. intros tx Htx. apply approve_call_returns in Htx. subst tx.
  apply may_try_catch; [|intros; quiet].
  apply may_bind_then_quiet; [|intros; quiet].
  apply may_remote. exists kp. split; [exact Hkp | reflexivity].
Qed.

Lemma statusOfVetting_may_send (sdk : sui_sdk) (w : world) (applicantAddress : jsval) :
  may_send (fun r => r = status_inspection w applicantAddress)
           (statusOfVetting sdk w applicantAddress).
Proof.
  unfold statusOfVetting.
  destruct (_ || _); [apply may_quiet; quiet|].
  apply may_bind_lift. intros tx Htx. apply status_query_returns in Htx. subst tx.
  apply may_try_catch; [|intros; quiet].
  apply may_bind_then_quiet; [|intros; quiet].
  apply may_remote. reflexivity.
Qed.

Section WhatIsSent.
Variable sdk : sui_sdk.
Variable w : world.
Variable stringify : jsval -> string.
Variable submitForVetting : jsval -> M jsval.
Variable initializeVettingTable : M jsval.
Variable createSupply : jsval -> jsval -> M jsval.
Variable createDisplay createRestrictedDisplay :
  jsval -> jsval -> jsval -> jsval -> jsval -> jsval -> jsval -> M jsval.

(** X8. Whatever the request, POST /api/mint-restricted-nft sends the node
    nothing, or exactly one transaction: the mint_restricted call of the
    request's package with the arguments creatorCapId, supplyCapId,
    lineageId, counterId, recipientAddress, nftName, coinId and the clock
    object 0x6, typed by the request's braavVersion, signed by the key
    derived from the configured MNEMONIC. It does so only for a request that
    its validator accepts. *)
Theorem restricted_mint_route_sends_only_its_transaction (reqBody : jsval) :
  may_send
    (fun r => complete_request sdk restricted_mint_required_fields reqBody
              /\ exists kp, deriveKeypair sdk (getenv w "MNEMONIC") = Normal kp
                            /\ r = restricted_mint_submission sdk reqBody kp)
    (post sdk w stringify submitForVetting initializeVettingTable createSupply
          createDisplay createRestrictedDisplay MintRestrictedNft reqBody).
Proof.
  unfold post, post_mint_restricted_nft, with_middleware, validateRestrictedMintRequest.
  destruct (validate_with sdk restricted_mint_required_fields reqBody)
    as [[answer|]|err] eqn:Hv.
  - apply may_quiet. quiet.
  - apply validate_with_next_iff in Hv. pose proof Hv as (Hn & _ & _).
    unfold mint_restricted_nft_handler.
    apply may_try_catch; [|intros; unfold mint_failed; quiet].
    repeat may_step Hn.
    destruct (unconfigured w ["MNEMONIC"; "SUI_NETWORK"]); [apply may_quiet; quiet|].
    repeat may_step Hn.
    apply may_bind_then_quiet; [|intros; quiet].
    eapply may_impl; [|apply mintRestrictedNFT_may_send].
    intros r (kp & Hkp & ->). split; [exact Hv|].
    exists kp. split; [exact Hkp | reflexivity].
  - apply may_quiet. unfold error_middleware. quiet.
Qed.

(** X9. Whatever the request, POST /api/mint-nft sends the node nothing, or
    exactly one transaction: the mint_and_transfer call of the request's
    package with the arguments nftName, badgeCoinId, supplyCapId, lineageId,
    counterId, recipientAddress and the clock object (CLOCK_OBJECT_ID, 0x6 by
    default), typed by the request's nftVersion (BRAAV16 when the request has
    none), signed by the key derived from the configured MNEMONIC. It does so
    only for a request that its validator accepts and with MNEMONIC and
    SUI_NETWORK configured. *)
Theorem mint_route_sends_only_its_transaction (reqBody : jsval) :
  may_send
    (fun r => complete_request sdk mint_required_fields reqBody
              /\ truthy (getenv w "MNEMONIC") = true
              /\ truthy (getenv w "SUI_NETWORK") = true
              /\ exists kp, deriveKeypair sdk (getenv w "MNEMONIC") = Normal kp
                            /\ r = mint_submission sdk w reqBody kp)
    (post sdk w stringify submitForVetting initializeVettingTable createSupply
          createDisplay createRestrictedDisplay MintNft reqBody).
Proof.
  unfold post, post_mint_nft, with_middleware, validateMintRequest.
  destruct (validate_with sdk mint_required_fields reqBody) as [[answer|]|err] eqn:Hv.
  - apply may_quiet. quiet.
  - apply validate_with_next_iff in Hv. pose proof Hv as (Hn & _ & _).
    unfold mint_nft_handler.
    apply may_try_catch; [|intros; unfold mint_failed; quiet].
    repeat may_step Hn.
    apply may_bind_then_quiet; [|intros; quiet].
    eapply may_impl; [|apply mintNFT_may_send].
    intros r (Hm & Hs & kp & Hkp & ->). split; [exact Hv|].
    split; [exact Hm|]. split; [exact Hs|].
    exists kp. split; [exact Hkp | reflexivity].
  - apply may_quiet. unfold error_middleware. quiet.
Qed.

(** X10. POST /api/approve-vetting sends the node nothing, or exactly one
    transaction: approve_vetting of the configured package on the admin
    capability, the vetting table and the request's applicantAddress, signed
    by the key derived from MNEMONIC. POST /api/status-of-vetting sends
    nothing, or exactly one read-only inspection (devInspectTransactionBlock)
    of status_of_vetting with the applicant as sender: it never signs or
    executes a transaction. Both act only on a truthy applicantAddress. *)
Theorem vetting_routes_send_only_their_call (reqBody : jsval) :
  may_send
    (fun r => truthy (lookup reqBody ["applicantAddress"]) = true
              /\ exists kp, deriveKeypair sdk (getenv w "MNEMONIC") = Normal kp
                   /\ r = approval_submission sdk w (lookup reqBody ["applicantAddress"]) kp)
    (post sdk w stringify submitForVetting initializeVettingTable createSupply
          createDisplay createRestrictedDisplay ApproveVetting reqBody)
  /\ may_send
       (fun r => truthy (lookup reqBody ["applicantAddress"]) = true
                 /\ r = status_inspection w (lookup reqBody ["applicantAddress"]))
       (post sdk w stringify submitForVetting initializeVettingTable createSupply
             createDisplay createRestrictedDisplay StatusOfVetting reqBody).
Proof.
  unfold post, post_approve_vetting, post_status_of_vetting, route_failed.
  destruct (nullish reqBody) eqn:Hn.
  { split; apply may_try_catch; try (intros; quiet);
      apply may_bind_lift; intros a E; unfold destructure in E; rewrite Hn in E;
      discriminate E. }
  split.
  - apply may_try_catch; [|intros; quiet].
    may_step Hn.
    destruct (truthy (lookup reqBody ["applicantAddress"])) eqn:Ht; cbn [negb];
      [|apply may_quiet; quiet].
    apply may_bind_then_quiet; [|intros; quiet].
    eapply may_impl; [|apply approveVetting_may_send].
    intros r (kp & Hkp & ->). split; [reflexivity|]. exists kp. split; [exact Hkp|reflexivity].
  - apply may_try_catch; [|intros; quiet].
    may_step Hn.
    destruct (truthy (lookup reqBody ["applicantAddress"])) eqn:Ht; cbn [negb];
      [|apply may_quiet; quiet].
    apply may_bind_then_quiet; [|intros; quiet].
    eapply may_impl; [|apply statusOfVetting_may_send].
    intros r ->. split; reflexivity.
Qed.

End WhatIsSent.

(** ** mintNFT: what is made of the node's answer *)

Lemma calls_not_extended (l : list rpc) (r : rpc) : l = l ++ [r] -> False.
Proof.
  intros H. apply (f_equal (@length rpc)) in H. rewrite length_app in H. simpl in H. lia.
Qed.

(** The [catch] block of [mintNFT]. *)
Lemma mint_catch_rethrows (err : error) (st : state) :
  (bind (log ErrorLevel [JStr "❌ Error minting NFT:"; JStr (message err)])
        (fun _ => @throw jsval err) st).1 = Throw err.
Proof. reflexivity. Qed.

(** Once [mintNFT] has issued its call, the rest of the run is the reading
    of the node's answer. *)
Lemma mintNFT_after_its_call (sdk : sui_sdk) (w : world) (params : jsval) (r : rpc)
    (st : state) :
  calls (mintNFT sdk w params st).2 = calls st ++ [r] ->
  exists st1,
    calls st1 = calls st
    /\ mintNFT sdk w params st
       = try_catch
           (result <- lift (client w (calls st) r) ;;
            conclude_mint (lookup params ["recipientAddress"]) (lookup params ["nftName"])
                          (lookup params ["badgeCoinId"]) result)
           (fun err =>
              log ErrorLevel [JStr "❌ Error minting NFT:"; JStr (message err)] ;;;
              throw err)
           (after_call st1 r).
Proof.
  unfold mintNFT. intros Hsent.
  destruct (nullish params) eqn:Hn.
  { exfalso. revert Hsent. unfold destructure at 1, type_error. rewrite Hn.
    rewrite bind_lift_throw. simpl. apply calls_not_extended. }
  revert Hsent.
  rewrite !destructure_get by exact Hn. rewrite !(get_lookup params _ Hn).
  rewrite !bind_lift_normal.
  destruct (truthy (getenv w "MNEMONIC")); cbn [negb];
    [|simpl; intros H; exfalso; exact (calls_not_extended _ _ H)].
  destruct (truthy (getenv w "SUI_NETWORK")); cbn [negb];
    [|simpl; intros H; exfalso; exact (calls_not_extended _ _ H)].
  set (prepare := prepare_mint _ _ _ _ _ _ _ _ _ _ _).
  pose proof (issues_none prepare st ltac:(subst prepare; auto with footprint)) as Hquiet.
  destruct (prepare st) as [[[kp tx]|e] st1] eqn:Hp; simpl in Hquiet.
  2:{ rewrite (try_bind_throw _ _ _ _ _ _ Hp). simpl. rewrite Hquiet.
      intros H. exfalso. exact (calls_not_extended _ _ H). }
  rewrite (try_bind_normal _ _ _ _ _ _ Hp). cbv beta.
  set (r' := SignAndExecuteTransaction _ _ _).
  rewrite try_remote_as_lift.
  set (rest := try_catch _ _).
  assert (Hrest : issues_at_most 0 rest) by (subst rest; quiet).
  rewrite (issues_none rest _ Hrest). unfold after_call at 1. simpl calls.
  rewrite Hquiet. intros H. apply app_inv_head in H. injection H as H.
  exists st1. split; [exact Hquiet|].
  subst rest. rewrite H, Hquiet. reflexivity.
Qed.

(** X11. Once mintNFT has sent its transaction, it reports what the node
    said: an exception thrown by the client is rethrown unchanged, and an
    answer whose execution status is not 'success' makes it throw
    'Transaction failed: ' followed by the status error, or by 'Unknown
    error' when the answer carries none. It never returns a success object
    in either case. *)
Theorem mint_reports_a_failed_execution
    (sdk : sui_sdk) (w : world) (params : jsval) (r : rpc) (st : state) :
  calls (mintNFT sdk w params st).2 = calls st ++ [r] ->
  match client w (calls st) r with
  | Throw err => (mintNFT sdk w params st).1 = Throw err
  | Normal result =>
      forall s reason,
        effects_status result "status" = Normal s ->
        is_str s "success" = false ->
        effects_status result "error" = Normal reason ->
        (mintNFT sdk w params st).1
        = Throw (Error "Error" ("Transaction failed: "
                                +:+ to_string (js_or reason (JStr "Unknown error"))))
  end.
Proof.
  intros Hsent.
  destruct (mintNFT_after_its_call sdk w params r st Hsent) as (st1 & _ & ->).
  destruct (client w (calls st) r) as [result|err].
  - intros s reason Hs Hne Hreason.
    unfold try_catch. rewrite bind_lift_normal.
    unfold conclude_mint, bind, lift, throw, log. rewrite Hs, Hne. simpl.
    rewrite Hreason. reflexivity.
  - reflexivity.
Qed.

Lemma mint_reports_a_failed_execution_witness :
  (mintNFT Demo.sdk (Demo.world_with Demo.configured (Normal (Demo.executed "failure" [])))
     Demo.mint_body start).1
  = Throw (Error "Error" "Transaction failed: MoveAbort").
Proof.
  set (wd := Demo.world_with Demo.configured (Normal (Demo.executed "failure" []))).
  set (r := mint_submission Demo.sdk wd Demo.mint_body Examples.signer).
  exact (mint_reports_a_failed_execution Demo.sdk wd Demo.mint_body r start eq_refl
           (JStr "failure") (JStr "MoveAbort") eq_refl eq_refl eq_refl).
Defined.

Lemma find_first_skips (p : jsval -> completion bool) (before after : list jsval)
    (x : jsval) :
  List.Forall (fun c => p c = Normal false) before ->
  p x = Normal true ->
  find_first p (before ++ x :: after) = Normal x.
Proof.
  intros Hb Hx. induction Hb as [|c rest Hc _ IH]; simpl.
  - rewrite Hx. reflexivity.
  - rewrite Hc. simpl. exact IH.
Qed.

(** X12. When the node reports success, mintNFT returns as nftObjectId the
    objectId of the first object change that is 'created' with a type
    containing '::braav_public::NFT'; changes before it that are not such
    creations are passed over. Only a null or undefined objectId is replaced
    by 'Not found'. *)
Theorem mint_returns_the_first_created_nft
    (sdk : sui_sdk) (w : world) (params : jsval) (r : rpc) (st : state)
    (result s change objectId : jsval) (before after : list jsval) :
  calls (mintNFT sdk w params st).2 = calls st ++ [r] ->
  client w (calls st) r = Normal result ->
  effects_status result "status" = Normal s ->
  is_str s "success" = true ->
  get result "objectChanges" = Normal (JArr (before ++ change :: after)) ->
  List.Forall (fun c => is_created "::braav_public::NFT" c = Normal false) before ->
  is_created "::braav_public::NFT" change = Normal true ->
  get change "objectId" = Normal objectId ->
  exists digest gasUsed,
    (mintNFT sdk w params st).1
    = Normal (JObj [("success", JBool true);
                    ("transactionDigest", digest);
                    ("nftObjectId", js_coalesce objectId (JStr "Not found"));
                    ("recipientAddress", lookup params ["recipientAddress"]);
                    ("nftName", lookup params ["nftName"]);
                    ("badgeCoinId", lookup params ["badgeCoinId"]);
                    ("gasUsed", gasUsed);
                    ("fullResult", result)]).
Proof.
  intros Hsent Hc Hs Hok Hchanges Hbefore Hchange Hid.
  destruct (mintNFT_after_its_call sdk w params r st Hsent) as (st1 & _ & ->).
  destruct (success_has_effects result s Hs Hok)
    as (effects & digest & gasUsed & He & Hd & Hg).
  exists digest, gasUsed.
  rewrite Hc. unfold try_catch. rewrite bind_lift_normal.
  assert (Hfind : find_created "::braav_public::NFT" result = Normal change).
  { unfold find_created. rewrite Hchanges. simpl.
    apply find_first_skips; assumption. }
  assert (Hget : get_opt change "objectId" = Normal objectId).
  { unfold get_opt. destruct change; try exact Hid; discriminate Hchange. }
  unfold conclude_mint, bind, lift, throw, ret.
  rewrite Hs, Hok. simpl. rewrite Hfind. simpl. rewrite Hget. simpl.
  rewrite Hd, He. simpl. rewrite Hg. reflexivity.
Qed.

Lemma mint_returns_the_first_created_nft_witness :
  exists digest gasUsed,
    (mintNFT Demo.sdk
       (Demo.world_with Demo.configured
          (Normal (Demo.executed "success" [Examples.mutated_gas; Examples.created_nft])))
       Demo.mint_body start).1
    = Normal (JObj [("success", JBool true);
                    ("transactionDigest", digest);
                    ("nftObjectId", JStr "0x9f1");
                    ("recipientAddress", Demo.applicant);
                    ("nftName", JStr "Gold Coin");
                    ("badgeCoinId", JStr "coin_123");
                    ("gasUsed", gasUsed);
                    ("fullResult",
                     Demo.executed "success" [Examples.mutated_gas; Examples.created_nft])]).
Proof.
  set (wd := Demo.world_with Demo.configured
               (Normal (Demo.executed "success"
                          [Examples.mutated_gas; Examples.created_nft]))).
  set (r := mint_submission Demo.sdk wd Demo.mint_body Examples.signer).
  apply (mint_returns_the_first_created_nft Demo.sdk wd Demo.mint_body r start
           (Demo.executed "success" [Examples.mutated_gas; Examples.created_nft])
           (JStr "success") Examples.created_nft (JStr "0x9f1")
           [Examples.mutated_gas] []).
  - vm_compute. reflexivity.
  - reflexivity.
  - reflexivity.
  - reflexivity.
  - reflexivity.
  - constructor; [reflexivity | constructor].
  - reflexivity.
  - reflexivity.
Defined.

(** ** The key conversion script *)

Lemma append_cons (c : ascii) (s t : string) : String c s +:+ t = String c (s +:+ t).
Proof. reflexivity. Qed.

Lemma append_empty_r (s : string) : s +:+ "" = s.
Proof.
  induction s as [|c s IH]; [reflexivity|]. rewrite append_cons, IH. reflexivity.
Qed.

Lemma join_empty_cons (p : string) (rest : list string) :
  join "" (p :: rest) = p +:+ join "" rest.
Proof.
  destruct rest as [|q rest].
  - simpl. rewrite append_empty_r. reflexivity.
  - reflexivity.
Qed.

Lemma all_bytes_agree :
  forallb (fun n => byte_digits_agree (Z.of_nat n)) (seq 0 256) = true.
Proof. vm_compute. reflexivity. Qed.

Lemma byte_digits (b : Z) :
  is_byte b ->
  pad_start2 (number_to_hex b)
  = String (hex_digit (b / 16)) (String (hex_digit (b mod 16)) EmptyString)
  /\ to_uint8 (parseInt16 (String (hex_digit (b / 16))
                             (String (hex_digit (b mod 16)) EmptyString))) = b.
Proof.
  intros [Hlo Hhi].
  pose proof all_bytes_agree as H. rewrite List.forallb_forall in H.
  specialize (H (Z.to_nat b)).
  rewrite Z2Nat.id in H by exact Hlo.
  assert (Hin : In (Z.to_nat b) (seq 0 256)) by (apply in_seq; lia).
  apply H in Hin. unfold byte_digits_agree in Hin.
  apply andb_true_iff in Hin. destruct Hin as [H1 H2].
  apply String.eqb_eq in H1. apply Z.eqb_eq in H2. split; assumption.
Qed.

Lemma bytesToHex_cons (b : Z) (rest : list Z) :
  bytesToHex (b :: rest) = pad_start2 (number_to_hex b) +:+ bytesToHex rest.
Proof. unfold bytesToHex. simpl map. apply join_empty_cons. Qed.

Lemma hexToBytes_inverts_bytesToHex_bytes (bytes : list Z) :
  Forall is_byte bytes ->
  bytesToHex bytes = to_hex bytes /\ hexToBytes (bytesToHex bytes) = bytes.
Proof.
  intros Hb. induction bytes as [|b rest IH].
  - split; reflexivity.
  - apply Forall_cons in Hb. destruct Hb as [Hbyte Hrest].
    destruct (IH Hrest) as [IH1 IH2].
    destruct (byte_digits b Hbyte) as [Hd Hp].
    rewrite bytesToHex_cons, Hd, !append_cons. change ("" +:+ ?s) with s. split.
    + rewrite IH1. reflexivity.
    + simpl hexToBytes. rewrite Hp, IH2. reflexivity.
Qed.

(** X13. On an array of bytes, bytesToHex writes what Buffer's
    toString('hex') writes (two lower-case digits per byte), and hexToBytes
    reads it back: hexToBytes(bytesToHex(bytes)) is bytes again. *)
Theorem hexToBytes_inverts_bytesToHex (bytes : list Z) :
  Forall is_byte bytes ->
  bytesToHex bytes = to_hex bytes
  /\ hexToBytes (bytesToHex bytes) = bytes.
Proof. apply hexToBytes_inverts_bytesToHex_bytes. Qed.

Lemma hexToBytes_inverts_bytesToHex_witness :
  bytesToHex [0; 10; 127; 128; 255] = "000a7f80ff"
  /\ hexToBytes (bytesToHex [0; 10; 127; 128; 255]) = [0; 10; 127; 128; 255].
Proof.
  apply (hexToBytes_inverts_bytesToHex [0; 10; 127; 128; 255]).
  repeat constructor; unfold is_byte; lia.
Defined.

Lemma lower_hex_digit_cases (c : ascii) :
  lower_hex_digit c = true -> In c (list_ascii_of_string "0123456789abcdef").
Proof.
  destruct c as [[] [] [] [] [] [] [] []]; vm_compute; intros H;
    try discriminate H; tauto.
Qed.

Lemma all_pairs_round_trip :
  forallb (fun c1 => forallb (pair_round_trips c1)
                             (list_ascii_of_string "0123456789abcdef"))
          (list_ascii_of_string "0123456789abcdef") = true.
Proof. vm_compute. reflexivity. Qed.

Lemma pair_round_trip (c1 c2 : ascii) :
  lower_hex_digit c1 = true -> lower_hex_digit c2 = true ->
  bytesToHex [to_uint8 (parseInt16 (String c1 (String c2 EmptyString)))]
  = String c1 (String c2 EmptyString).
Proof.
  intros H1 H2.
  apply lower_hex_digit_cases in H1. apply lower_hex_digit_cases in H2.
  pose proof all_pairs_round_trip as H. rewrite List.forallb_forall in H.
  specialize (H c1 H1). rewrite List.forallb_forall in H. specialize (H c2 H2).
  apply String.eqb_eq. exact H.
Qed.

(** X14. On a string of lower-case hexadecimal digits of even length,
    bytesToHex(hexToBytes(hex)) is hex again. *)
Theorem bytesToHex_inverts_hexToBytes (hex : string) :
  lower_hex hex = true ->
  Nat.even (String.length hex) = true ->
  bytesToHex (hexToBytes hex) = hex.
Proof.
  assert (H : forall n hex, (String.length hex <= n)%nat ->
              lower_hex hex = true -> Nat.even (String.length hex) = true ->
              bytesToHex (hexToBytes hex) = hex).
  { clear hex. induction n as [|n IH]; intros hex Hlen Hhex Heven.
    - destruct hex; [reflexivity | simpl in Hlen; lia].
    - destruct hex as [|c1 [|c2 rest]]; [reflexivity | discriminate Heven |].
      simpl in Hhex. apply andb_true_iff in Hhex. destruct Hhex as [H1 Hhex].
      apply andb_true_iff in Hhex. destruct Hhex as [H2 Hrest].
      simpl hexToBytes. rewrite bytesToHex_cons.
      rewrite (IH rest) by (simpl in Hlen; try lia; assumption).
      pose proof (pair_round_trip c1 c2 H1 H2) as Hp.
      rewrite bytesToHex_cons in Hp. change (bytesToHex []) with "" in Hp.
      rewrite append_empty_r in Hp. rewrite Hp. reflexivity. }
  intros. eapply H; eauto.
Qed.

Lemma bytesToHex_inverts_hexToBytes_witness :
  bytesToHex (hexToBytes "00ff7a3c") = "00ff7a3c".
Proof. apply (bytesToHex_inverts_hexToBytes "00ff7a3c"); reflexivity. Defined.

Lemma to_uint8_byte (v : option Z) : is_byte (to_uint8 v).
Proof.
  unfold is_byte, to_uint8. destruct v as [n|]; [|lia].
  apply Z.mod_pos_bound. lia.
Qed.

(** X15. hexToBytes never fails and never rejects its input: for every
    string of ASCII characters it returns one byte per pair of characters
    (and one for a last single character), each in 0..255. A pair whose first
    character is not a hexadecimal digit, a sign or white space is read
    as 0. *)
Theorem hexToBytes_accepts_any_string (hex : string) :
  ascii_text hex = true ->
  length (hexToBytes hex) = Nat.div2 (S (String.length hex))
  /\ Forall is_byte (hexToBytes hex)
  /\ (forall c1 c2 rest,
        hex = String c1 (String c2 rest) ->
        digit_value c1 = None -> is_space c1 = false ->
        c1 <> "-"%char -> c1 <> "+"%char ->
        hexToBytes hex = 0 :: hexToBytes rest).
Proof.
  intros _.
  assert (H : forall n hex, (String.length hex <= n)%nat ->
              length (hexToBytes hex) = Nat.div2 (S (String.length hex))
              /\ Forall is_byte (hexToBytes hex)).
  { clear hex. induction n as [|n IH]; intros hex Hlen.
    - destruct hex; [split; [reflexivity | constructor] | simpl in Hlen; lia].
    - destruct hex as [|c1 [|c2 rest]].
      + split; [reflexivity | constructor].
      + split; [reflexivity | repeat constructor; apply to_uint8_byte].
      + destruct (IH rest) as [IH1 IH2]; [simpl in Hlen; lia|].
        split.
        * simpl hexToBytes. simpl length. rewrite IH1. reflexivity.
        * simpl hexToBytes. constructor; [apply to_uint8_byte | exact IH2]. }
  destruct (H (String.length hex) hex (le_n _)) as [H1 H2].
  split; [exact H1|]. split; [exact H2|].
  intros c1 c2 rest -> Hd Hs Hm Hp. simpl hexToBytes. f_equal.
  unfold parseInt16. simpl trim_start. rewrite Hs.
  destruct c1 as [[] [] [] [] [] [] [] []]; try discriminate Hd; try discriminate Hs;
    try (exfalso; apply Hm; reflexivity); try (exfalso; apply Hp; reflexivity);
    reflexivity.
Qed.

Lemma hexToBytes_accepts_any_string_witness :
  length (hexToBytes "zz-1 f0x7") = 5%nat
  /\ hexToBytes "zz-1 f0x7" = [0; 255; 15; 0; 7].
Proof.
  destruct (hexToBytes_accepts_any_string "zz-1 f0x7" eq_refl) as (Hlen & _ & _).
  split; [exact Hlen | reflexivity].
Defined.

Lemma to_hex_length (bytes : list Z) :
  String.length (to_hex bytes) = (2 * length bytes)%nat.
Proof. induction bytes as [|b rest IH]; simpl; [reflexivity | rewrite IH; lia]. Qed.

Lemma all_byte_digits_lower :
  forallb (fun n => lower_hex_digit (hex_digit (Z.of_nat n / 16))
                    && lower_hex_digit (hex_digit (Z.of_nat n mod 16)))
          (seq 0 256) = true.
Proof. vm_compute. reflexivity. Qed.

Lemma to_hex_lower (bytes : list Z) :
  Forall is_byte bytes -> lower_hex (to_hex bytes) = true.
Proof.
  intros Hb. induction bytes as [|b rest IH]; [reflexivity|].
  apply Forall_cons in Hb. destruct Hb as [[Hlo Hhi] Hrest].
  pose proof all_byte_digits_lower as H. rewrite List.forallb_forall in H.
  specialize (H (Z.to_nat b)). rewrite Z2Nat.id in H by exact Hlo.
  assert (Hin : In (Z.to_nat b) (seq 0 256)) by (apply in_seq; lia).
  apply H in Hin. apply andb_true_iff in Hin. destruct Hin as [H1 H2].
  simpl. rewrite H1, H2, (IH Hrest). reflexivity.
Qed.

Lemma substring_whole (s : string) : String.substring 0 (String.length s) s = s.
Proof. induction s as [|c s IH]; simpl; [reflexivity | rewrite IH; reflexivity]. Qed.

Lemma replace_first_0x_prefix (hex : string) :
  replace_first "0x" "" (String "0" (String "x" hex)) = hex.
Proof.
  simpl. rewrite Nat.sub_0_r.
  assert (Hp : String.prefix "" hex = true) by (destruct hex; reflexivity).
  rewrite Hp. apply substring_whole.
Qed.

(** X16. The privateKey that createCustodialWallet returns and the key
    conversion script fit together: the string is 64 lower-case hexadecimal
    digits (the wallet's seedHex is the same string), hexToBytes reads it back as the 32 bytes the key pair was made
    from, and getSuiAddressFromPrivateKey, given the string with a 0x
    prefix, returns the unprefixed string and those 32 bytes. *)
Theorem wallet_private_key_decodes_to_the_seed
    (sdk : sui_sdk) (w : world) (userDetails wallet : jsval) (st : state) :
  derive_wallet sdk w userDetails = Normal wallet ->
  exists hex seed,
    get wallet "privateKey" = Normal (JStr hex)
    /\ get wallet "seedHex" = Normal (JStr hex)
    /\ privateKeyBytes w userDetails = Normal seed
    /\ String.length hex = 64%nat
    /\ lower_hex hex = true
    /\ hexToBytes hex = seed
    /\ (getSuiAddressFromPrivateKey (JStr (String "0" (String "x" hex))) st).1
       = Normal (JObj [("privateKey", JStr hex);
                       ("privateKeyBytes", uint8array seed);
                       ("note", JStr "Use @mysten/sui.js for actual address derivation")]).
Proof.
  unfold derive_wallet, privateKeyBytes. intros H.
  destruct (deterministicSeed w userDetails) as [digest|e] eqn:Hd; [|discriminate H].
  cbn [cbind] in H |- *.
  destruct (fromSecretKey sdk (slice 0 32 digest)) as [kp|e]; [|discriminate H].
  cbn [cbind] in H. injection H as <-.
  assert (Hdigest : length digest = 32%nat /\ Forall is_byte digest).
  { unfold deterministicSeed in Hd.
    destruct (get userDetails "id"); [|discriminate Hd].
    destruct (get userDetails "created_at"); [|discriminate Hd].
    destruct (get userDetails "secret_key"); [|discriminate Hd].
    cbn [cbind] in Hd. injection Hd as <-.
    split; [apply hmac_sha256_length | apply hmac_sha256_range]. }
  destruct Hdigest as [Hlen Hbytes].
  rewrite (slice_whole 32 digest Hlen).
  exists (to_hex digest), digest.
  destruct (hexToBytes_inverts_bytesToHex_bytes digest Hbytes) as [Hsame Hback].
  rewrite Hsame in Hback.
  split; [reflexivity|]. split; [reflexivity|]. split; [reflexivity|].
  split; [rewrite to_hex_length, Hlen; reflexivity|].
  split; [apply to_hex_lower; exact Hbytes|].
  split; [exact Hback|].
  unfold getSuiAddressFromPrivateKey, try_catch, call_replace_0x.
  rewrite bind_lift_normal, replace_first_0x_prefix. cbv zeta.
  rewrite Hback. reflexivity.
Qed.

Lemma wallet_private_key_decodes_to_the_seed_witness :
  exists hex seed,
    get Demo.user_wallet "privateKey" = Normal (JStr hex)
    /\ get Demo.user_wallet "seedHex" = Normal (JStr hex)
    /\ privateKeyBytes Examples.quiet_world Demo.user = Normal seed
    /\ String.length hex = 64%nat
    /\ lower_hex hex = true
    /\ hexToBytes hex = seed
    /\ (getSuiAddressFromPrivateKey (JStr (String "0" (String "x" hex))) start).1
       = Normal (JObj [("privateKey", JStr hex);
                       ("privateKeyBytes", uint8array seed);
                       ("note", JStr "Use @mysten/sui.js for actual address derivation")]).
Proof.
  apply (wallet_private_key_decodes_to_the_seed Demo.sdk Examples.quiet_world Demo.user
           Demo.user_wallet start).
  vm_compute. reflexivity.
Defined.

(** ** lib/submitForVetting.js *)

Section SubmitForVetting.
Variable sdk : sui_sdk.
Variable w : world.
Variable fromHex : string -> completion buffer.

(** X17. Whatever goes wrong while submitForVetting turns a private key
    into a key pair (a value that is not a string, a wrong length, fromHex or
    the key constructor throwing, a decoded length other than 32 or 64), the
    caller sees one fixed message and nothing of the cause. When a key pair
    is produced, the key constructor was given exactly 32 bytes (the first
    32 of a 64-byte decoding). *)
Theorem private_key_failures_share_one_message (failure : string) (privateKey : jsval) :
  match load_private_key sdk fromHex failure privateKey with
  | Normal keypair =>
      exists keyBytes, length keyBytes = 32%nat
                       /\ fromSecretKey sdk keyBytes = Normal keypair
  | Throw err => err = Error "Error" failure
  end.
Proof.
  unfold load_private_key.
  destruct (decode_private_key sdk fromHex privateKey) as [kp|e] eqn:Hd; [|reflexivity].
  unfold decode_private_key in Hd.
  destruct (get privateKey "length") as [len|]; simpl in Hd; [|discriminate Hd].
  match type of Hd with
  | cbind ?c _ = _ => destruct c as [keyBytes|]; simpl in Hd; [|discriminate Hd]
  end.
  destruct (length keyBytes =? 64)%nat eqn:H64; simpl in Hd.
  - exists (slice 0 32 keyBytes). split; [|exact Hd].
    apply Nat.eqb_eq in H64. unfold slice. rewrite length_take, length_drop. lia.
  - destruct (length keyBytes =? 32)%nat eqn:H32; simpl in Hd; [|discriminate Hd].
    exists keyBytes. split; [apply Nat.eqb_eq; exact H32 | exact Hd].
Qed.

(** X18. Credentials passed to submitForVetting are used alone: the signer
    then does not depend on the environment (MNEMONIC and PRIVATE_KEY are
    never consulted, not even as a fallback), a truthy mnemonic is used
    whatever privateKey holds, and credentials with neither make the call
    throw before any remote call. *)
Theorem passed_credentials_are_used_alone
    (walletCredentials mnemonic : jsval) (st : state) :
  truthy walletCredentials = true ->
  get walletCredentials "mnemonic" = Normal mnemonic ->
  (forall w', signer_of sdk w' fromHex walletCredentials
              = signer_of sdk w fromHex walletCredentials)
  /\ (truthy mnemonic = true ->
      signer_of sdk w fromHex walletCredentials = deriveKeypair sdk mnemonic)
  /\ (truthy mnemonic = false ->
      truthy (lookup walletCredentials ["privateKey"]) = false ->
      placeholder_left w = false ->
      submitForVetting sdk w fromHex walletCredentials st
      = (Throw (Error "Error"
           "Either mnemonic or privateKey must be provided in walletCredentials"), st)).
Proof.
  intros Ht Hm. pose proof (truthy_not_nullish _ Ht) as Hn.
  split; [|split].
  - intros w'. unfold signer_of. rewrite Ht. reflexivity.
  - intros Hmt. unfold signer_of. rewrite Ht, Hm. cbn [cbind]. rewrite Hmt. reflexivity.
  - intros Hmf Hpf Hg.
    assert (Hs : signer_of sdk w fromHex walletCredentials
                 = Throw (Error "Error"
                     "Either mnemonic or privateKey must be provided in walletCredentials")).
    { unfold signer_of. rewrite Ht, Hm. cbn [cbind]. rewrite Hmf.
      rewrite (get_lookup _ _ Hn). cbn [cbind]. rewrite Hpf. reflexivity. }
    unfold submitForVetting. unfold placeholder_left in Hg. rewrite Hg.
    assert (Hd : with_default walletCredentials JNull = walletCredentials)
      by (destruct walletCredentials; try reflexivity; discriminate Ht).
    rewrite Hd, Hs. reflexivity.
Qed.

(** What submitForVetting does once it has its signer. *)
Lemma submitForVetting_with_signer (argument : jsval) (kp : keypair sdk) (st : state) :
  placeholder_left w = false ->
  signer_of sdk w fromHex (with_default argument JNull) = Normal kp ->
  submitForVetting sdk w fromHex argument st
  = (check_balance w (toSuiAddress sdk (getPublicKey sdk kp)) ;;;
     table <- lift (tx_object sdk (VETTING_TABLE_ID w)) ;;
     submit w (toSuiAddress sdk (getPublicKey sdk kp)) table) st.
Proof.
  intros Hg Hs. unfold submitForVetting. unfold placeholder_left in Hg.
  rewrite Hg, Hs. reflexivity.
Qed.

Example balances_that_read_as_zero :
  map parses_to_zero [JStr "0"; JStr "000"; JStr "0.5"; JStr "0x0"; JNum 0;
                      JStr "1"; JStr "1000000000"; JUndefined; JStr ""]
  = [true; true; true; true; true; false; false; false; false].
Proof. vm_compute. reflexivity. Qed.

Lemma no_tokens_is_recognised (address : string) :
  includes "No SUI tokens found" (message (no_tokens address)) = true.
Proof. reflexivity. Qed.

(** X19. A wallet whose balance reads as zero stops submitForVetting before
    anything is submitted: the call throws 'No SUI tokens found in wallet
    <address>. Please fund your wallet first.' after the balance query, its
    only remote call. (parseInt decides: '0', '000', '0.5' and '0x0' all
    read as zero.) *)
Theorem zero_balance_stops_the_submission
    (argument balance total : jsval) (kp : keypair sdk) (st : state) :
  placeholder_left w = false ->
  signer_of sdk w fromHex (with_default argument JNull) = Normal kp ->
  client w (calls st) (balance_query (toSuiAddress sdk (getPublicKey sdk kp)))
  = Normal balance ->
  get balance "totalBalance" = Normal total ->
  parses_to_zero total = true ->
  submitForVetting sdk w fromHex argument st
  = (Throw (no_tokens (toSuiAddress sdk (getPublicKey sdk kp))),
     after_call st (balance_query (toSuiAddress sdk (getPublicKey sdk kp)))).
Proof.
  intros Hg Hs Hc Hget Hz.
  rewrite (submitForVetting_with_signer argument kp st Hg Hs).
  unfold check_balance.
  unfold bind at 1. rewrite (try_remote_normal _ _ _ _ _ _ Hc).
  unfold try_catch. rewrite Hget, bind_lift_normal, Hz. unfold throw at 1.
  rewrite no_tokens_is_recognised. reflexivity.
Qed.

(** X20. A balance query that fails does not stop submitForVetting: unless
    the error's message contains 'No SUI tokens found', it is printed and the
    submission goes on as if the balance had been sufficient. *)
Theorem failed_balance_query_is_ignored
    (argument : jsval) (kp : keypair sdk) (err : error) (st : state) :
  placeholder_left w = false ->
  signer_of sdk w fromHex (with_default argument JNull) = Normal kp ->
  client w (calls st) (balance_query (toSuiAddress sdk (getPublicKey sdk kp)))
  = Throw err ->
  includes "No SUI tokens found" (message err) = false ->
  submitForVetting sdk w fromHex argument st
  = (table <- lift (tx_object sdk (VETTING_TABLE_ID w)) ;;
     submit w (toSuiAddress sdk (getPublicKey sdk kp)) table)
      (State (calls st ++ [balance_query (toSuiAddress sdk (getPublicKey sdk kp))])
             (console st ++ [(ErrorLevel, [JStr "Could not check balance:";
                                           JStr (message err)])])
             (draws st) (ticks st)).
Proof.
  intros Hg Hs Hc Hm.
  rewrite (submitForVetting_with_signer argument kp st Hg Hs).
  unfold check_balance.
  unfold bind at 1. rewrite (try_remote_throw _ _ _ _ _ _ Hc).
  rewrite Hm. reflexivity.
Qed.

(** X21. When the node answers a submission with an execution status object
    (its record of status and error, with no toString entry of its own)
    whose status is not 'success', submitForVetting throws exactly
    'Transaction failed: [object Object]' after that one call. The status
    object is interpolated as a whole, so neither its status nor its error
    text is in the message: whatever the node reported, the thrown error is
    the same. *)
Theorem failed_submission_hides_the_cause
    (address : string) (table : txarg) (result effects : jsval)
    (fs : list (string * jsval)) (st : state) :
  client w (calls st) (submission w address table) = Normal result ->
  get result "effects" = Normal effects ->
  get_opt effects "status" = Normal (JObj fs) ->
  assoc "toString" fs = None ->
  is_str (default JUndefined (assoc "status" fs)) "success" = false ->
  (submit w address table st).1
  = Throw (Error "Error" "Transaction failed: [object Object]")
  /\ calls (submit w address table st).2 = calls st ++ [submission w address table].
Proof.
  intros Hc He Hst _ Hne.
  unfold submit. rewrite (try_remote_normal _ _ _ _ _ _ Hc).
  unfold try_catch. rewrite He, bind_lift_normal, Hst, bind_lift_normal.
  assert (Hs : get_opt (JObj fs) "status" = Normal (default JUndefined (assoc "status" fs)))
    by reflexivity.
  rewrite Hs, bind_lift_normal, Hne.
  split; reflexivity.
Qed.

Lemma sends_remote_then_quiet {A} (r : rpc) (k : jsval -> M A) (h : error -> M A) :
  (forall a, issues_at_most 0 (k a)) -> (forall e, issues_at_most 0 (h e)) ->
  sends [r] (try_catch (bind (remote w r) k) h).
Proof.
  intros Hk Hh st. rewrite calls_try_catch_quiet by exact Hh.
  unfold bind, remote. destruct (client w (calls st) r) as [a|e]; [|reflexivity].
  rewrite (issues_none (k a) _ (Hk a)). reflexivity.
Qed.

Lemma check_balance_sends (address : string) :
  sends [balance_query address] (check_balance w address).
Proof. unfold check_balance. apply sends_remote_then_quiet; intros; quiet. Qed.

Lemma submit_sends (address : string) (table : txarg) :
  sends [submission w address table] (submit w address table).
Proof. unfold submit. apply sends_remote_then_quiet; intros; quiet. Qed.

Lemma submitForVetting_calls (argument : jsval) (st : state) :
  exists extra,
    calls (submitForVetting sdk w fromHex argument st).2 = calls st ++ extra
    /\ (extra = []
        \/ exists kp,
             signer_of sdk w fromHex (with_default argument JNull) = Normal kp
             /\ (extra = [balance_query (toSuiAddress sdk (getPublicKey sdk kp))]
                 \/ extra = [balance_query (toSuiAddress sdk (getPublicKey sdk kp));
                             submission w (toSuiAddress sdk (getPublicKey sdk kp))
                                        (ArgObject (VETTING_TABLE_ID w))])).
Proof.
  unfold submitForVetting.
  destruct (_ || _).
  { exists []. rewrite app_nil_r. split; [reflexivity | left; reflexivity]. }
  cbv zeta.
  destruct (signer_of sdk w fromHex (with_default argument JNull)) as [kp|e] eqn:Hs.
  2:{ exists []. rewrite app_nil_r. split; [reflexivity | left; reflexivity]. }
  rewrite bind_lift_normal.
  set (a := toSuiAddress sdk (getPublicKey sdk kp)).
  pose proof (check_balance_sends a st) as Hb.
  unfold bind at 1. destruct (check_balance w a st) as [[[]|e] st1]; simpl in Hb.
  2:{ exists [balance_query a]. split; [exact Hb|]. right. exists kp. auto. }
  unfold tx_object.
  destruct (check_object sdk (VETTING_TABLE_ID w)) as [[]|e]; cbn [cbind].
  2:{ exists [balance_query a]. split; [exact Hb|]. right. exists kp. auto. }
  rewrite bind_lift_normal.
  rewrite (submit_sends a (ArgObject (VETTING_TABLE_ID w)) st1), Hb, <- app_assoc.
  eexists. split; [reflexivity|]. right. exists kp. auto.
Qed.

Section Route.
Variable stringify : jsval -> string.
Variable initializeVettingTable : M jsval.
Variable createSupply : jsval -> jsval -> M jsval.
Variable createDisplay createRestrictedDisplay :
  jsval -> jsval -> jsval -> jsval -> jsval -> jsval -> jsval -> M jsval.

(** X22. POST /api/submit-for-vetting, with lib/submitForVetting.js behind
    it, never submits without having asked for the balance first: a request
    leads to no remote call, or to the balance query for the signer's
    address alone, or to that query followed by the one submit_for_vetting
    transaction on the configured vetting table, signed by the same
    signer. *)
Theorem submit_route_asks_for_the_balance_first (reqBody : jsval) (st : state) :
  exists extra,
    calls (post sdk w stringify (submitForVetting sdk w fromHex) initializeVettingTable
                createSupply createDisplay createRestrictedDisplay
                SubmitForVetting reqBody st).2 = calls st ++ extra
    /\ (extra = []
        \/ exists kp,
             signer_of sdk w fromHex
               (with_default (lookup reqBody ["walletCredentials"]) JNull) = Normal kp
             /\ (extra = [balance_query (toSuiAddress sdk (getPublicKey sdk kp))]
                 \/ extra = [balance_query (toSuiAddress sdk (getPublicKey sdk kp));
                             submission w (toSuiAddress sdk (getPublicKey sdk kp))
                                        (ArgObject (VETTING_TABLE_ID w))])).
Proof.
  unfold post, post_submit_for_vetting.
  rewrite calls_try_catch_quiet by (intros; unfold route_failed; quiet).
  destruct (nullish reqBody) eqn:Hn.
  { exists []. rewrite app_nil_r. split; [|left; reflexivity].
    unfold destructure. rewrite Hn. reflexivity. }
  rewrite (destructure_get _ _ _ Hn), (get_lookup _ _ Hn), bind_lift_normal.
  set (credentials := lookup reqBody ["walletCredentials"]).
  destruct (submitForVetting_calls credentials st) as (extra & Hc & Hx).
  exists extra. split; [|exact Hx].
  unfold bind. destruct (submitForVetting sdk w fromHex credentials st) as [[v|e] st1];
    exact Hc.
Qed.

End Route.

End SubmitForVetting.

Lemma passed_credentials_are_used_alone_witness :
  (forall w', signer_of Demo.sdk w' Examples.fromHex Examples.both_credentials
              = signer_of Demo.sdk Examples.quiet_world Examples.fromHex
                  Examples.both_credentials)
  /\ signer_of Demo.sdk Examples.quiet_world Examples.fromHex Examples.both_credentials
     = Normal Examples.signer.
Proof.
  destruct (passed_credentials_are_used_alone Demo.sdk Examples.quiet_world Examples.fromHex
              Examples.both_credentials
              (JStr "abandon ability able about above absent absorb abstract absurd abuse access accident")
              start eq_refl eq_refl) as (Henv & Hmnemonic & _).
  split; [exact Henv|]. rewrite (Hmnemonic eq_refl). reflexivity.
Defined.

Lemma zero_balance_stops_the_submission_witness :
  submitForVetting Demo.sdk (Examples.node Demo.configured Examples.empty_wallet)
    Examples.fromHex JUndefined start
  = (Throw (no_tokens Examples.signer_address),
     after_call start (balance_query Examples.signer_address)).
Proof.
  apply (zero_balance_stops_the_submission Demo.sdk
           (Examples.node Demo.configured Examples.empty_wallet) Examples.fromHex
           JUndefined
           (JObj [("coinType", JStr "0x2::sui::SUI"); ("totalBalance", JStr "0")])
           (JStr "0") Examples.signer start);
    vm_compute; reflexivity.
Defined.

Lemma failed_balance_query_is_ignored_witness :
  calls (submitForVetting Demo.sdk (Examples.node Demo.configured Examples.no_balance_service)
           Examples.fromHex Examples.credentials start).2
  = [balance_query
       (toSuiAddress Demo.sdk (getPublicKey Demo.sdk (slice 0 32 (Examples.seq_bytes 32))));
     submission (Examples.node Demo.configured Examples.no_balance_service)
       (toSuiAddress Demo.sdk (getPublicKey Demo.sdk (slice 0 32 (Examples.seq_bytes 32))))
       (ArgObject (JStr "0x7ab1e"))].
Proof.
  rewrite (failed_balance_query_is_ignored Demo.sdk
             (Examples.node Demo.configured Examples.no_balance_service) Examples.fromHex
             Examples.credentials (Examples.seq_bytes 32) (Error "Error" "fetch failed") start);
    vm_compute; reflexivity.
Defined.

Lemma failed_submission_hides_the_cause_witness :
  (submit (Demo.world_with Demo.configured (Normal (Demo.executed "failure" [])))
          Examples.signer_address (ArgObject (JStr "0x7ab1e")) start).1
  = Throw (Error "Error" "Transaction failed: [object Object]")
  /\ calls (submit (Demo.world_with Demo.configured (Normal (Demo.executed "failure" [])))
                   Examples.signer_address (ArgObject (JStr "0x7ab1e")) start).2
     = calls start
       ++ [submission (Demo.world_with Demo.configured (Normal (Demo.executed "failure" [])))
                      Examples.signer_address (ArgObject (JStr "0x7ab1e"))].
Proof.
  apply (failed_submission_hides_the_cause
           (Demo.world_with Demo.configured (Normal (Demo.executed "failure" [])))
           Examples.signer_address (ArgObject (JStr "0x7ab1e"))
           (Demo.executed "failure" [])
           (JObj [("status", JObj [("status", JStr "failure"); ("error", JStr "MoveAbort")]);
                  ("gasUsed", JObj [("computationCost", JStr "1000000")])])
           [("status", JStr "failure"); ("error", JStr "MoveAbort")] start);
    reflexivity.
Defined.

(** ** createDisplay and initializeVettingTable *)

Section CreateDisplay.
Variable sdk : sui_sdk.
Variable w : world.
Variable stringify : jsval -> string.
Variable serialize_strings : jsval -> completion buffer.

Lemma prepare_display_issues (a1 a2 a3 a4 a5 a6 a7 : jsval) :
  issues_at_most 0 (prepare_display sdk a1 a2 a3 a4 a5 a6 a7).
Proof. unfold prepare_display. quiet. Qed.

Lemma conclude_display_issues (result : jsval) :
  issues_at_most 0 (conclude_display stringify result).
Proof. unfold conclude_display. quiet. Qed.

Lemma prepare_display_rejects
    (mnemonic publisherId packageId suiNetwork displayKeys displayValues braavVersion : jsval)
    (st : state) :
  display_arguments_ok mnemonic publisherId packageId suiNetwork displayKeys displayValues
    braavVersion = false ->
  exists msg,
    prepare_display sdk mnemonic publisherId packageId suiNetwork displayKeys displayValues
      braavVersion st = (Throw (Error "Error" msg), st)
    /\ In msg display_argument_messages.
Proof.
  intros Hbad. unfold prepare_display, display_argument_messages.
  required mnemonic. required publisherId. required packageId. required suiNetwork.
  destruct (is_array displayKeys) eqn:Hk.
  2:{ rewrite orb_true_r. eexists. split; [reflexivity | pick_message]. }
  destruct displayKeys as [| | | | |keys|]; try discriminate Hk.
  destruct (is_array displayValues) eqn:Hv.
  2:{ change (negb (truthy (JArr keys)) || negb true) with false. cbv iota.
      rewrite bind_lift_normal, orb_true_r.
      eexists. split; [reflexivity | pick_message]. }
  destruct displayValues as [| | | | |values|]; try discriminate Hv.
  change (truthy (JArr keys)) with true. change (truthy (JArr values)) with true.
  change (is_array (JArr keys)) with true. change (is_array (JArr values)) with true.
  change (negb true || negb true) with false. cbv iota. rewrite !bind_lift_normal.
  change (get (JArr keys) "length") with (Normal (JNum (Z.of_nat (length keys)))).
  change (get (JArr values) "length") with (Normal (JNum (Z.of_nat (length values)))).
  cbn [cbind].
  destruct (length keys =? length values)%nat eqn:Hlen.
  2:{ apply Nat.eqb_neq in Hlen.
      assert (Hz : (Z.of_nat (length keys) =? Z.of_nat (length values)) = false)
        by (apply Z.eqb_neq; lia).
      rewrite Hz. eexists. split; [reflexivity | pick_message]. }
  apply Nat.eqb_eq in Hlen. rewrite Hlen, Z.eqb_refl.
  change (negb true) with false. cbv iota. rewrite bind_lift_normal.
  required braavVersion.
  exfalso. unfold display_arguments_ok in Hbad. simpl in Hbad.
  rewrite Hset, Hset0, Hset1, Hset2, Hset3, Hlen, Nat.eqb_refl in Hbad.
  discriminate Hbad.
Qed.

(** X23. createDisplay tests its arguments before it does anything else:
    when mnemonic, publisherId, packageId, suiNetwork or braavVersion is
    falsy, or displayKeys and displayValues are not two arrays of the same
    length, it throws an Error with one of its eight argument messages and
    no remote call has been issued. A request that passed the checks of POST
    /api/create-display, with the four environment variables configured,
    never fails these tests. *)
Theorem display_rejects_bad_arguments_before_any_call
    (mnemonic publisherId packageId suiNetwork displayKeys displayValues braavVersion : jsval)
    (st : state) :
  (display_arguments_ok mnemonic publisherId packageId suiNetwork displayKeys displayValues
     braavVersion = false ->
   exists msg st',
     createDisplay sdk w stringify serialize_strings mnemonic publisherId packageId
       suiNetwork displayKeys displayValues braavVersion st
     = (Throw (Error "Error" msg), st')
     /\ calls st' = calls st
     /\ In msg display_argument_messages)
  /\ (display_fields_problem displayKeys displayValues braavVersion = Normal None ->
      forallb truthy [mnemonic; publisherId; packageId; suiNetwork] = true ->
      display_arguments_ok mnemonic publisherId packageId suiNetwork displayKeys
        displayValues braavVersion = true).
Proof.
  split.
  - intros Hbad.
    destruct (prepare_display_rejects mnemonic publisherId packageId suiNetwork displayKeys
                displayValues braavVersion st Hbad) as (msg & Hp & Hmsg).
    exists msg. eexists. unfold createDisplay.
    rewrite (try_bind_throw _ _ _ _ _ _ Hp).
    split; [reflexivity|]. split; [reflexivity | exact Hmsg].
  - intros Hroute Henv. unfold display_arguments_ok. rewrite Henv.
    unfold display_fields_problem in Hroute.
    destruct (is_array displayKeys) eqn:Hk;
      [|rewrite orb_true_r in Hroute; discriminate Hroute].
    destruct displayKeys as [| | | | |keys|]; try discriminate Hk.
    change (negb (truthy (JArr keys)) || negb true) with false in Hroute.
    cbv iota in Hroute.
    destruct (is_array displayValues) eqn:Hv;
      [|rewrite orb_true_r in Hroute; discriminate Hroute].
    destruct displayValues as [| | | | |values|]; try discriminate Hv.
    simpl in Hroute.
    destruct (Z.of_nat (length keys) =? Z.of_nat (length values)) eqn:Hlen;
      simpl in Hroute; [|discriminate Hroute].
    apply Z.eqb_eq in Hlen. apply Nat2Z.inj in Hlen. rewrite Hlen, Nat.eqb_refl.
    destruct (truthy braavVersion); [reflexivity | discriminate Hroute].
Qed.

(** X24. createDisplay submits its transaction only for an id the node has
    confirmed to be a Publisher: it issues no remote call, or the getObject
    query alone, or that query followed by one submission, and the
    submission only when the answer to the query carries no error and data
    of type 0x2::package::Publisher. *)
Theorem display_is_submitted_only_for_a_publisher
    (mnemonic publisherId packageId suiNetwork displayKeys displayValues braavVersion : jsval)
    (st : state) :
  exists extra,
    calls (createDisplay sdk w stringify serialize_strings mnemonic publisherId packageId
             suiNetwork displayKeys displayValues braavVersion st).2 = calls st ++ extra
    /\ (extra = []
        \/ extra = [publisher_query publisherId]
        \/ exists publisherObj submission,
             client w (calls st) (publisher_query publisherId) = Normal publisherObj
             /\ not_a_publisher publisherObj = Normal false
             /\ extra = [publisher_query publisherId; submission]).
Proof.
  unfold createDisplay.
  rewrite calls_try_catch_quiet by (intros; quiet).
  set (prepare := prepare_display _ _ _ _ _ _ _ _).
  pose proof (issues_none prepare st ltac:(subst prepare; apply prepare_display_issues))
    as Hq.
  unfold bind at 1. destruct (prepare st) as [[kp|e] st1]; simpl in Hq.
  2:{ exists []. rewrite app_nil_r. split; [exact Hq | left; reflexivity]. }
  cbv zeta. unfold bind at 1, remote at 1. rewrite Hq.
  set (q := publisher_query publisherId).
  set (st2 := State (calls st ++ [q]) _ _ _).
  destruct (client w (calls st) q) as [publisherObj|e] eqn:Hc.
  2:{ exists [q]. split; [reflexivity | right; left; reflexivity]. }
  destruct (not_a_publisher publisherObj) as [[|]|e] eqn:Hp.
  - rewrite bind_lift_normal. exists [q]. split; [reflexivity | right; left; reflexivity].
  - rewrite bind_lift_normal. unfold bind at 1, ret at 1.
    match goal with
    | |- context [lift ?c] => destruct c as [submission|e] eqn:Hb
    end.
    + rewrite bind_lift_normal.
      set (rest := conclude_display stringify).
      assert (Hrest : forall r, issues_at_most 0 (rest r))
        by (intros; apply conclude_display_issues).
      unfold bind at 1, remote at 1.
      destruct (client w (calls st2) submission) as [result|e].
      * rewrite (issues_none (rest result) _ (Hrest result)). simpl.
        exists [q; submission]. rewrite <- app_assoc. split; [reflexivity|].
        right; right. exists publisherObj, submission. auto.
      * simpl. exists [q; submission]. rewrite <- app_assoc. split; [reflexivity|].
        right; right. exists publisherObj, submission. auto.
    + exists [q]. split; [reflexivity | right; left; reflexivity].
  - exists [q]. split; [reflexivity | right; left; reflexivity].
Qed.

(** X25. initializeVettingTable sends the node nothing, or exactly one
    transaction: initialize_vetting_table of the configured package on the
    configured admin capability, signed by the key derived from MNEMONIC. It
    does so only when PACKAGE_ID, MNEMONIC and ADMIN_CAP are all set. *)
Theorem initialization_sends_only_its_call :
  may_send
    (fun r => truthy (getenv w "PACKAGE_ID") = true
              /\ truthy (getenv w "MNEMONIC") = true
              /\ truthy (getenv w "ADMIN_CAP") = true
              /\ exists kp, deriveKeypair sdk (getenv w "MNEMONIC") = Normal kp
                   /\ r = initialization w (ArgObject (getenv w "ADMIN_CAP"))
                                         (toSuiAddress sdk (getPublicKey sdk kp)))
    (initializeVettingTable sdk w stringify).
Proof.
  unfold initializeVettingTable.
  destruct (truthy (getenv w "PACKAGE_ID")) eqn:Hp; cbn [negb]; [|apply may_quiet; quiet].
  destruct (truthy (getenv w "MNEMONIC")) eqn:Hm; cbn [negb]; [|apply may_quiet; quiet].
  apply may_bind_lift. intros kp Hkp.
  destruct (truthy (getenv w "ADMIN_CAP")) eqn:Ha; cbn [negb]; [|apply may_quiet; quiet].
  apply may_bind_lift. intros cap Hcap.
  unfold tx_object in Hcap.
  checked_in Hcap (check_object sdk (getenv w "ADMIN_CAP")).
  injection Hcap as <-.
  apply may_try_catch; [|intros; quiet].
  apply may_bind_then_quiet; [|intros; quiet].
  apply may_remote. repeat (split; [reflexivity|]).
  exists kp. split; [exact Hkp | reflexivity].
Qed.

End CreateDisplay.

(** ** fetchWithRetry and createSupply *)

Section SupplyScript.
Variable sdk : sui_sdk.
Variable w : world.
Variable stringify : jsval -> string.
Variable check_pure_u64 : jsval -> completion unit.
Variable code_of : error -> jsval.
Variable converts_above_zero : jsval -> bool.

Lemma fetch_once_cases (objectId : jsval) (retries i : Z) (st : state) :
  calls (fetch_once w code_of objectId retries i st).2 = calls st ++ [object_query objectId]
  /\ match (fetch_once w code_of objectId retries i st).1 with
     | Normal (Some obj) => truthy (lookup obj ["data"]) = true
     | Normal None => True
     | Throw e => is_str (code_of e) "notExists" = false
     end.
Proof.
  unfold fetch_once.
  destruct (client w (calls st) (object_query objectId)) as [obj|e] eqn:Hc.
  - rewrite (try_remote_normal _ _ _ _ _ _ Hc). unfold try_catch.
    destruct (get obj "data") as [data|e] eqn:Hd.
    + rewrite bind_lift_normal. unfold ret. simpl.
      split; [reflexivity|].
      destruct (truthy data) eqn:Ht; [|exact I].
      assert (Hn : nullish obj = false)
        by (destruct obj; try reflexivity; discriminate Hd).
      rewrite (get_lookup obj "data" Hn) in Hd. injection Hd as <-. exact Ht.
    + rewrite bind_lift_throw.
      destruct (is_str (code_of e) "notExists") eqn:Hcode; simpl;
        split; try reflexivity; try exact I. exact Hcode.
  - rewrite (try_remote_throw _ _ _ _ _ _ Hc).
    destruct (is_str (code_of e) "notExists") eqn:Hcode; simpl;
      split; try reflexivity; try exact I. exact Hcode.
Qed.

Lemma fetch_loop_bounded (objectId : jsval) (retries : Z) (remaining : nat) :
  forall (i : Z) (st : state),
  exists k,
    (k <= remaining)%nat
    /\ calls (fetch_loop w code_of objectId retries remaining i st).2
       = calls st ++ repeat (object_query objectId) k
    /\ match (fetch_loop w code_of objectId retries remaining i st).1 with
       | Normal obj => (1 <= k)%nat /\ truthy (lookup obj ["data"]) = true
       | Throw e =>
           (k = remaining
            /\ e = Error "Error" ("Object " +:+ to_string objectId +:+ " not found after "
                                  +:+ pretty retries +:+ " retries"))
           \/ ((1 <= k)%nat /\ is_str (code_of e) "notExists" = false)
       end.
Proof.
  induction remaining as [|remaining IH]; intros i st.
  - exists 0%nat. simpl. rewrite app_nil_r. split; [lia|]. split; [reflexivity|].
    left. split; reflexivity.
  - simpl fetch_loop. unfold bind.
    destruct (fetch_once_cases objectId retries i st) as [Hcalls Hcase].
    destruct (fetch_once w code_of objectId retries i st) as [[[obj|]|e] st1];
      simpl in Hcalls, Hcase.
    + exists 1%nat. simpl. split; [lia|]. split; [exact Hcalls|]. split; [lia | exact Hcase].
    + destruct (IH (i + 1) st1) as (k & Hk & Hc & Hr).
      exists (S k). split; [lia|]. split.
      * rewrite Hc, Hcalls, <- app_assoc. reflexivity.
      * destruct (fetch_loop w code_of objectId retries remaining (i + 1) st1).1
          as [obj|e'].
        -- destruct Hr as [_ Hr]. split; [lia | exact Hr].
        -- destruct Hr as [[-> ->]|[_ Hr]]; [left; split; reflexivity|].
           right. split; [lia | exact Hr].
    + exists 1%nat. simpl. split; [lia|]. split; [exact Hcalls|].
      right. split; [lia | exact Hcase].
Qed.

(** X26. fetchWithRetry asks for the object at most [retries] times and for
    nothing else. When it returns, the object it returns has data. When it
    throws, either all [retries] queries were made and the error is 'Object
    <id> not found after <retries> retries' (so with zero retries it throws
    at once), or the client threw an error whose code is not 'notExists',
    which is rethrown without further queries. *)
Theorem fetchWithRetry_stops_after_its_retries
    (objectId : jsval) (retries : nat) (st : state) :
  exists k,
    (k <= retries)%nat
    /\ calls (fetchWithRetry w code_of objectId retries st).2
       = calls st ++ repeat (object_query objectId) k
    /\ match (fetchWithRetry w code_of objectId retries st).1 with
       | Normal obj => (1 <= k)%nat /\ truthy (lookup obj ["data"]) = true
       | Throw e =>
           (k = retries
            /\ e = Error "Error" ("Object " +:+ to_string objectId +:+ " not found after "
                                  +:+ pretty (Z.of_nat retries) +:+ " retries"))
           \/ ((1 <= k)%nat /\ is_str (code_of e) "notExists" = false)
       end.
Proof. apply fetch_loop_bounded. Qed.

(** What createSupply does up to the answer to its ownership query. *)
Lemma createSupply_up_to_the_query
    (limit braavTypeArg : jsval) (number : string) (kp : keypair sdk) (st : state) :
  braav_number braavTypeArg = Normal number ->
  forallb truthy [mnemonic w; packageId w; suiNetwork w; creatorCapId w] = true ->
  deriveKeypair sdk (mnemonic w) = Normal kp ->
  createSupply sdk w stringify check_pure_u64 code_of converts_above_zero
    limit braavTypeArg st
  = try_catch
      (objects <- lift (client w (calls st)
                          (owned_query w (toSuiAddress sdk (getPublicKey sdk kp))
                                       braavTypeArg)) ;;
       data <- lift (get objects "data") ;;
       count <- lift (get data "length") ;;
       (if above_zero converts_above_zero count
        then throw (Error "Error" (number +:+ " already used for packageId "
                                   +:+ to_string (packageId w) +:+ "."))
        else ret tt) ;;;
       lift (check_object sdk (creatorCapId w)) ;;;
       lift (check_pure_u64 limit) ;;;
       result <- remote w (supply_submission w limit braavTypeArg
                             (toSuiAddress sdk (getPublicKey sdk kp))) ;;
       log LogLevel [JStr "Full Transaction Result:"; JStr (stringify result)] ;;;
       createdBraav <- lift (find_created "::braav_public::BRAAV" result) ;;
       createdLineage <- lift (find_created "::braav_public::Lineage" result) ;;
       createdCounter <- lift (find_change
                                 (is_created_counter
                                    (toSuiAddress sdk (getPublicKey sdk kp))) result) ;;
       counterId <- counter_of w code_of createdBraav ;;
       supplyCapId <- lift (get_opt createdBraav "objectId") ;;
       lineageObjectId <- lift (get_opt createdLineage "objectId") ;;
       createdCounterId <- lift (get_opt createdCounter "objectId") ;;
       log LogLevel [JObj [("SupplyCapId", js_coalesce supplyCapId (JStr "Not found"));
                           ("LineageObjectId",
                            js_coalesce lineageObjectId (JStr "Not found"));
                           ("CounterId", js_coalesce createdCounterId counterId)]] ;;;
       ret result)
      (fun error =>
         log ErrorLevel [JStr ("Error creating " +:+ number +:+ " supply:");
                         JStr (message error)] ;;;
         throw error)
      (after_call st (owned_query w (toSuiAddress sdk (getPublicKey sdk kp))
                                  braavTypeArg)).
Proof.
  intros Hnum Henv Hkp. unfold createSupply. rewrite Hnum, bind_lift_normal.
  simpl in Henv.
  repeat match goal with
         | H : _ && _ = true |- _ => apply andb_true_iff in H; destruct H
         end.
  unfold try_catch.
  rewrite !bind_require_pass by assumption.
  rewrite Hkp, bind_lift_normal. cbv zeta.
  unfold bind at 1, remote at 1. unfold bind at 6, lift at 1, after_call.
  destruct (client w (calls st) _); reflexivity.
Qed.

(** X27. createSupply refuses a type that is already in use: when the
    signer owns an object of the BRAAV type, it throws '<BRAAVn> already used
    for packageId <package>.', where BRAAVn is the first BRAAV followed by
    digits in the type name ('Unknown BRAAV' when there is none), and nothing
    is submitted: the ownership query is its only remote call. *)
Theorem existing_supply_is_refused
    (limit braavTypeArg objects first : jsval) (others : list jsval) (number : string)
    (kp : keypair sdk) (st : state) :
  braav_number braavTypeArg = Normal number ->
  forallb truthy [mnemonic w; packageId w; suiNetwork w; creatorCapId w] = true ->
  deriveKeypair sdk (mnemonic w) = Normal kp ->
  client w (calls st)
    (owned_query w (toSuiAddress sdk (getPublicKey sdk kp)) braavTypeArg)
  = Normal objects ->
  get objects "data" = Normal (JArr (first :: others)) ->
  exists st',
    createSupply sdk w stringify check_pure_u64 code_of converts_above_zero
      limit braavTypeArg st
    = (Throw (Error "Error" (number +:+ " already used for packageId "
                             +:+ to_string (packageId w) +:+ ".")), st')
    /\ calls st' = calls st ++ [owned_query w (toSuiAddress sdk (getPublicKey sdk kp))
                                           braavTypeArg].
Proof.
  intros Hnum Henv Hkp Hc Hdata.
  rewrite (createSupply_up_to_the_query limit braavTypeArg number kp st Hnum Henv Hkp).
  unfold try_catch. rewrite Hc, bind_lift_normal, Hdata, bind_lift_normal.
  change (get (JArr (first :: others)) "length")
    with (Normal (JNum (Z.of_nat (length (first :: others))))).
  rewrite bind_lift_normal.
  assert (Hpos : above_zero converts_above_zero (JNum (Z.of_nat (length (first :: others))))
                 = true).
  { unfold above_zero. apply Z.ltb_lt. simpl length. lia. }
  rewrite Hpos. eexists. split; reflexivity.
Qed.

(** X28. createSupply does not read the execution status: when the node
    answers the submission at all, with an answer that lists no object
    changes, createSupply returns that answer as its result, whatever
    status and error the answer's effects report. Two remote calls have been
    made, the ownership query and the submission. *)
Theorem createSupply_returns_an_unchecked_result
    (limit braavTypeArg objects result : jsval) (number : string)
    (kp : keypair sdk) (st : state) :
  braav_number braavTypeArg = Normal number ->
  forallb truthy [mnemonic w; packageId w; suiNetwork w; creatorCapId w] = true ->
  deriveKeypair sdk (mnemonic w) = Normal kp ->
  client w (calls st)
    (owned_query w (toSuiAddress sdk (getPublicKey sdk kp)) braavTypeArg)
  = Normal objects ->
  get objects "data" = Normal (JArr []) ->
  check_object sdk (creatorCapId w) = Normal tt ->
  check_pure_u64 limit = Normal tt ->
  client w (calls st ++ [owned_query w (toSuiAddress sdk (getPublicKey sdk kp))
                                     braavTypeArg])
    (supply_submission w limit braavTypeArg (toSuiAddress sdk (getPublicKey sdk kp)))
  = Normal result ->
  get result "objectChanges" = Normal JUndefined ->
  exists st',
    createSupply sdk w stringify check_pure_u64 code_of converts_above_zero
      limit braavTypeArg st = (Normal result, st')
    /\ calls st'
       = calls st ++ [owned_query w (toSuiAddress sdk (getPublicKey sdk kp)) braavTypeArg;
                      supply_submission w limit braavTypeArg
                        (toSuiAddress sdk (getPublicKey sdk kp))].
Proof.
  intros Hnum Henv Hkp Hc Hdata Hobj Hu64 Hsub Hchanges.
  rewrite (createSupply_up_to_the_query limit braavTypeArg number kp st Hnum Henv Hkp).
  unfold try_catch. rewrite Hc, bind_lift_normal, Hdata, bind_lift_normal.
  change (get (JArr []) "length") with (Normal (JNum 0)).
  rewrite bind_lift_normal. change (above_zero converts_above_zero (JNum 0)) with false.
  cbv iota. unfold bind at 1, ret at 1.
  rewrite Hobj, bind_lift_normal, Hu64, bind_lift_normal.
  unfold bind at 1, remote at 1, after_call. simpl calls. rewrite Hsub.
  rewrite bind_log.
  assert (Hf : forall marker, find_created marker result = Normal JUndefined)
    by (intros; unfold find_created; rewrite Hchanges; reflexivity).
  assert (Hf' : forall p, find_change p result = Normal JUndefined)
    by (intros; unfold find_change; rewrite Hchanges; reflexivity).
  rewrite !Hf, bind_lift_normal, bind_lift_normal, Hf', bind_lift_normal.
  match goal with
  | |- context [bind (counter_of w code_of JUndefined) ?k ?s] =>
      rewrite (bind_normal (counter_of w code_of JUndefined) k s s (JStr "Not found")
                 eq_refl)
  end.
  change (get_opt JUndefined "objectId") with (@Normal jsval JUndefined).
  rewrite !bind_lift_normal, bind_log. unfold ret.
  eexists. split; [reflexivity|]. simpl. rewrite <- app_assoc. reflexivity.
Qed.

End SupplyScript.

Lemma existing_supply_is_refused_witness :
  exists st',
    createSupply Demo.sdk
      (Examples.node Examples.supply_env
         (Examples.owns [JObj [("data", JObj [("objectId", JStr "0x51")])]]))
      (fun v => to_string v) Examples.check_pure_u64 Examples.code_of
      Examples.converts_above_zero (JNum 10) (JStr "0xabc::xoa::BRAAV16") start
    = (Throw (Error "Error" "BRAAV16 already used for packageId 0xabc."), st')
    /\ length (calls st') = 1%nat.
Proof.
  destruct (existing_supply_is_refused Demo.sdk
              (Examples.node Examples.supply_env
                 (Examples.owns [JObj [("data", JObj [("objectId", JStr "0x51")])]]))
              (fun v => to_string v) Examples.check_pure_u64 Examples.code_of
              Examples.converts_above_zero (JNum 10) (JStr "0xabc::xoa::BRAAV16")
              (JObj [("data", JArr [JObj [("data", JObj [("objectId", JStr "0x51")])]])])
              (JObj [("data", JObj [("objectId", JStr "0x51")])]) []
              "BRAAV16" Examples.signer start)
    as (st' & Hrun & Hcalls).
  - reflexivity.
  - vm_compute. reflexivity.
  - vm_compute. reflexivity.
  - reflexivity.
  - reflexivity.
  - exists st'. split; [exact Hrun|]. rewrite Hcalls. reflexivity.
Defined.

Lemma createSupply_returns_an_unchecked_result_witness :
  exists result st',
    createSupply Demo.sdk (Examples.node Examples.supply_env (Examples.owns []))
      (fun v => to_string v) Examples.check_pure_u64 Examples.code_of
      Examples.converts_above_zero (JNum 10) (JStr "0xabc::xoa::BRAAV16") start
    = (Normal result, st')
    /\ lookup result ["effects"; "status"; "status"] = JStr "failure"
    /\ length (calls st') = 2%nat.
Proof.
  destruct (createSupply_returns_an_unchecked_result Demo.sdk
              (Examples.node Examples.supply_env (Examples.owns []))
              (fun v => to_string v) Examples.check_pure_u64 Examples.code_of
              Examples.converts_above_zero (JNum 10) (JStr "0xabc::xoa::BRAAV16")
              (JObj [("data", JArr [])])
              (JObj [("digest", JStr "9WzSXdwbky8tNbH7juvyaui4QzMUYEjdCEKMrMgLhXHT");
                     ("effects", JObj [("status", JObj [("status", JStr "failure");
                                                        ("error", JStr "MoveAbort")])])])
              "BRAAV16" Examples.signer start)
    as (st' & Hrun & Hcalls).
  - reflexivity.
  - vm_compute. reflexivity.
  - vm_compute. reflexivity.
  - reflexivity.
  - reflexivity.
  - reflexivity.
  - reflexivity.
  - reflexivity.
  - reflexivity.
  - eexists. exists st'. split; [exact Hrun|]. split; [reflexivity|].
    rewrite Hcalls. reflexivity.
Defined.

